(** * apod-api: the page-extraction engine and the date orchestration

    A shallow embedding of [apod/app.py].  Python values are modelled as the
    code has them: [str] as [string] (one [ascii] per code point below 256),
    [int] as [Z], [datetime.date] as a record of year, month and day, a
    [dict] with string keys as an insertion-ordered association list, the
    BeautifulSoup parse tree as an inductive type, and exceptions as values
    of an error monad that also threads the log of the pages requested from
    the backing site. *)

From Stdlib Require Import ZArith List String Ascii Bool Arith Lia FinFun Sorted.
Import ListNotations.

Local Open Scope string_scope.
Local Open Scope Z_scope.

(** ** Exceptions and results *)

Inductive exn_class :=
| TypeError | ValueError | KeyError | IndexError | AttributeError
| NameError | OverflowError
| Exception_                      (* a plain [Exception(...)] *)
| OtherError (name : string).     (* any other subclass of [Exception] *)

Record exn := mkexn { exn_type : exn_class; exn_msg : string }.

Inductive result (A : Type) :=
| Ok (a : A)
| Raise (e : exn).
Arguments Ok {A} a.
Arguments Raise {A} e.

(** [isinstance(e, ValueError)], what [except ValueError] tests. *)
Definition is_ValueError (e : exn) : bool :=
  match exn_type e with ValueError => true | _ => false end.

(** [str(type(e))] *)
Definition class_name (c : exn_class) : string :=
  match c with
  | TypeError => "TypeError" | ValueError => "ValueError"
  | KeyError => "KeyError" | IndexError => "IndexError"
  | AttributeError => "AttributeError" | NameError => "NameError"
  | OverflowError => "OverflowError" | Exception_ => "Exception"
  | OtherError name => name
  end.

Definition str_of_type (c : exn_class) : string :=
  "<class '" ++ class_name c ++ "'>".

(** ** The [str] methods the program calls *)

Module PyStr.

Definition LF : ascii := ascii_of_nat 10.
Definition NL : string := String LF "".

(** [c in chars] for a single character. *)
Fixpoint mem (c : ascii) (chars : string) : bool :=
  match chars with
  | EmptyString => false
  | String d rest => Ascii.eqb c d || mem c rest
  end.

(** [s.startswith(p)] *)
Definition startswith (s p : string) : bool := String.prefix p s.

(** [sub in s] *)
Fixpoint contains (sub s : string) : bool :=
  String.prefix sub s ||
  match s with
  | EmptyString => false
  | String _ rest => contains sub rest
  end.

(** [s[n:]] for [n >= 0]. *)
Fixpoint drop (n : nat) (s : string) : string :=
  match n, s with
  | O, _ => s
  | S _, EmptyString => EmptyString
  | S k, String _ rest => drop k rest
  end.

(** [s.replace(old, new)] for a non-empty [old]: the occurrences are
    found from the left and do not overlap.  [skip] counts the characters
    of a match that are still to be consumed. *)
Fixpoint replace_from (old new : string) (skip : nat) (s : string) : string :=
  match s with
  | EmptyString => EmptyString
  | String c rest =>
      match skip with
      | S k => replace_from old new k rest
      | O =>
          if String.prefix old s
          then new ++ replace_from old new (String.length old - 1) rest
          else String c (replace_from old new O rest)
      end
  end.

Definition replace (s old new : string) : string := replace_from old new O s.

(** [s.lstrip(chars)], [s.rstrip(chars)], [s.strip(chars)]: [chars] is a
    set of characters, not a prefix. *)
Fixpoint lstrip (s chars : string) : string :=
  match s with
  | EmptyString => EmptyString
  | String c rest => if mem c chars then lstrip rest chars else s
  end.

Fixpoint rstrip (s chars : string) : string :=
  match s with
  | EmptyString => EmptyString
  | String c rest =>
      match rstrip rest chars with
      | EmptyString => if mem c chars then EmptyString else String c EmptyString
      | kept => String c kept
      end
  end.

Definition strip (s chars : string) : string := rstrip (lstrip s chars) chars.

(** The code points below 256 for which [str.isspace] holds. *)
Definition is_space (c : ascii) : bool :=
  let n := Z.of_nat (nat_of_ascii c) in
  ((9 <=? n) && (n <=? 13)) || ((28 <=? n) && (n <=? 32))
  || (n =? 133) || (n =? 160).

Fixpoint lstrip_ws (s : string) : string :=
  match s with
  | EmptyString => EmptyString
  | String c rest => if is_space c then lstrip_ws rest else s
  end.

Fixpoint rstrip_ws (s : string) : string :=
  match s with
  | EmptyString => EmptyString
  | String c rest =>
      match rstrip_ws rest with
      | EmptyString => if is_space c then EmptyString else String c EmptyString
      | kept => String c kept
      end
  end.

(** [s.strip()] *)
Definition strip_ws (s : string) : string := rstrip_ws (lstrip_ws s).

(** [s.split(sep)] for a non-empty [sep]: the first piece and the pieces
    after it. *)
Fixpoint split_from (sep : string) (skip : nat) (s : string) : string * list string :=
  match s with
  | EmptyString => (EmptyString, [])
  | String c rest =>
      match skip with
      | S k => split_from sep k rest
      | O =>
          if String.prefix sep s
          then (EmptyString,
                let (p, ps) := split_from sep (String.length sep - 1) rest in p :: ps)
          else let (p, ps) := split_from sep O rest in (String c p, ps)
      end
  end.

Definition split (s sep : string) : list string :=
  let (p, ps) := split_from sep O s in p :: ps.

(** [sep.join(parts)] *)
Fixpoint join (sep : string) (parts : list string) : string :=
  match parts with
  | [] => EmptyString
  | [p] => p
  | p :: rest => p ++ sep ++ join sep rest
  end.

(** [parts.index(x)] as an option; the caller raises [ValueError]. *)
Fixpoint index (x : string) (parts : list string) : option nat :=
  match parts with
  | [] => None
  | p :: rest => if String.eqb p x then Some O else option_map S (index x rest)
  end.

(** Decimal digits. *)
Definition digit (d : Z) : ascii := ascii_of_nat (48 + Z.to_nat (d mod 10)).

Definition is_digit (c : ascii) : bool :=
  let n := nat_of_ascii c in (48 <=? n)%nat && (n <=? 57)%nat.

Definition digit_val (c : ascii) : Z := Z.of_nat (nat_of_ascii c) - 48.

(** ["%02d" % n] and ["%04d" % n] on the ranges dates use. *)
Definition pad2 (n : Z) : string :=
  String (digit (n / 10)) (String (digit n) "").

Definition pad4 (n : Z) : string :=
  String (digit (n / 1000)) (String (digit (n / 100)) (pad2 n)).

(** [str(n)] for [n >= 0]; [fuel] bounds the number of digits. *)
Fixpoint dec_from (fuel : nat) (n : Z) (acc : string) : string :=
  match fuel with
  | O => acc
  | S k =>
      let acc' := String (digit n) acc in
      if n <? 10 then acc' else dec_from k (n / 10) acc'
  end.

Definition dec (n : Z) : string := dec_from (S (Z.to_nat (Z.log2 n))) n "".

(** [repr(s)], as it appears in the messages of [int] and [strptime]. *)
Definition DQ : ascii := ascii_of_nat 34.
Definition SQ : ascii := ascii_of_nat 39.
Definition BS : ascii := ascii_of_nat 92.

Definition hex_digit (d : Z) : ascii :=
  if d <? 10 then ascii_of_nat (48 + Z.to_nat d) else ascii_of_nat (87 + Z.to_nat d).

Definition hex2 (n : Z) : string :=
  String (hex_digit (n / 16)) (String (hex_digit (n mod 16)) "").

Definition repr_char (quote c : ascii) : string :=
  let n := Z.of_nat (nat_of_ascii c) in
  if Ascii.eqb c BS then String BS (String BS "")
  else if Ascii.eqb c quote then String BS (String c "")
  else if n =? 9 then String BS "t"
  else if n =? 10 then String BS "n"
  else if n =? 13 then String BS "r"
  else if (n <? 32) || ((127 <=? n) && (n <=? 160)) || (n =? 173)
       then String BS ("x" ++ hex2 n)
  else String c "".

Fixpoint repr_body (quote : ascii) (s : string) : string :=
  match s with
  | EmptyString => EmptyString
  | String c rest => repr_char quote c ++ repr_body quote rest
  end.

Definition repr (s : string) : string :=
  let quote := if mem SQ s && negb (mem DQ s) then DQ else SQ in
  String quote (repr_body quote s ++ String quote "").

(** The digits of an [int] literal: single underscores may separate
    digits. *)
Fixpoint int_digits (acc : Z) (after_digit : bool) (s : string) : option Z :=
  match s with
  | EmptyString => if after_digit then Some acc else None
  | String c rest =>
      if is_digit c then int_digits (10 * acc + digit_val c) true rest
      else if Ascii.eqb c "_" && after_digit then int_digits acc false rest
      else None
  end.

(** [int(s)] for a [str] argument. *)
Definition int (s : string) : result Z :=
  let parsed :=
    match strip_ws s with
    | String "+" rest => int_digits 0 false rest
    | String "-" rest => option_map Z.opp (int_digits 0 false rest)
    | body => int_digits 0 false body
    end in
  match parsed with
  | Some n => Ok n
  | None =>
      Raise (mkexn ValueError ("invalid literal for int() with base 10: " ++ repr s))
  end.

End PyStr.

(** ** [datetime.date] *)

Module PyDate.

Record date := mkdate { year : Z; month : Z; day : Z }.

Definition MINYEAR : Z := 1.
Definition MAXYEAR : Z := 9999.
Definition _MAXORDINAL : Z := 3652059.

Definition _DAYS_IN_MONTH (m : Z) : Z :=
  nth (Z.to_nat m) [-1; 31; 28; 31; 30; 31; 30; 31; 31; 30; 31; 30; 31] (-1).

Definition _DAYS_BEFORE_MONTH (m : Z) : Z :=
  nth (Z.to_nat m) [-1; 0; 31; 59; 90; 120; 151; 181; 212; 243; 273; 304; 334] (-1).

Definition _is_leap (y : Z) : bool :=
  (y mod 4 =? 0) && (negb (y mod 100 =? 0) || (y mod 400 =? 0)).

Definition _days_before_year (y : Z) : Z :=
  let y := y - 1 in y * 365 + y / 4 - y / 100 + y / 400.

Definition _days_in_month (y m : Z) : Z :=
  if (m =? 2) && _is_leap y then 29 else _DAYS_IN_MONTH m.

Definition _days_before_month (y m : Z) : Z :=
  _DAYS_BEFORE_MONTH m + (if (2 <? m) && _is_leap y then 1 else 0).

Definition _ymd2ord (y m d : Z) : Z :=
  _days_before_year y + _days_before_month y m + d.

Definition _DI400Y : Z := 146097.
Definition _DI100Y : Z := 36524.
Definition _DI4Y : Z := 1461.

Definition _ord2ymd (n : Z) : date :=
  let n := n - 1 in
  let n400 := n / _DI400Y in
  let n := n mod _DI400Y in
  let y := n400 * 400 + 1 in
  let n100 := n / _DI100Y in
  let n := n mod _DI100Y in
  let n4 := n / _DI4Y in
  let n := n mod _DI4Y in
  let n1 := n / 365 in
  let n := n mod 365 in
  let y := y + n100 * 100 + n4 * 4 + n1 in
  if (n1 =? 4) || (n100 =? 4) then mkdate (y - 1) 12 31
  else
    let leapyear := (n1 =? 3) && (negb (n4 =? 24) || (n100 =? 3)) in
    let m := Z.shiftr (n + 50) 5 in
    let preceding :=
      _DAYS_BEFORE_MONTH m + (if (2 <? m) && leapyear then 1 else 0) in
    if n <? preceding then
      let m := m - 1 in
      let preceding :=
        preceding - (_DAYS_IN_MONTH m + (if (m =? 2) && leapyear then 1 else 0)) in
      mkdate y m (n - preceding + 1)
    else mkdate y m (n - preceding + 1).

(** The check [date(year, month, day)] makes on its fields. *)
Definition valid (d : date) : bool :=
  (MINYEAR <=? year d) && (year d <=? MAXYEAR)
  && (1 <=? month d) && (month d <=? 12)
  && (1 <=? day d) && (day d <=? _days_in_month (year d) (month d)).

Definition toordinal (d : date) : Z := _ymd2ord (year d) (month d) (day d).

(** [date.fromordinal(n)]; [None] stands for the [ValueError] raised out
    of range. *)
Definition fromordinal (n : Z) : option date :=
  if (1 <=? n) && (n <=? _MAXORDINAL) then Some (_ord2ymd n) else None.

(** Comparison of dates is the comparison of (year, month, day). *)
Definition cmp (a b : date) : comparison :=
  match year a ?= year b with
  | Eq => match month a ?= month b with
          | Eq => day a ?= day b
          | c => c
          end
  | c => c
  end.

Definition ltb (a b : date) : bool :=
  match cmp a b with Lt => true | _ => false end.
Definition gtb (a b : date) : bool := ltb b a.

(** The order of the calendar, stated on the fields. *)
Definition date_lt (a b : date) : Prop :=
  year a < year b
  \/ (year a = year b
      /\ (month a < month b \/ (month a = month b /\ day a < day b))).

Definition date_le (a b : date) : Prop := date_lt a b \/ a = b.

(** [d - timedelta(days=k)]; [None] stands for [OverflowError]. *)
Definition sub_days (d : date) (k : Z) : option date :=
  let o := toordinal d - k in
  if (0 <? o) && (o <=? _MAXORDINAL) then Some (_ord2ymd o) else None.

(** [d.isoformat()] *)
Definition isoformat (d : date) : string :=
  PyStr.pad4 (year d) ++ "-" ++ PyStr.pad2 (month d) ++ "-" ++ PyStr.pad2 (day d).

(** [d.strftime('%y%m%d')] *)
Definition strftime_ymd (d : date) : string :=
  PyStr.pad2 (year d mod 100) ++ PyStr.pad2 (month d) ++ PyStr.pad2 (day d).

Definition month_abbr (m : Z) : string :=
  nth (Z.to_nat m)
    [""; "Jan"; "Feb"; "Mar"; "Apr"; "May"; "Jun";
     "Jul"; "Aug"; "Sep"; "Oct"; "Nov"; "Dec"] "".

(** [d.strftime('%b %d, %Y')] in the C locale; the C library prints the
    year without padding. *)
Definition strftime_b_d_Y (d : date) : string :=
  month_abbr (month d) ++ " " ++ PyStr.pad2 (day d) ++ ", " ++ PyStr.dec (year d).

(** [datetime.strftime(d, '%Y-%m-%d')] *)
Definition strftime_Y_m_d (d : date) : string :=
  PyStr.dec (year d) ++ "-" ++ PyStr.pad2 (month d) ++ "-" ++ PyStr.pad2 (day d).

(** [datetime.strptime(s, '%Y-%m-%d').date()].  The format compiles to the
    regular expression
    [(?P<Y>\d\d\d\d)-(?P<m>1[0-2]|0[1-9]|[1-9])-(?P<d>3[01]|[12]\d|0[1-9]|[1-9]| [1-9])],
    matched at the start of [s]; then nothing may remain, and the fields
    must make a date. *)
Definition in_range (c lo hi : ascii) : bool :=
  let n := nat_of_ascii c in
  (nat_of_ascii lo <=? n)%nat && (n <=? nat_of_ascii hi)%nat.

Definition two (a b : ascii) : Z := 10 * PyStr.digit_val a + PyStr.digit_val b.

(** The month and the dash after it: two digits where they make a month
    and a dash follows, one digit otherwise. *)
Definition match_month (s : string) : option (Z * string) :=
  match s with
  | String a (String b rest) =>
      let two_digits :=
        match rest with
        | String c rest' =>
            if Ascii.eqb c "-"
               && ((Ascii.eqb a "1" && in_range b "0" "2")
                   || (Ascii.eqb a "0" && in_range b "1" "9"))
            then Some (two a b, rest') else None
        | EmptyString => None
        end in
      match two_digits with
      | Some found => Some found
      | None =>
          if in_range a "1" "9" && Ascii.eqb b "-"
          then Some (PyStr.digit_val a, rest) else None
      end
  | _ => None
  end.

Definition match_day (s : string) : option (Z * string) :=
  match s with
  | String a (String b rest) =>
      if (Ascii.eqb a "3" && in_range b "0" "1")
         || (in_range a "1" "2" && PyStr.is_digit b)
         || (Ascii.eqb a "0" && in_range b "1" "9")
      then Some (two a b, rest)
      else if in_range a "1" "9" then Some (PyStr.digit_val a, String b rest)
      else if Ascii.eqb a " " && in_range b "1" "9" then Some (PyStr.digit_val b, rest)
      else None
  | String a EmptyString =>
      if in_range a "1" "9" then Some (PyStr.digit_val a, EmptyString) else None
  | EmptyString => None
  end.

Definition match_format (s : string) : option (Z * Z * Z * string) :=
  match s with
  | String y1 (String y2 (String y3 (String y4 (String dash rest)))) =>
      if PyStr.is_digit y1 && PyStr.is_digit y2 && PyStr.is_digit y3 && PyStr.is_digit y4
         && Ascii.eqb dash "-"
      then
        match match_month rest with
        | Some (m, rest) =>
            match match_day rest with
            | Some (d, rest) => Some (100 * two y1 y2 + two y3 y4, m, d, rest)
            | None => None
            end
        | None => None
        end
      else None
  | _ => None
  end.

Definition strptime (s : string) : result date :=
  match match_format s with
  | None =>
      Raise (mkexn ValueError
               ("time data " ++ PyStr.repr s ++ " does not match format '%Y-%m-%d'"))
  | Some (y, m, d, rest) =>
      if negb (String.eqb rest "")
      then Raise (mkexn ValueError ("unconverted data remains: " ++ rest))
      else if y <? MINYEAR
      then Raise (mkexn ValueError ("year " ++ PyStr.dec y ++ " is out of range"))
      else if _days_in_month y m <? d
      then Raise (mkexn ValueError "day is out of range for month")
      else Ok (mkdate y m d)
  end.

End PyDate.

(** ** The BeautifulSoup parse tree *)

Module Soup.

(** A page element is a string of text or a tag with its attributes and
    contents.  The parser gives tag and attribute names in lower case. *)
#[warnings="-register-all"]
Inductive node :=
| NavigableString (s : string)
| Tag (name : string) (attrs : list (string * string)) (contents : list node).

(** [el.text]: the strings below [el], concatenated. *)
Fixpoint get_text (el : node) : string :=
  match el with
  | NavigableString s => s
  | Tag _ _ contents => String.concat "" (map get_text contents)
  end.

(** The elements below [el] in document order, each with the siblings
    that follow it ([next_sibling], repeated). *)
Fixpoint below (el : node) : list (node * list node) :=
  match el with
  | NavigableString _ => []
  | Tag _ _ contents =>
      (fix walk (l : list node) : list (node * list node) :=
         match l with
         | [] => []
         | c :: rest => (c, rest) :: below c ++ walk rest
         end) contents
  end.

Definition named (names : list string) (el : node) : bool :=
  match el with
  | Tag name _ _ => existsb (String.eqb name) names
  | NavigableString _ => false
  end.

(** [el[key]]; [None] stands for [KeyError]. *)
Definition attr (el : node) (key : string) : option string :=
  match el with
  | Tag _ attrs _ =>
      option_map snd (List.find (fun kv => String.eqb (fst kv) key) attrs)
  | NavigableString _ => None
  end.

(** [el.string]: the single string a tag holds, directly or through a
    chain of only children. *)
Fixpoint string_ (el : node) : option string :=
  match el with
  | NavigableString s => Some s
  | Tag _ _ [c] => string_ c
  | Tag _ _ _ => None
  end.

Definition has_string (el : node) : bool :=
  match string_ el with Some _ => true | None => false end.

(** [el.find_all(name)] *)
Definition find_all (el : node) (name : string) : list node :=
  filter (named [name]) (map fst (below el)).

(** [el.<name>], that is [el.find(name)] *)
Definition find (el : node) (name : string) : option node :=
  hd_error (find_all el name).

(** [el.find_all(name, href=True)] *)
Definition find_all_with_attr (el : node) (name key : string) : list node :=
  filter (fun e => match attr e key with Some _ => true | None => false end)
         (find_all el name).

(** [el.findAll(names, text=True)], with the following siblings. *)
Definition find_all_text (el : node) (names : list string) : list (node * list node) :=
  filter (fun e => named names (fst e) && has_string (fst e)) (below el).

(** Truth value of an element: a tag is always true, a string is true
    when it is not empty. *)
Definition truthy (el : node) : bool :=
  match el with
  | NavigableString s => negb (String.eqb s "")
  | Tag _ _ _ => true
  end.

End Soup.

(** ** Dictionaries with string keys and values, in insertion order *)

Definition dict := list (string * string).

Fixpoint dict_get (d : dict) (k : string) : option string :=
  match d with
  | [] => None
  | (k', v) :: rest => if String.eqb k' k then Some v else dict_get rest k
  end.

(** [d[k] = v] *)
Fixpoint dict_set (d : dict) (k v : string) : dict :=
  match d with
  | [] => [(k, v)]
  | (k', v') :: rest =>
      if String.eqb k' k then (k', v) :: rest else (k', v') :: dict_set rest k v
  end.

(** What [_apod_handler] returns: a record, or the [str] that [_abort]
    has from [json.dumps]. *)
Inductive value :=
| VDict (d : dict)
| VStr (s : string).

(** What is given to [json.dumps]: one such value, a list of them, or, as
    a keyword argument, an [int]. *)
Inductive jsonable :=
| One (v : value)
| Many (l : list value)
| Int (n : Z).

(** ** [json.dumps] *)

Module Json.

Definition hex4 (n : Z) : string := "00" ++ PyStr.hex2 n.

(** The encoder's default [ensure_ascii] escapes. *)
Definition escape_char (c : ascii) : string :=
  let n := Z.of_nat (nat_of_ascii c) in
  if Ascii.eqb c PyStr.DQ then String PyStr.BS (String PyStr.DQ "")
  else if Ascii.eqb c PyStr.BS then String PyStr.BS (String PyStr.BS "")
  else if n =? 10 then String PyStr.BS "n"
  else if n =? 13 then String PyStr.BS "r"
  else if n =? 9 then String PyStr.BS "t"
  else if n =? 8 then String PyStr.BS "b"
  else if n =? 12 then String PyStr.BS "f"
  else if (n <? 32) || (126 <? n) then String PyStr.BS ("u" ++ hex4 n)
  else String c "".

Fixpoint escape (s : string) : string :=
  match s with
  | EmptyString => EmptyString
  | String c rest => escape_char c ++ escape rest
  end.

Definition str (s : string) : string :=
  String PyStr.DQ (escape s ++ String PyStr.DQ "").

Definition object (d : dict) : string :=
  "{" ++ PyStr.join ", " (map (fun kv => str (fst kv) ++ ": " ++ str (snd kv)) d) ++ "}".

Definition encode (v : value) : string :=
  match v with
  | VDict d => object d
  | VStr s => str s
  end.

Definition array (l : list value) : string :=
  "[" ++ PyStr.join ", " (map encode l) ++ "]".

Definition text (obj : jsonable) : string :=
  match obj with
  | One v => encode v
  | Many l => array l
  | Int n => if n <? 0 then "-" ++ PyStr.dec (- n) else PyStr.dec n
  end.

(** [json.dumps(obj, **kw)]: the positional argument is required, and
    the keywords that are not options of [dumps] go to the encoder's
    constructor, which knows none of them. *)
Definition dumps (obj : option jsonable) (kw : list (string * jsonable)) : result string :=
  match obj, kw with
  | None, _ =>
      Raise (mkexn TypeError "dumps() missing 1 required positional argument: 'obj'")
  | Some obj, [] => Ok (text obj)
  | Some _, (k, _) :: _ =>
      Raise (mkexn TypeError
               ("JSONEncoder.__init__() got an unexpected keyword argument '" ++ k ++ "'"))
  end.

End Json.

(** ** The monad of the program: exceptions over the log of requests *)

(** The state is the list of addresses requested so far, oldest first.  An
    exception leaves the state as it was when it was raised. *)
Definition log := list string.

Definition M (A : Type) : Type := log -> result A * log.

Definition ret {A} (a : A) : M A := fun st => (Ok a, st).

Definition raise {A} (e : exn) : M A := fun st => (Raise e, st).

Definition lift {A} (r : result A) : M A := fun st => (r, st).

Definition bind {A B} (m : M A) (f : A -> M B) : M B :=
  fun st =>
    match m st with
    | (Ok a, st') => f a st'
    | (Raise e, st') => (Raise e, st')
    end.

(** [try: m  except Exception as e: handler e] *)
Definition try_except {A} (m : M A) (handler : exn -> M A) : M A :=
  fun st =>
    match m st with
    | (Ok a, st') => (Ok a, st')
    | (Raise e, st') => handler e st'
    end.

Notation "x <- m ;; k" := (bind m (fun x => k))
  (at level 61, m at next level, right associativity).
Notation "' pat <- m ;; k" := (bind m (fun x => match x with pat => k end))
  (at level 61, pat pattern, m at next level, right associativity).

(** The same for code that touches no state. *)
Definition rbind {A B} (r : result A) (f : A -> result B) : result B :=
  match r with
  | Ok a => f a
  | Raise e => Raise e
  end.

Definition rtry {A} (r : result A) (handler : exn -> result A) : result A :=
  match r with
  | Ok a => Ok a
  | Raise e => handler e
  end.

Notation "x <~ r ;; k" := (rbind r (fun x => k))
  (at level 61, r at next level, right associativity).
Notation "' pat <~ r ;; k" := (rbind r (fun x => match x with pat => k end))
  (at level 61, pat pattern, r at next level, right associativity).

Definition or_raise {A} (o : option A) (e : exn) : result A :=
  match o with
  | Some a => Ok a
  | None => Raise e
  end.

(** ** What the service sees of the outside *)

Record Env := mkEnv {
  (** [datetime.today()], read once for a request *)
  today : PyDate.date;
  (** the contents of [alchemy_api.key], when the file exists *)
  ALCHEMY_API_KEY : option string;
  (** [BeautifulSoup(requests.get(url).text, 'html.parser')], which may
      depend on the requests made before *)
  get_page : log -> string -> result Soup.node;
  (** the positions [random.sample] picks in a population of [n] for a
      sample of [k] *)
  sample_positions : nat -> nat -> list nat;
  (** whether the installed BeautifulSoup gives strings a [.text]
      (releases before 4.9 raise [AttributeError]) *)
  string_has_text : bool
}.

(** [random.sample] picks [k] distinct positions of the population. *)
Definition sample_ok (env : Env) : Prop :=
  forall n k : nat, (k <= n)%nat ->
    List.length (sample_positions env n k) = k
    /\ NoDup (sample_positions env n k)
    /\ Forall (fun i => (i < n)%nat) (sample_positions env n k).

(** ** The service *)

Import PyDate.

Definition SERVICE_VERSION : string := "v1".
Definition APOD_METHOD_NAME : string := "apod".
Definition ALLOWED_APOD_FIELDS : list string :=
  ["concept_tags"; "date"; "hd"; "count"; "start_date"; "end_date"].

(** location of backing APOD service *)
Definition BASE : string := "https://apod.nasa.gov/apod/".

(** [BeautifulSoup(requests.get(apod_url).text, 'html.parser')] *)
Definition open_page (env : Env) (url : string) : M Soup.node :=
  fun st => (get_page env st url, (st ++ [url])%list).

Definition getitem (el : Soup.node) (key : string) : result string :=
  or_raise (Soup.attr el key) (mkexn KeyError (PyStr.repr key)).

(** *** Title *)

Definition _title (soup : Soup.node) : result string :=
  rtry
    ((* Handler for later APOD entries *)
     center_selection <~
       or_raise (nth_error (Soup.find_all soup "center") 1)
                (mkexn IndexError "list index out of range") ;;
     bold_selection <~
       or_raise (nth_error (Soup.find_all center_selection "b") 0)
                (mkexn IndexError "list index out of range") ;;
     Ok (PyStr.strip (Soup.get_text bold_selection) " "))
    (fun _ =>
       (* Handler for early APOD entries *)
       title <~
         or_raise (Soup.find soup "title")
                  (mkexn AttributeError "'NoneType' object has no attribute 'text'") ;;
       let text := last (PyStr.split (Soup.get_text title) " - ") "" in
       Ok (PyStr.strip_ws text)).

(** *** Copyright *)

(** The first loop of [_copyright]: the text of the anchor after the
    first one that mentions the word. *)
Fixpoint copyright_next (use_next : bool) (elements : list Soup.node) : option string :=
  match elements with
  | [] => None
  | element :: rest =>
      if use_next then Some (PyStr.strip (Soup.get_text element) " ")
      else if PyStr.contains "Copyright" (Soup.get_text element)
           then copyright_next true rest
           else copyright_next false rest
  end.

(** The [while sibling:] loop: a sibling that is an empty string ends it;
    the text of a string is added only when strings have a [.text]. *)
Fixpoint sibling_text (has_text : bool) (siblings : list Soup.node) (stuff : string) : string :=
  match siblings with
  | [] => stuff
  | sibling :: rest =>
      if Soup.truthy sibling then
        let stuff :=
          match sibling with
          | Soup.Tag _ _ _ => stuff ++ Soup.get_text sibling
          | Soup.NavigableString s => if has_text then stuff ++ s else stuff
          end in
        sibling_text has_text rest stuff
      else stuff
  end.

(** The second loop of [_copyright]. *)
Fixpoint copyright_siblings (has_text : bool) (elements : list (Soup.node * list Soup.node))
    (copyright_text : option string) : option string :=
  match elements with
  | [] => copyright_text
  | (element, siblings) :: rest =>
      if PyStr.contains "Copyright" (Soup.get_text element) then
        let stuff := sibling_text has_text siblings "" in
        if negb (String.eqb stuff "")
        then copyright_siblings has_text rest (Some (PyStr.strip stuff " "))
        else copyright_siblings has_text rest copyright_text
      else copyright_siblings has_text rest copyright_text
  end.

Definition is_true (o : option string) : bool :=
  match o with
  | Some s => negb (String.eqb s "")
  | None => false
  end.

Definition _copyright (env : Env) (soup : Soup.node) : result (option string) :=
  rtry
    (let copyright_text :=
       copyright_next false (map fst (Soup.find_all_text soup ["a"])) in
     let copyright_text :=
       if negb (is_true copyright_text)
       then copyright_siblings (string_has_text env)
              (Soup.find_all_text soup ["b"; "a"]) copyright_text
       else copyright_text in
     Ok copyright_text)
    (fun _ => Raise (mkexn ValueError "Unsupported schema for given date.")).

(** *** Explanation *)

(** [l[i] = x] for [i < len(l)] *)
Fixpoint list_set (l : list string) (i : nat) (x : string) : list string :=
  match l, i with
  | [], _ => []
  | _ :: rest, O => x :: rest
  | y :: rest, S j => y :: list_set rest j x
  end.

Definition not_in_list (x : string) : exn :=
  mkexn ValueError (PyStr.repr x ++ " is not in list").

Definition _explanation (soup : Soup.node) : result string :=
  (* Handler for later APOD entries *)
  p <~ or_raise (nth_error (Soup.find_all soup "p") 2)
                (mkexn IndexError "list index out of range") ;;
  let s := Soup.get_text p in
  let s := PyStr.replace s PyStr.NL " " in
  let s := PyStr.replace s "  " " " in
  let s := PyStr.strip (PyStr.strip s " ") "Explanation: " in
  let s := hd "" (PyStr.split s " Tomorrow's picture") in
  let s := PyStr.strip s " " in
  if String.eqb s "" then
    (* Handler for earlier APOD entries *)
    let texts := map PyStr.strip_ws (PyStr.split (Soup.get_text soup) PyStr.NL) in
    '(begin_idx, texts) <~
      rtry
        (i <~ or_raise (PyStr.index "Explanation:" texts) (not_in_list "Explanation:") ;;
         Ok (S i, texts))
        (fun e =>
           (* Rare case where "Explanation:" is not on its own line *)
           let explanation_line := filter (PyStr.contains "Explanation:") texts in
           match explanation_line with
           | [line] =>
               begin_idx <~ or_raise (PyStr.index line texts) (not_in_list line) ;;
               Ok (begin_idx,
                   list_set texts begin_idx
                     (PyStr.strip_ws (PyStr.drop 12 (nth begin_idx texts ""))))
           | _ => Raise e
           end) ;;
    idx <~ or_raise (PyStr.index "" (skipn begin_idx texts)) (not_in_list "") ;;
    Ok (PyStr.join " " (firstn idx (skipn begin_idx texts)))
  else Ok s.

(** *** One page *)

(** The [for link in ...] loop: the first anchor whose [href] starts with
    [image] gives the high-resolution address. *)
Fixpoint hd_link (links : list Soup.node) (hd_data : string) : string :=
  match links with
  | [] => hd_data
  | link :: rest =>
      match Soup.attr link "href" with
      | Some href =>
          if negb (String.eqb href "") && PyStr.startswith href "image"
          then BASE ++ href
          else hd_link rest hd_data
      | None => hd_link rest hd_data
      end
  end.

(** The address of the page of a day. *)
Definition apod_url (dt : date) : string :=
  let date_str := strftime_ymd dt in
  BASE ++ "ap" ++ date_str ++ ".html".

(** The part of [_get_apod_chars] after the page is fetched and parsed. *)
Definition apod_chars (env : Env) (dt : date) (soup : Soup.node) : result dict :=
  '(media_type, data, hd_data) <~
    match Soup.find soup "img" with
    | Some img =>
        (* it is an image, so get both the low- and high-resolution data *)
        src <~ getitem img "src" ;;
        let data := BASE ++ src in
        Ok ("image", data,
            Some (hd_link (Soup.find_all_with_attr soup "a" "href") data))
    | None =>
        (* its a video *)
        match Soup.find soup "iframe" with
        | Some iframe =>
            src <~ getitem iframe "src" ;;
            Ok ("video", src, None)
        | None =>
            Raise (mkexn TypeError "'NoneType' object is not subscriptable")
        end
    end ;;
  let props : dict := [] in
  explanation <~ _explanation soup ;;
  let props := dict_set props "explanation" explanation in
  title <~ _title soup ;;
  let props := dict_set props "title" title in
  copyright_text <~ _copyright env soup ;;
  let props :=
    if is_true copyright_text
    then dict_set props "copyright" (match copyright_text with Some t => t | None => "" end)
    else props in
  let props := dict_set props "media_type" media_type in
  let props := dict_set props "url" data in
  let props := dict_set props "date" (isoformat dt) in
  let props :=
    if is_true hd_data
    then dict_set props "hdurl" (match hd_data with Some h => h | None => "" end)
    else props in
  Ok props.

Definition _get_apod_chars (env : Env) (dt : date) : M dict :=
  soup <- open_page env (apod_url dt) ;;
  lift (apod_chars env dt soup).

(** [dt - timedelta(days=1)] *)
Definition day_before (dt : date) : result date :=
  or_raise (sub_days dt 1) (mkexn OverflowError "date value out of range").

Definition parse_apod (env : Env) (dt : date) (use_default_today_date : bool) : M dict :=
  try_except (_get_apod_chars env dt)
    (fun ex =>
       (* handle edge case where the service local time miss-matches with
          'todays date' of the underlying APOD service.  Use the fallback
          of prior day's date *)
       if use_default_today_date then
         (* try to get the day before *)
         dt <- lift (day_before dt) ;;
         _get_apod_chars env dt
       else
         (* pass exception up the call stack *)
         raise (mkexn Exception_ (exn_msg ex))).

(** *** Responses *)

(** [response.status_code = code] on the [str] that [json.dumps] returns *)
Definition set_status_code (response : string) (code : Z) : result string :=
  Raise (mkexn AttributeError "'str' object has no attribute 'status_code'").

Definition _abort (code : Z) (msg : string) (usage : bool) : M string :=
  let msg := if usage then msg ++ " " ++ "'" else msg in
  response <-
    lift (Json.dumps None
            [("service_version", One (VStr SERVICE_VERSION));
             ("msg", One (VStr msg)); ("code", Int code)]) ;;
  response <- lift (set_status_code response code) ;;
  ret response.

Definition _validate (data : list (string * string)) : bool :=
  forallb (fun kv => existsb (String.eqb (fst kv)) ALLOWED_APOD_FIELDS) data.

Definition begin : date := mkdate 1995 6 16.  (* first APOD image date *)

Definition _validate_date (env : Env) (dt : date) : result unit :=
  let today := today env in
  (* validate input *)
  if gtb dt today || ltb dt begin then
    let today_str := strftime_b_d_Y today in
    let begin_str := strftime_b_d_Y begin in
    Raise (mkexn ValueError
             ("Date must be between " ++ begin_str ++ " and " ++ today_str ++ "."))
  else Ok tt.

Definition concepts_off : string :=
  "concept_tags functionality turned off in current service".

Definition _apod_handler (env : Env) (dt : date)
    (use_concept_tags use_default_today_date : bool) : M value :=
  try_except
    (page_props <- parse_apod env dt use_default_today_date ;;
     page_props <-
       (if use_concept_tags then
          match ALCHEMY_API_KEY env with
          | None => ret (dict_set page_props "concepts" concepts_off)
          | Some _ =>
              (* the argument [request] of the call to [get_concepts] is
                 not a name of the module *)
              raise (mkexn NameError "name 'request' is not defined")
          end
        else ret page_props) ;;
     ret (VDict page_props))
    (fun e =>
       (* return code 500 here *)
       response <- _abort 500 "Internal Service Error" false ;;
       ret (VStr response)).

(** [data[key] = v] and [data[key]] on what [_apod_handler] returned *)
Definition setitem (data : value) (key v : string) : result value :=
  match data with
  | VDict d => Ok (VDict (dict_set d key v))
  | VStr _ => Raise (mkexn TypeError "'str' object does not support item assignment")
  end.

Definition item (data : value) (key : string) : result string :=
  match data with
  | VDict d => or_raise (dict_get d key) (mkexn KeyError (PyStr.repr key))
  | VStr _ => Raise (mkexn TypeError "string indices must be integers, not 'str'")
  end.

(** [not x] for an optional string: absent or empty *)
Definition absent (x : option string) : bool := negb (is_true x).

Definition _get_json_for_date (env : Env) (input_date : option string)
    (use_concept_tags : bool) : M string :=
  (* get the date param *)
  let '(input_date, use_default_today_date) :=
    match input_date with
    | Some d => if String.eqb d "" then (strftime_Y_m_d (today env), true) else (d, false)
    | None =>
        (* fall back to using today's date IF they didn't specify a date *)
        (strftime_Y_m_d (today env), true)
    end in
  (* validate input date *)
  dt <- lift (strptime input_date) ;;
  _ <- lift (_validate_date env dt) ;;
  (* get data *)
  data <- _apod_handler env dt use_concept_tags use_default_today_date ;;
  data <- lift (setitem data "service_version" SERVICE_VERSION) ;;
  (* return info as JSON *)
  lift (Json.dumps (Some (One data)) []).

(** [range(lo, hi)] *)
Definition range (lo hi : Z) : list Z :=
  map (fun i => lo + Z.of_nat i) (seq 0 (Z.to_nat (hi - lo))).

(** [random.sample(population, k)] *)
Definition sample (env : Env) (population : list Z) (k : Z) : result (list Z) :=
  let n := List.length population in
  if (k <? 0) || (Z.of_nat n <? k)
  then Raise (mkexn ValueError "Sample larger than population or is negative")
  else Ok (map (fun i => nth i population 0) (sample_positions env n (Z.to_nat k))).

Definition date_fromordinal (n : Z) : result date :=
  or_raise (fromordinal n) (mkexn ValueError ("ordinal must be >= 1")).

(** The [for date_ordinal in random_date_ordinals] loop. *)
Fixpoint random_loop (env : Env) (use_concept_tags : bool) (today_ordinal : Z)
    (random_date_ordinals : list Z) (all_data : list value) : M (list value) :=
  match random_date_ordinals with
  | [] => ret all_data
  | date_ordinal :: rest =>
      dt <- lift (date_fromordinal date_ordinal) ;;
      data <- _apod_handler env dt use_concept_tags (date_ordinal =? today_ordinal) ;;
      data <- lift (setitem data "service_version" SERVICE_VERSION) ;;
      random_loop env use_concept_tags today_ordinal rest (all_data ++ [data])%list
  end.

Definition _get_json_for_random_dates (env : Env) (count : Z)
    (use_concept_tags : bool) : M string :=
  if (count >? 100) || (count <=? 0)
  then raise (mkexn ValueError "Count must be positive and cannot exceed 100")
  else
    let begin_ordinal := toordinal begin in
    let today_ordinal := toordinal (today env) in
    let date_range := range begin_ordinal (today_ordinal + 1) in
    random_date_ordinals <- lift (sample env date_range count) ;;
    all_data <- random_loop env use_concept_tags today_ordinal random_date_ordinals [] ;;
    lift (Json.dumps (Some (Many all_data)) []).

(** The [while start_ordinal <= end_ordinal] loop; [fuel] bounds the
    number of iterations. *)
Fixpoint range_loop (fuel : nat) (env : Env) (use_concept_tags : bool)
    (today_ordinal start_ordinal end_ordinal : Z) (all_data : list value)
    : M (list value) :=
  match fuel with
  | O => ret all_data
  | S fuel =>
      if start_ordinal <=? end_ordinal then
        (* get data *)
        dt <- lift (date_fromordinal start_ordinal) ;;
        data <- _apod_handler env dt use_concept_tags (start_ordinal =? today_ordinal) ;;
        data <- lift (setitem data "service_version" SERVICE_VERSION) ;;
        date_field <- lift (item data "date") ;;
        let all_data :=
          if String.eqb date_field (isoformat dt)
          then (* Handles edge case where server is a day ahead of NASA APOD service *)
               (all_data ++ [data])%list
          else all_data in
        range_loop fuel env use_concept_tags today_ordinal
          (start_ordinal + 1) end_ordinal all_data
      else ret all_data
  end.

Definition _get_json_for_date_range (env : Env) (start_date : string)
    (end_date : option string) (use_concept_tags : bool) : M string :=
  (* validate input date *)
  start_dt <- lift (strptime start_date) ;;
  _ <- lift (_validate_date env start_dt) ;;
  (* get the date param *)
  let end_date :=
    match end_date with
    | Some d => if String.eqb d "" then strftime_Y_m_d (today env) else d
    | None => strftime_Y_m_d (today env)
    end in
  (* validate input date *)
  end_dt <- lift (strptime end_date) ;;
  _ <- lift (_validate_date env end_dt) ;;
  let start_ordinal := toordinal start_dt in
  let end_ordinal := toordinal end_dt in
  let today_ordinal := toordinal (today env) in
  if start_ordinal >? end_ordinal
  then raise (mkexn ValueError "start_date cannot be after end_date")
  else
    all_data <- range_loop (Z.to_nat (end_ordinal + 1 - start_ordinal)) env
                  use_concept_tags today_ordinal start_ordinal end_ordinal [] ;;
    (* return info as JSON *)
    lift (Json.dumps (Some (Many all_data)) []).

(** *** Endpoints *)

(** [args.get(key)]: the mapping keeps the last value given for a name. *)
Fixpoint query_get (args : list (string * string)) (key : string) : option string :=
  match args with
  | [] => None
  | (k, v) :: rest =>
      match query_get rest key with
      | Some later => Some later
      | None => if String.eqb k key then Some v else None
      end
  end.

(** [request.query_params] is the mapping of the parameters of the
    request, and [None] for a request without a query string; [_validate]
    then fails at [for key in data]. *)
Definition apod (env : Env) (query_params : option (list (string * string)))
    : M string :=
  fun st =>
    match
      (match query_params with
       | None => raise (mkexn TypeError "'NoneType' object is not iterable")
       | Some args =>
           if negb (_validate args)
           then _abort 400 "Bad Request: incorrect field passed." true
           else
             let input_date := query_get args "date" in
             let count := query_get args "count" in
             let start_date := query_get args "start_date" in
             let end_date := query_get args "end_date" in
             let use_concept_tags := is_true (query_get args "concept_tags") in
             if absent count && absent start_date && absent end_date then
               _get_json_for_date env input_date use_concept_tags
             else if absent input_date && absent start_date && absent end_date
                     && is_true count then
               count <- lift (PyStr.int (match count with Some c => c | None => "" end)) ;;
               _get_json_for_random_dates env count use_concept_tags
             else if absent count && absent input_date && is_true start_date then
               _get_json_for_date_range env
                 (match start_date with Some s => s | None => "" end)
                 end_date use_concept_tags
             else
               _abort 400 "Bad Request: invalid field combination passed." true
       end) st
    with
    | (Ok response, st') => (Ok response, st')
    | (Raise ex, st') =>
        if is_ValueError ex then
          (* except ValueError as ve *)
          _abort 400 (exn_msg ex) false st'
        else
          (* except Exception as ex *)
          let etype := exn_type ex in
          if is_ValueError ex || PyStr.contains "BadRequest" (str_of_type etype)
          then _abort 400 (exn_msg ex ++ ".") true st'
          else _abort 500 "Internal Service Error" false st'
    end.

(** ** Example pages and environments *)

Module Examples.

Import Soup.

Definition text (s : string) : node := NavigableString s.

(** A page in the layout of the later entries: the picture in the first
    centered block, the title and the credits in the second, then the
    explanation paragraph [par]. *)
Definition picture_page (par : string) : node :=
  Tag "[document]" [] [
    Tag "html" [] [
      Tag "head" [] [Tag "title" [] [text "APOD: 2020 January 5 - A Nice Sky"]];
      Tag "body" [] [
        Tag "center" [] [
          Tag "h1" [] [text "Astronomy Picture of the Day"];
          Tag "p" [] [text "2020 January 5"];
          Tag "p" [] [Tag "a" [("href", "image/2001/sky_big.jpg")]
                        [Tag "img" [("src", "image/2001/sky.jpg")] []]]];
        Tag "center" [] [
          Tag "b" [] [text " A Nice Sky "]; Tag "br" [] [];
          Tag "b" [] [text "Image Credit"]; text " & ";
          Tag "a" [("href", "lic.html")] [text "Copyright"]; text ": ";
          Tag "a" [("href", "http://example.org")] [text " Jane Doe "]];
        Tag "p" [] [text par]]]].

Definition nice_sky : string :=
  "Explanation: A nice sky. Tomorrow's picture: more sky.".

Definition pale_blue_dot : string :=
  "Explanation: pale blue dot. Tomorrow's picture: more sky.".

(** The same layout with an embedded frame in place of the picture. *)
Definition video_page : node :=
  Tag "[document]" [] [
    Tag "html" [] [
      Tag "head" [] [Tag "title" [] [text "APOD: 2020 January 6 - A Film"]];
      Tag "body" [] [
        Tag "center" [] [
          Tag "h1" [] [text "Astronomy Picture of the Day"];
          Tag "p" [] [text "2020 January 6"];
          Tag "p" [] [Tag "iframe" [("src", "https://www.youtube.com/embed/x")] []]];
        Tag "center" [] [Tag "b" [] [text " A Film "]];
        Tag "p" [] [text nice_sky]]]].

(** A page with neither a picture nor a frame. *)
Definition bare_page : node :=
  Tag "[document]" [] [
    Tag "html" [] [
      Tag "head" [] [Tag "title" [] [text "404 Not Found"]];
      Tag "body" [] [Tag "h1" [] [text "Not Found"]]]].

Definition unreachable : exn := mkexn (OtherError "ConnectionError") "Connection refused".

(** The record of [picture_page nice_sky] for the day printed as [iso],
    as the batch modes return it. *)
Definition nice_sky_record (iso : string) : value :=
  VDict [("explanation", "A nice sky."); ("title", "A Nice Sky");
         ("copyright", "Jane Doe"); ("media_type", "image");
         ("url", "https://apod.nasa.gov/apod/image/2001/sky.jpg");
         ("date", iso);
         ("hdurl", "https://apod.nasa.gov/apod/image/2001/sky_big.jpg");
         ("service_version", "v1")].

(** Every page is there; the service runs on 2020-01-07. *)
Definition all_pages : Env :=
  {| today := PyDate.mkdate 2020 1 7;
     ALCHEMY_API_KEY := None;
     get_page := fun _ _ => Ok (picture_page nice_sky);
     sample_positions := fun _ k => seq 0 k;
     string_has_text := false |}.

(** The page of the day is not published yet, and the sample starts from
    the end of the window. *)
Definition before_publication : Env :=
  {| today := PyDate.mkdate 2020 1 7;
     ALCHEMY_API_KEY := None;
     get_page := fun _ url =>
       if String.eqb url (apod_url (PyDate.mkdate 2020 1 7))
       then Raise unreachable
       else Ok (picture_page nice_sky);
     sample_positions := fun n k => map (fun i => (n - 1 - i)%nat) (seq 0 k);
     string_has_text := false |}.

(** Only error pages come back. *)
Definition not_found : Env :=
  {| today := PyDate.mkdate 2020 1 7;
     ALCHEMY_API_KEY := None;
     get_page := fun _ _ => Ok bare_page;
     sample_positions := fun _ k => seq 0 k;
     string_has_text := false |}.

Definition videos : Env :=
  {| today := PyDate.mkdate 2020 1 7;
     ALCHEMY_API_KEY := None;
     get_page := fun _ _ => Ok video_page;
     sample_positions := fun _ k => seq 0 k;
     string_has_text := false |}.

End Examples.

(** ** Notions used to state the properties *)

(** The exception of a call of [json.dumps] without its argument. *)
Definition dumps_without_obj : exn :=
  mkexn TypeError "dumps() missing 1 required positional argument: 'obj'".

(** The exception of a date outside the window. *)
Definition out_of_range (env : Env) : exn :=
  mkexn ValueError
    ("Date must be between Jun 16, 1995 and " ++ strftime_b_d_Y (today env) ++ ".").

(** [f] holds of the [fuel] integers from [i] on. *)
Fixpoint all_from (fuel : nat) (i : Z) (f : Z -> bool) : bool :=
  match fuel with
  | O => true
  | S k => if f i then all_from k (i + 1) f else false
  end.

(** The month and the day of the month of the day [n] of a year, counted
    from 0, as [_ord2ymd] finds them. *)
Definition month_day (leapyear : bool) (n : Z) : Z * Z :=
  let m := Z.shiftr (n + 50) 5 in
  let preceding :=
    _DAYS_BEFORE_MONTH m + (if (2 <? m) && leapyear then 1 else 0) in
  if n <? preceding then
    let m := m - 1 in
    let preceding :=
      preceding - (_DAYS_IN_MONTH m + (if (m =? 2) && leapyear then 1 else 0)) in
    (m, n - preceding + 1)
  else (m, n - preceding + 1).

Definition month_day_ok (leapyear : bool) (n : Z) : bool :=
  let (m, d) := month_day leapyear n in
  (1 <=? m) && (m <=? 12) && (1 <=? d)
  && (d <=? _DAYS_IN_MONTH m + (if (m =? 2) && leapyear then 1 else 0))
  && (_DAYS_BEFORE_MONTH m + (if (2 <? m) && leapyear then 1 else 0) + d =? n + 1).

Definition day_parses (d : Z) : bool :=
  match match_day (PyStr.pad2 d) with
  | Some (d', EmptyString) => d' =? d
  | _ => false
  end.

Definition year_prints (y : Z) : bool := String.eqb (PyStr.dec y) (PyStr.pad4 y).

(** The unit of work of the day with ordinal [o], as the batch modes run
    it: the handler for that day, with the fallback allowed only when the
    day is today, and the version added to what it returns. *)
Definition unit_of_work (env : Env) (use_concept_tags : bool) (o : Z) : M value :=
  dt <- lift (date_fromordinal o) ;;
  data <- _apod_handler env dt use_concept_tags (o =? toordinal (today env)) ;;
  lift (setitem data "service_version" SERVICE_VERSION).

(** The units of a list of days, one after the other; the first failure
    ends the run. *)
Fixpoint for_each {A B} (f : A -> M B) (l : list A) : M (list B) :=
  match l with
  | [] => ret []
  | x :: rest =>
      y <- f x ;;
      ys <- for_each f rest ;;
      ret (y :: ys)
  end.

(** The [date] field of a record. *)
Definition date_of (data : value) : option string :=
  match data with
  | VDict d => dict_get d "date"
  | VStr _ => None
  end.

(** The record carries the date of the day it was asked for. *)
Definition on_its_day (o : Z) (data : value) : bool :=
  match date_of data with
  | Some s => String.eqb s (isoformat (_ord2ymd o))
  | None => false
  end.

(** Of the records of a run over [days], those that are on their day:
    the others are left out. *)
Definition kept (days : list Z) (records : list value) : list value :=
  map snd (filter (fun p => on_its_day (fst p) (snd p)) (combine days records)).

(** The end of a range: the parameter, or today when it is absent. *)
Definition end_or_today (env : Env) (end_date : option string) : string :=
  if is_true end_date
  then match end_date with Some d => d | None => "" end
  else strftime_Y_m_d (today env).

(** The days [random.sample] draws for a sample of [count] in the window
    that ends today. *)
Definition drawn (env : Env) (count : Z) : list Z :=
  let date_range := range (toordinal begin) (toordinal (today env) + 1) in
  map (fun i => nth i date_range 0)
      (sample_positions env (List.length date_range) (Z.to_nat count)).

(** The date of a record of the unit of the day [o]: that of the day, or,
    for today, that of the day before. *)
Definition dated (env : Env) (o : Z) (data : value) : Prop :=
  date_of data = Some (isoformat (_ord2ymd o))
  \/ (o = toordinal (today env)
      /\ date_of data = Some (isoformat (_ord2ymd (o - 1)))).


(** ** Notions used to state further properties *)

(** An optional parameter as the handler reads it: an empty value counts
    as none. *)
Definition given (x : option string) : option string :=
  if is_true x then x else None.

(** The body of the [try] of [apod], as a function of what it reads of
    the request. *)
Definition dispatch (env : Env) (names_ok : bool)
    (input_date count start_date end_date : option string)
    (use_concept_tags : bool) : M string :=
  if negb names_ok
  then _abort 400 "Bad Request: incorrect field passed." true
  else
    if absent count && absent start_date && absent end_date then
      _get_json_for_date env input_date use_concept_tags
    else if absent input_date && absent start_date && absent end_date
            && is_true count then
      count <- lift (PyStr.int (match count with Some c => c | None => "" end)) ;;
      _get_json_for_random_dates env count use_concept_tags
    else if absent count && absent input_date && is_true start_date then
      _get_json_for_date_range env
        (match start_date with Some s => s | None => "" end)
        end_date use_concept_tags
    else
      _abort 400 "Bad Request: invalid field combination passed." true.

(** What the [except] clauses of [apod] make of a run: a body passes, an
    exception ends in [_abort], which raises. *)
Definition guarded (run : result string * log) : result string * log :=
  match run with
  | (Ok response, st') => (Ok response, st')
  | (Raise _, st') => (Raise dumps_without_obj, st')
  end.

(** The pages the unit of the day [o] may request: the page of the day,
    and for today the page of the day before. *)
Definition page_of_unit (env : Env) (o : Z) (url : string) : Prop :=
  url = apod_url (_ord2ymd o)
  \/ (o = toordinal (today env) /\ url = apod_url (_ord2ymd (o - 1))).

(** The service of [env] with the file [alchemy_api.key] in place. *)
Definition with_credential (env : Env) (key : string) : Env :=
  {| today := today env;
     ALCHEMY_API_KEY := Some key;
     get_page := get_page env;
     sample_positions := sample_positions env;
     string_has_text := string_has_text env |}.

(** An anchor of the page whose [href] points below [image]. *)
Definition image_link (link : Soup.node) : Prop :=
  exists href, Soup.attr link "href" = Some href
               /\ PyStr.startswith href "image" = true.

(** A string without a line feed. *)
Definition one_line (s : string) : Prop := PyStr.mem PyStr.LF s = false.

(** What every record holds, whatever else it holds. *)
Definition is_record (props : dict) : Prop :=
  (exists explanation, dict_get props "explanation" = Some explanation)
  /\ (exists title, dict_get props "title" = Some title)
  /\ (dict_get props "media_type" = Some "image"
      \/ dict_get props "media_type" = Some "video")
  /\ (exists url, dict_get props "url" = Some url)
  /\ (exists dt, valid dt = true /\ dict_get props "date" = Some (isoformat dt)).

(** A record as the service gives it out. *)
Definition served (data : value) : Prop :=
  exists props,
    data = VDict props /\ is_record props
    /\ dict_get props "service_version" = Some SERVICE_VERSION.

(** What the handler for later entries makes of the third paragraph. *)
Definition later_text (p : Soup.node) : string :=
  let s := Soup.get_text p in
  let s := PyStr.replace s PyStr.NL " " in
  let s := PyStr.replace s "  " " " in
  let s := PyStr.strip (PyStr.strip s " ") "Explanation: " in
  let s := hd "" (PyStr.split s " Tomorrow's picture") in
  PyStr.strip s " ".

(** A page in the layout of the first entries: the paragraphs are empty
    and the explanation stands in the text of the body, after a line of
    its own that announces it. *)
Definition early_page : Soup.node :=
  Soup.Tag "[document]" [] [
    Soup.Tag "html" [] [
      Soup.Tag "head" [] [
        Soup.Tag "title" [] [Soup.NavigableString "APOD: June 16, 1995 - Neutron Star Earth"]];
      Soup.Tag "body" [] [
        Soup.Tag "p" [] []; Soup.Tag "p" [] []; Soup.Tag "p" [] [];
        Soup.Tag "img" [("src", "image/e_lens.gif")] [];
        Soup.NavigableString
          (PyStr.NL ++ " Explanation: " ++ PyStr.NL
           ++ "If the Earth could somehow be transformed" ++ PyStr.NL
           ++ "  to the ultra-high density of a neutron star." ++ PyStr.NL
           ++ PyStr.NL ++ "Tomorrow's picture: Pleiades")]]].

(** * Properties *)

(** ** The monad *)

Lemma bind_lift_Ok {A B} (a : A) (f : A -> M B) st :
  bind (lift (Ok a)) f st = f a st.
Proof. reflexivity. Qed.

(** ** The calendar *)

Lemma all_from_spec fuel : forall i f,
  all_from fuel i f = true -> forall j, i <= j < i + Z.of_nat fuel -> f j = true.
Proof.
  induction fuel as [| k IH]; intros i f H j Hj.
  - simpl in Hj. lia.
  - cbn [all_from] in H. destruct (f i) eqn:Hi; [| discriminate].
    destruct (Z.eq_dec j i) as [-> | Hne]; [exact Hi |].
    apply (IH (i + 1) f H). lia.
Qed.

Lemma _days_before_year_succ y :
  _days_before_year (y + 1) = _days_before_year y + 365 + (if _is_leap y then 1 else 0).
Proof.
  unfold _days_before_year, _is_leap.
  replace (y + 1 - 1) with y by lia.
  destruct (Z.eqb_spec (y mod 4) 0), (Z.eqb_spec (y mod 100) 0), (Z.eqb_spec (y mod 400) 0);
    cbn [andb orb negb]; Z.div_mod_to_equations; lia.
Qed.

Lemma _days_before_year_mono y y' :
  y <= y' -> _days_before_year y <= _days_before_year y'.
Proof.
  unfold _days_before_year. intros H. Z.div_mod_to_equations. lia.
Qed.

Section Ord2ymd.

Variable n : Z.
Hypothesis Hn : 1 <= n.

Let n0 := n - 1.
Let n400 := n0 / _DI400Y.
Let r1 := n0 mod _DI400Y.
Let n100 := r1 / _DI100Y.
Let r2 := r1 mod _DI100Y.
Let n4 := r2 / _DI4Y.
Let r3 := r2 mod _DI4Y.
Let n1 := r3 / 365.
Let r4 := r3 mod 365.
Let y := n400 * 400 + 1 + n100 * 100 + n4 * 4 + n1.
Let leapyear := (n1 =? 3) && (negb (n4 =? 24) || (n100 =? 3)).

Lemma ord2ymd_unfold :
  _ord2ymd n =
  if (n1 =? 4) || (n100 =? 4) then mkdate (y - 1) 12 31
  else let (m, d) := month_day leapyear r4 in mkdate y m d.
Proof.
  unfold _ord2ymd, month_day. cbv zeta.
  fold n0. fold n400. fold r1. fold n100. fold r2. fold n4. fold r3. fold n1.
  fold r4. fold y. fold leapyear.
  destruct ((n1 =? 4) || (n100 =? 4)); [reflexivity |].
  match goal with |- context [if ?b then _ else _] => destruct b end; reflexivity.
Qed.

Lemma ord2ymd_year_end :
  n1 = 4 \/ n100 = 4 -> 2 <= y /\ _days_before_year y = n.
Proof.
  subst y n1 r4 r3 n4 r2 n100 r1 n400 n0.
  unfold _days_before_year, _DI400Y, _DI100Y, _DI4Y.
  Z.div_mod_to_equations. lia.
Qed.

Lemma ord2ymd_year_day :
  n1 <> 4 -> n100 <> 4 ->
  1 <= y /\ 0 <= r4 < 365 /\ _days_before_year y + r4 = n0.
Proof.
  subst y n1 r4 r3 n4 r2 n100 r1 n400 n0.
  unfold _days_before_year, _DI400Y, _DI100Y, _DI4Y.
  Z.div_mod_to_equations. lia.
Qed.

Lemma ord2ymd_leapyear :
  n1 <> 4 -> n100 <> 4 -> leapyear = _is_leap y.
Proof.
  subst leapyear. unfold _is_leap.
  destruct (Z.eqb_spec n1 3), (Z.eqb_spec n4 24), (Z.eqb_spec n100 3),
    (Z.eqb_spec (y mod 4) 0), (Z.eqb_spec (y mod 100) 0), (Z.eqb_spec (y mod 400) 0);
    cbn [andb orb negb]; try reflexivity; intros; exfalso;
    subst y n1 r4 r3 n4 r2 n100 r1 n400 n0;
    unfold _DI400Y, _DI100Y, _DI4Y in *;
    Z.div_mod_to_equations; lia.
Qed.

End Ord2ymd.

Lemma month_day_checked :
  all_from 365 0 (month_day_ok false) = true
  /\ all_from 365 0 (month_day_ok true) = true.
Proof. split; vm_compute; reflexivity. Qed.

Lemma month_day_spec leapyear r :
  0 <= r < 365 ->
  let (m, d) := month_day leapyear r in
  1 <= m <= 12
  /\ 1 <= d <= _DAYS_IN_MONTH m + (if (m =? 2) && leapyear then 1 else 0)
  /\ _DAYS_BEFORE_MONTH m + (if (2 <? m) && leapyear then 1 else 0) + d = r + 1.
Proof.
  intros Hr.
  assert (H : month_day_ok leapyear r = true).
  { destruct leapyear;
      [apply (all_from_spec _ _ _ (proj2 month_day_checked))
      | apply (all_from_spec _ _ _ (proj1 month_day_checked))]; simpl; lia. }
  unfold month_day_ok in H. destruct (month_day leapyear r) as [m d].
  repeat (apply andb_true_iff in H; destruct H as [H ?]).
  repeat match goal with
         | H : (_ <=? _) = true |- _ => apply Z.leb_le in H
         | H : (_ =? _) = true |- _ => apply Z.eqb_eq in H
         end.
  lia.
Qed.

Lemma _days_in_month_split y m :
  _days_in_month y m = _DAYS_IN_MONTH m + (if (m =? 2) && _is_leap y then 1 else 0).
Proof.
  unfold _days_in_month.
  destruct (Z.eqb_spec m 2) as [-> |]; destruct (_is_leap y); cbn [andb];
    try reflexivity; lia.
Qed.

Lemma valid_iff d :
  valid d = true <->
  1 <= year d <= 9999 /\ 1 <= month d <= 12
  /\ 1 <= day d <= _days_in_month (year d) (month d).
Proof.
  unfold valid, MINYEAR, MAXYEAR.
  rewrite !andb_true_iff, !Z.leb_le. tauto.
Qed.

(** The day of an ordinal is a date, and it has that ordinal. *)
Lemma ord2ymd_spec n :
  1 <= n <= _MAXORDINAL ->
  toordinal (_ord2ymd n) = n /\ valid (_ord2ymd n) = true.
Proof.
  intros [Hlo Hhi]. unfold _MAXORDINAL in Hhi.
  rewrite ord2ymd_unfold. cbv zeta.
  set (n0 := n - 1). set (n400 := n0 / _DI400Y). set (r1 := n0 mod _DI400Y).
  set (n100 := r1 / _DI100Y). set (r2 := r1 mod _DI100Y).
  set (n4 := r2 / _DI4Y). set (r3 := r2 mod _DI4Y).
  set (n1 := r3 / 365). set (r4 := r3 mod 365).
  set (y := n400 * 400 + 1 + n100 * 100 + n4 * 4 + n1).
  set (leapyear := (n1 =? 3) && (negb (n4 =? 24) || (n100 =? 3))).
  assert (Hmax : _days_before_year 10000 = 3652059) by reflexivity.
  destruct (Z.eqb_spec n1 4) as [E1 | N1]; [| destruct (Z.eqb_spec n100 4) as [E100 | N100]];
    cbn [orb].
  1, 2: destruct (ord2ymd_year_end n Hlo) as [Hy Hd]; [fold n0 n400 r1 n100 r2 n4 r3 n1; auto |];
    fold n0 n400 r1 n100 r2 n4 r3 n1 y in Hy, Hd;
    assert (Hy' : y <= 10000)
      by (destruct (Z.le_gt_cases y 10000) as [|Hgt]; [assumption |];
          pose proof (_days_before_year_mono 10001 y ltac:(lia)) as Hm;
          change (_days_before_year 10001) with 3652425 in Hm; lia);
    pose proof (_days_before_year_succ (y - 1)) as Hs;
    replace (y - 1 + 1) with y in Hs by lia;
    (split;
     [unfold toordinal, _ymd2ord, _days_before_month; cbn [year month day];
      change (_DAYS_BEFORE_MONTH 12) with 334; change (2 <? 12) with true;
      cbn [andb]; lia
     | apply valid_iff; cbn [year month day];
       change (_days_in_month (y - 1) 12) with 31; lia]).
  destruct (ord2ymd_year_day n Hlo) as (Hy & Hr & Hd);
    [fold n0 n400 r1 n100 r2 n4 r3 n1; auto .. |].
  fold n0 n400 r1 n100 r2 n4 r3 n1 r4 y in Hy, Hr, Hd.
  pose proof (ord2ymd_leapyear n) as Hleap. cbv zeta in Hleap.
  fold n0 n400 r1 n100 r2 n4 r3 n1 y in Hleap. fold leapyear in Hleap.
  specialize (Hleap N1 N100).
  pose proof (month_day_spec leapyear r4 Hr) as Hmd.
  destruct (month_day leapyear r4) as [m d]. destruct Hmd as (Hm & Hday & Hsum).
  assert (Hy' : y <= 9999).
  { destruct (Z.le_gt_cases y 9999) as [|Hgt]; [assumption |].
    pose proof (_days_before_year_mono 10000 y ltac:(lia)). lia. }
  rewrite Hleap in Hday, Hsum.
  split.
  - unfold toordinal, _ymd2ord, _days_before_month. cbn [year month day].
    unfold n0 in Hd. lia.
  - apply valid_iff. cbn [year month day]. rewrite _days_in_month_split. lia.
Qed.

Lemma month_cases m :
  1 <= m <= 12 ->
  m = 1 \/ m = 2 \/ m = 3 \/ m = 4 \/ m = 5 \/ m = 6
  \/ m = 7 \/ m = 8 \/ m = 9 \/ m = 10 \/ m = 11 \/ m = 12.
Proof. lia. Qed.

Ltac each_month m H :=
  let E := fresh "E" in
  destruct (month_cases m H) as [E | [E | [E | [E | [E | [E | [E | [E | [E | [E | [E | E]]]]]]]]]]];
  rewrite E in *; clear E.

Ltac tables :=
  repeat match goal with
    | |- context [_DAYS_BEFORE_MONTH ?k] =>
        let v := eval vm_compute in (_DAYS_BEFORE_MONTH k) in
        change (_DAYS_BEFORE_MONTH k) with v
    | |- context [_DAYS_IN_MONTH ?k] =>
        let v := eval vm_compute in (_DAYS_IN_MONTH k) in
        change (_DAYS_IN_MONTH k) with v
    | |- context [?a =? ?b] =>
        let v := eval vm_compute in (a =? b) in change (a =? b) with v
    | |- context [?a <? ?b] =>
        let v := eval vm_compute in (a <? b) in change (a <? b) with v
    end;
  cbn [andb].

Lemma within_year y m d :
  1 <= m <= 12 -> 1 <= d <= _days_in_month y m ->
  1 <= _days_before_month y m + d <= 365 + (if _is_leap y then 1 else 0).
Proof.
  intros Hm. unfold _days_before_month, _days_in_month.
  destruct (_is_leap y); each_month m Hm; tables; lia.
Qed.

Lemma month_mono y m m' :
  1 <= m -> m < m' -> m' <= 12 ->
  _days_before_month y m + _days_in_month y m <= _days_before_month y m'.
Proof.
  intros H1 H2 H3. unfold _days_before_month, _days_in_month.
  assert (Hm : 1 <= m <= 12) by lia. assert (Hm' : 1 <= m' <= 12) by lia.
  destruct (_is_leap y); each_month m Hm; each_month m' Hm'; tables; lia.
Qed.

(** The ordinal grows with the date. *)
Lemma toordinal_lt a b :
  valid a = true -> valid b = true -> date_lt a b -> toordinal a < toordinal b.
Proof.
  intros Ha Hb Hlt. apply valid_iff in Ha, Hb.
  destruct Ha as (Hya & Hma & Hda), Hb as (Hyb & Hmb & Hdb).
  unfold toordinal, _ymd2ord.
  pose proof (within_year _ _ _ Hma Hda) as Wa.
  pose proof (within_year _ _ _ Hmb Hdb) as Wb.
  destruct Hlt as [Hy | [Hy [Hm | [Hm Hd]]]].
  - pose proof (_days_before_year_succ (year a)).
    pose proof (_days_before_year_mono (year a + 1) (year b) ltac:(lia)). lia.
  - rewrite Hy in *.
    pose proof (month_mono (year b) (month a) (month b) ltac:(lia) Hm ltac:(lia)). lia.
  - rewrite Hy, Hm. lia.
Qed.

Lemma date_lt_trichotomy a b : date_lt a b \/ a = b \/ date_lt b a.
Proof.
  destruct a as [ya ma da], b as [yb mb db]. unfold date_lt. simpl.
  destruct (Z.lt_trichotomy ya yb) as [| [-> |]]; [lia | | lia].
  destruct (Z.lt_trichotomy ma mb) as [| [-> |]]; [lia | | lia].
  destruct (Z.lt_trichotomy da db) as [| [-> |]]; [lia | | lia].
  right. left. reflexivity.
Qed.

Lemma toordinal_inj a b :
  valid a = true -> valid b = true -> toordinal a = toordinal b -> a = b.
Proof.
  intros Ha Hb E.
  destruct (date_lt_trichotomy a b) as [H | [H | H]]; [| exact H |].
  - pose proof (toordinal_lt a b Ha Hb H). lia.
  - pose proof (toordinal_lt b a Hb Ha H). lia.
Qed.

Lemma toordinal_le a b :
  valid a = true -> valid b = true ->
  (date_le a b <-> toordinal a <= toordinal b).
Proof.
  intros Ha Hb. split.
  - intros [H | ->]; [pose proof (toordinal_lt a b Ha Hb H) |]; lia.
  - intros H. destruct (date_lt_trichotomy a b) as [L | [E | L]].
    + left. exact L.
    + right. exact E.
    + pose proof (toordinal_lt b a Hb Ha L). lia.
Qed.

Lemma toordinal_bounds d :
  valid d = true -> 1 <= toordinal d <= _MAXORDINAL.
Proof.
  intros Hd. apply valid_iff in Hd. destruct Hd as (Hy & Hm & Hday).
  unfold toordinal, _ymd2ord, _MAXORDINAL.
  pose proof (within_year _ _ _ Hm Hday).
  pose proof (_days_before_year_succ (year d)).
  pose proof (_days_before_year_mono 1 (year d) ltac:(lia)) as H1.
  pose proof (_days_before_year_mono (year d + 1) 10000 ltac:(lia)) as H2.
  change (_days_before_year 1) with 0 in H1.
  change (_days_before_year 10000) with 3652059 in H2.
  lia.
Qed.

(** A date is the day of its ordinal. *)
Lemma ord2ymd_toordinal d : valid d = true -> _ord2ymd (toordinal d) = d.
Proof.
  intros Hd. pose proof (toordinal_bounds d Hd) as Hb.
  destruct (ord2ymd_spec _ Hb) as [Ho Hv].
  apply toordinal_inj; assumption.
Qed.

Lemma date_fromordinal_Ok n :
  1 <= n <= _MAXORDINAL -> date_fromordinal n = Ok (_ord2ymd n).
Proof.
  intros [Hlo Hhi]. unfold date_fromordinal, fromordinal.
  replace (1 <=? n) with true by (symmetry; apply Z.leb_le; lia).
  replace (n <=? _MAXORDINAL) with true by (symmetry; apply Z.leb_le; lia).
  reflexivity.
Qed.

(** ** Parsing and printing dates *)

Lemma is_digit_val c : PyStr.is_digit c = true -> 0 <= PyStr.digit_val c <= 9.
Proof.
  unfold PyStr.is_digit, PyStr.digit_val. intros H.
  apply andb_true_iff in H. destruct H as [H1 H2].
  apply Nat.leb_le in H1, H2. lia.
Qed.

Lemma in_range_val c lo hi :
  in_range c lo hi = true ->
  PyStr.digit_val lo <= PyStr.digit_val c <= PyStr.digit_val hi.
Proof.
  unfold in_range, PyStr.digit_val. intros H.
  apply andb_true_iff in H. destruct H as [H1 H2].
  apply Nat.leb_le in H1, H2. lia.
Qed.

Lemma digit_val_literals :
  PyStr.digit_val "0" = 0 /\ PyStr.digit_val "1" = 1 /\ PyStr.digit_val "2" = 2
  /\ PyStr.digit_val "3" = 3 /\ PyStr.digit_val "9" = 9.
Proof. repeat split. Qed.

Ltac digits :=
  repeat match goal with
    | H : _ && _ = true |- _ => apply andb_true_iff in H; destruct H
    | H : _ || _ = true |- _ => apply orb_true_iff in H; destruct H
    | H : Ascii.eqb _ _ = true |- _ => apply Ascii.eqb_eq in H; subst
    | H : in_range _ _ _ = true |- _ => apply in_range_val in H
    | H : PyStr.is_digit _ = true |- _ => apply is_digit_val in H
    end;
  unfold two in *;
  destruct digit_val_literals as (?E0 & ?E1 & ?E2 & ?E3 & ?E9);
  repeat match goal with
    | E : PyStr.digit_val (Ascii _ _ _ _ _ _ _ _) = _ |- _ => rewrite ?E in *; clear E
    end.

Lemma some_pair_inj {A B} (a c : A) (b d : B) :
  Some (a, b) = Some (c, d) -> a = c /\ b = d.
Proof. intros H. inversion H. split; reflexivity. Qed.

Lemma some_quad_inj {A B C D} (a a' : A) (b b' : B) (c c' : C) (d d' : D) :
  Some (a, b, c, d) = Some (a', b', c', d') -> a = a' /\ b = b' /\ c = c' /\ d = d'.
Proof. intros H. inversion H. repeat split; reflexivity. Qed.

Lemma match_month_range s m rest :
  match_month s = Some (m, rest) -> 1 <= m <= 12.
Proof.
  unfold match_month.
  destruct s as [| a [| b rest0]]; try discriminate.
  destruct rest0 as [| c rest1].
  - destruct (in_range a "1" "9" && Ascii.eqb b "-") eqn:E; [| discriminate].
    intros H. apply some_pair_inj in H. destruct H as [<- <-]. digits. lia.
  - destruct (Ascii.eqb c "-" && _) eqn:E.
    + intros H. apply some_pair_inj in H. destruct H as [<- <-]. digits; lia.
    + destruct (in_range a "1" "9" && Ascii.eqb b "-") eqn:E'; [| discriminate].
      intros H. apply some_pair_inj in H. destruct H as [<- <-]. digits. lia.
Qed.

Lemma match_day_range s d rest :
  match_day s = Some (d, rest) -> 1 <= d <= 31.
Proof.
  unfold match_day.
  destruct s as [| a [| b rest0]]; try discriminate.
  - destruct (in_range a "1" "9") eqn:E; [| discriminate].
    intros H. apply some_pair_inj in H. destruct H as [<- <-]. digits. lia.
  - destruct (_ || _) eqn:E.
    + intros H. apply some_pair_inj in H. destruct H as [<- <-]. digits; lia.
    + destruct (in_range a "1" "9") eqn:E1.
      * intros H. apply some_pair_inj in H. destruct H as [<- <-]. digits. lia.
      * destruct (Ascii.eqb a " " && in_range b "1" "9") eqn:E2; [| discriminate].
        intros H. apply some_pair_inj in H. destruct H as [<- <-]. digits. lia.
Qed.

Lemma match_format_range s y m d rest :
  match_format s = Some (y, m, d, rest) ->
  0 <= y <= 9999 /\ 1 <= m <= 12 /\ 1 <= d <= 31.
Proof.
  unfold match_format.
  destruct s as [| y1 [| y2 [| y3 [| y4 [| dash s]]]]]; try discriminate.
  destruct (_ && _) eqn:E; [| discriminate].
  destruct (match_month s) as [[m' s1] |] eqn:Em; [| discriminate].
  destruct (match_day s1) as [[d' s2] |] eqn:Ed; [| discriminate].
  intros H. apply some_quad_inj in H. destruct H as (<- & <- & <- & <-).
  apply match_month_range in Em. apply match_day_range in Ed.
  digits. lia.
Qed.

(** What [strptime] returns is a date. *)
Lemma strptime_valid s d : strptime s = Ok d -> valid d = true.
Proof.
  unfold strptime.
  destruct (match_format s) as [[[[y m] dd] rest] |] eqn:E; [| discriminate].
  apply match_format_range in E.
  destruct (negb _); [discriminate |].
  destruct (Z.ltb_spec y MINYEAR) as [| Hy]; [discriminate |].
  destruct (Z.ltb_spec (_days_in_month y m) dd) as [| Hd]; [discriminate |].
  intros Hok. inversion Hok; subst.
  apply valid_iff. unfold MINYEAR in *. cbn [year month day]. lia.
Qed.

Lemma nat_of_digit k : nat_of_ascii (PyStr.digit k) = (48 + Z.to_nat (k mod 10))%nat.
Proof.
  unfold PyStr.digit. apply nat_ascii_embedding.
  pose proof (Z.mod_pos_bound k 10 ltac:(lia)). lia.
Qed.

Lemma is_digit_digit k : PyStr.is_digit (PyStr.digit k) = true.
Proof.
  unfold PyStr.is_digit. rewrite nat_of_digit.
  pose proof (Z.mod_pos_bound k 10 ltac:(lia)).
  apply andb_true_iff. split; apply Nat.leb_le; lia.
Qed.

Lemma digit_val_digit k : PyStr.digit_val (PyStr.digit k) = k mod 10.
Proof.
  unfold PyStr.digit_val. rewrite nat_of_digit.
  pose proof (Z.mod_pos_bound k 10 ltac:(lia)). lia.
Qed.

Lemma match_month_pad2 m rest :
  1 <= m <= 12 -> match_month (PyStr.pad2 m ++ String "-" rest) = Some (m, rest).
Proof. intros Hm. each_month m Hm; reflexivity. Qed.

Lemma match_day_pad2 d :
  1 <= d <= 31 -> match_day (PyStr.pad2 d) = Some (d, "").
Proof.
  intros Hd.
  assert (H : day_parses d = true).
  { apply (all_from_spec 31 1 day_parses); [vm_compute; reflexivity | simpl; lia]. }
  unfold day_parses in H.
  destruct (match_day (PyStr.pad2 d)) as [[d' [|]] |]; try discriminate.
  apply Z.eqb_eq in H. subst. reflexivity.
Qed.

Lemma days_in_month_le_31 y m : 1 <= m <= 12 -> _days_in_month y m <= 31.
Proof.
  intros Hm. unfold _days_in_month.
  destruct (_is_leap y); each_month m Hm; tables; lia.
Qed.

(** Parsing the ISO form of a date gives the date back. *)
Lemma strptime_isoformat d : valid d = true -> strptime (isoformat d) = Ok d.
Proof.
  intros Hv. apply valid_iff in Hv. destruct d as [y m dd]. cbn [year month day] in Hv.
  destruct Hv as (Hy & Hm & Hd).
  pose proof (days_in_month_le_31 y m Hm) as H31.
  assert (E : match_format (isoformat (mkdate y m dd)) = Some (y, m, dd, "")).
  { unfold isoformat. cbn [year month day].
    change (PyStr.pad4 y ++ "-" ++ PyStr.pad2 m ++ "-" ++ PyStr.pad2 dd)
      with (String (PyStr.digit (y / 1000)) (String (PyStr.digit (y / 100))
             (String (PyStr.digit (y / 10)) (String (PyStr.digit y)
               (String "-" (PyStr.pad2 m ++ String "-" (PyStr.pad2 dd))))))).
    unfold match_format. rewrite !is_digit_digit.
    change (Ascii.eqb "-" "-") with true. cbn [andb].
    rewrite (match_month_pad2 m _ Hm), (match_day_pad2 dd ltac:(lia)).
    unfold two. rewrite !digit_val_digit.
    f_equal. f_equal. f_equal. f_equal. Z.div_mod_to_equations. lia. }
  unfold strptime. rewrite E. cbn [negb String.eqb].
  destruct (Z.ltb_spec y MINYEAR) as [H | _]; [unfold MINYEAR in H; lia |].
  destruct (Z.ltb_spec (_days_in_month y m) dd) as [H | _]; [lia |].
  reflexivity.
Qed.

Lemma isoformat_inj a b :
  valid a = true -> valid b = true -> isoformat a = isoformat b -> a = b.
Proof.
  intros Ha Hb E.
  pose proof (strptime_isoformat a Ha) as Pa. rewrite E in Pa.
  rewrite (strptime_isoformat b Hb) in Pa. congruence.
Qed.

Lemma dec_pad4 y : 1000 <= y <= 9999 -> PyStr.dec y = PyStr.pad4 y.
Proof.
  intros Hy. apply String.eqb_eq.
  apply (all_from_spec (Z.to_nat 9000) 1000 year_prints); [vm_compute; reflexivity | lia].
Qed.

(** The date printed for a defaulted parameter parses back, from the year
    1000 on. *)
Lemma strptime_strftime d :
  valid d = true -> 1000 <= year d -> strptime (strftime_Y_m_d d) = Ok d.
Proof.
  intros Hv Hy. pose proof (proj1 (valid_iff d) Hv) as (Hy' & _).
  unfold strftime_Y_m_d. rewrite dec_pad4 by lia.
  apply (strptime_isoformat d Hv).
Qed.

(** ** Error responses *)

(** [_abort] never returns a response: the call of [json.dumps] without its
    positional argument raises first. *)
Lemma _abort_raises code msg usage st :
  _abort code msg usage st = (Raise dumps_without_obj, st).
Proof. reflexivity. Qed.

(** Whatever fails in a request, what leaves the handler is that
    [TypeError]. *)
Lemma apod_raises_only_TypeError env query_params st e st' :
  apod env query_params st = (Raise e, st') -> e = dumps_without_obj.
Proof.
  unfold apod.
  match goal with
  | |- match ?run with _ => _ end = _ -> _ => destruct run as [[body | ex] st1]
  end.
  - discriminate.
  - destruct (is_ValueError ex); cbn [orb];
      [| destruct (PyStr.contains "BadRequest" (str_of_type (exn_type ex)))];
      rewrite _abort_raises; intros H; inversion H; reflexivity.
Qed.

(** C1, at a failing input.  A request with a parameter that is not
    allowed should be answered with the object [{service_version, msg,
    code}] and status 400; the handler raises instead, and so does
    [_abort] for every code and message. *)
Theorem apod_unknown_field_raises :
  (forall env st,
      apod env (Some [("api_key", "DEMO_KEY")]) st = (Raise dumps_without_obj, st))
  /\ (forall code msg usage st,
         _abort code msg usage st = (Raise dumps_without_obj, st)).
Proof. split; reflexivity. Qed.

(** ** Explanation *)

(** The paragraph of the specification comes out as expected. *)
Example explanation_nice_sky :
  _explanation (Examples.picture_page Examples.nice_sky) = Ok "A nice sky.".
Proof. vm_compute. reflexivity. Qed.

(** C5, at a failing input.  The label is removed with [strip], which
    takes its argument as a set of characters: the letters of the body
    that belong to the label go with it.  Of the paragraph
    ["Explanation: pale blue dot. Tomorrow's picture: more sky."] the
    explanation kept is ["e blue dot."], not ["pale blue dot."]. *)
Theorem explanation_strip_eats_body :
  _explanation (Examples.picture_page Examples.pale_blue_dot) = Ok "e blue dot.".
Proof. vm_compute. reflexivity. Qed.

(** ** Date validation *)

Lemma ltb_date_lt a b : ltb a b = true <-> date_lt a b.
Proof.
  unfold ltb, cmp, date_lt.
  destruct (Z.compare_spec (year a) (year b));
    [destruct (Z.compare_spec (month a) (month b));
       [destruct (Z.compare_spec (day a) (day b)) | | ] | | ];
    split; intros; try discriminate; try reflexivity; lia.
Qed.

Lemma ltb_false_date_le a b : ltb a b = false <-> date_le b a.
Proof.
  unfold ltb, cmp, date_le, date_lt.
  destruct a as [ya ma da], b as [yb mb db]; simpl.
  destruct (Z.compare_spec ya yb);
    [destruct (Z.compare_spec ma mb);
       [destruct (Z.compare_spec da db) | | ] | | ];
    split; intros H'; try discriminate; try reflexivity;
    try (destruct H' as [H' | H']; [lia | inversion H'; lia]);
    try (left; lia).
  right. congruence.
Qed.

Lemma _validate_date_Ok env d :
  date_le begin d -> date_le d (today env) -> _validate_date env d = Ok tt.
Proof.
  intros Hb Ht. unfold _validate_date, gtb.
  apply ltb_false_date_le in Hb, Ht. rewrite Hb, Ht. reflexivity.
Qed.

Lemma _validate_date_Raise env d :
  date_lt d begin \/ date_lt (today env) d ->
  _validate_date env d = Raise (out_of_range env).
Proof.
  intros H. unfold _validate_date, gtb.
  assert (E : ltb (today env) d || ltb d begin = true).
  { apply orb_true_iff. destruct H as [H | H]; apply ltb_date_lt in H; auto. }
  rewrite E. reflexivity.
Qed.

(** C6.  A date of the window, from the first picture to today, passes;
    a date before the first picture or after today is refused with the
    [ValueError] that names the window. *)
Theorem _validate_date_window env d :
  (date_le begin d /\ date_le d (today env) -> _validate_date env d = Ok tt)
  /\ (date_lt d begin \/ date_lt (today env) d ->
      _validate_date env d = Raise (out_of_range env)).
Proof.
  split.
  - intros [Hb Ht]. apply _validate_date_Ok; assumption.
  - apply _validate_date_Raise.
Qed.

Lemma _validate_date_window_witness :
  _validate_date Examples.all_pages (mkdate 2020 1 5) = Ok tt
  /\ _validate_date Examples.all_pages (mkdate 1995 6 15)
     = Raise (out_of_range Examples.all_pages)
  /\ _validate_date Examples.all_pages (mkdate 2020 1 8)
     = Raise (out_of_range Examples.all_pages).
Proof.
  split; [| split].
  - apply (proj1 (_validate_date_window Examples.all_pages (mkdate 2020 1 5))).
    split; left; unfold date_lt; simpl; lia.
  - apply (proj2 (_validate_date_window Examples.all_pages (mkdate 1995 6 15))).
    left. unfold date_lt. simpl. lia.
  - apply (proj2 (_validate_date_window Examples.all_pages (mkdate 2020 1 8))).
    right. unfold date_lt. simpl. lia.
Defined.

(** ** One page *)

Lemma _get_apod_chars_run env dt st :
  _get_apod_chars env dt st =
  (match get_page env st (apod_url dt) with
   | Ok soup => apod_chars env dt soup
   | Raise e => Raise e
   end, (st ++ [apod_url dt])%list).
Proof.
  unfold _get_apod_chars, bind, open_page, lift.
  destruct (get_page env st (apod_url dt)); reflexivity.
Qed.

Lemma dict_get_set_same d k v : dict_get (dict_set d k v) k = Some v.
Proof.
  induction d as [| [k' v'] d IH]; simpl.
  - rewrite String.eqb_refl. reflexivity.
  - destruct (String.eqb k' k) eqn:E; simpl; rewrite E; [reflexivity | exact IH].
Qed.

Lemma dict_get_set_other d k k' v :
  k <> k' -> dict_get (dict_set d k v) k' = dict_get d k'.
Proof.
  intros Hne. induction d as [| [k0 v0] d IH]; simpl.
  - destruct (String.eqb_spec k k'); [contradiction | reflexivity].
  - destruct (String.eqb_spec k0 k); simpl.
    + subst k0. destruct (String.eqb_spec k k'); [contradiction | reflexivity].
    + destruct (String.eqb_spec k0 k'); [reflexivity | exact IH].
Qed.

(** What a record holds, by the kind of media found on the page. *)
Lemma apod_chars_fields env dt soup props :
  apod_chars env dt soup = Ok props ->
  dict_get props "date" = Some (isoformat dt)
  /\ match Soup.find soup "img" with
     | Some img =>
         exists src, Soup.attr img "src" = Some src
                     /\ dict_get props "media_type" = Some "image"
                     /\ dict_get props "url" = Some (BASE ++ src)
     | None =>
         exists iframe src,
           Soup.find soup "iframe" = Some iframe
           /\ Soup.attr iframe "src" = Some src
           /\ dict_get props "media_type" = Some "video"
           /\ dict_get props "url" = Some src
     end.
Proof.
  unfold apod_chars, getitem.
  destruct (Soup.find soup "img") as [img |].
  - destruct (Soup.attr img "src") as [src |] eqn:Hsrc; cbn [rbind or_raise]; [| discriminate].
    destruct (_explanation soup); cbn [rbind]; [| discriminate].
    destruct (_title soup); cbn [rbind]; [| discriminate].
    destruct (_copyright env soup) as [c |]; cbn [rbind]; [| discriminate].
    destruct (is_true c); destruct (is_true (Some _));
      intros H; inversion H; subst;
      (split; [reflexivity | exists src; repeat split; reflexivity]).
  - destruct (Soup.find soup "iframe") as [iframe |]; cbn [rbind]; [| discriminate].
    destruct (Soup.attr iframe "src") as [src |] eqn:Hsrc; cbn [rbind or_raise]; [| discriminate].
    destruct (_explanation soup); cbn [rbind]; [| discriminate].
    destruct (_title soup); cbn [rbind]; [| discriminate].
    destruct (_copyright env soup) as [c |]; cbn [rbind]; [| discriminate].
    destruct (is_true c);
      intros H; inversion H; subst;
      (split; [reflexivity | exists iframe, src; repeat split; solve [reflexivity | assumption]]).
Qed.

(** C8.  A fetched page with neither a picture nor a frame gives no
    record: the extraction raises, and so does the unit of work for an
    explicit date.  A record of a video always carries the source
    attribute of the frame as its address. *)
Theorem no_media_no_record env dt st soup :
  get_page env st (apod_url dt) = Ok soup ->
  (Soup.find soup "img" = None -> Soup.find soup "iframe" = None ->
   exists e,
     exn_type e = TypeError
     /\ _get_apod_chars env dt st = (Raise e, (st ++ [apod_url dt])%list)
     /\ parse_apod env dt false st
        = (Raise (mkexn Exception_ (exn_msg e)), (st ++ [apod_url dt])%list))
  /\ (forall props st',
        _get_apod_chars env dt st = (Ok props, st') ->
        dict_get props "media_type" = Some "video" ->
        exists iframe src,
          Soup.find soup "img" = None
          /\ Soup.find soup "iframe" = Some iframe
          /\ Soup.attr iframe "src" = Some src
          /\ dict_get props "url" = Some src).
Proof.
  intros Hpage. split.
  - intros Himg Hframe.
    exists (mkexn TypeError "'NoneType' object is not subscriptable").
    assert (E : _get_apod_chars env dt st
                = (Raise (mkexn TypeError "'NoneType' object is not subscriptable"),
                   (st ++ [apod_url dt])%list)).
    { rewrite _get_apod_chars_run, Hpage. unfold apod_chars.
      rewrite Himg, Hframe. reflexivity. }
    split; [reflexivity | split; [exact E |]].
    unfold parse_apod, try_except. rewrite E. reflexivity.
  - intros props st' Hrun Hvideo.
    rewrite _get_apod_chars_run, Hpage in Hrun.
    inversion Hrun as [[Hchars Hst]].
    apply apod_chars_fields in Hchars. destruct Hchars as [_ Hmedia].
    destruct (Soup.find soup "img") as [img |].
    + destruct Hmedia as (src & _ & Hm & _). congruence.
    + destruct Hmedia as (iframe & src & Hf & Ha & _ & Hu). eauto 10.
Qed.

Lemma no_media_no_record_witness :
  (exists e,
      exn_type e = TypeError
      /\ _get_apod_chars Examples.not_found (mkdate 2020 1 5) []
         = (Raise e, [apod_url (mkdate 2020 1 5)])
      /\ parse_apod Examples.not_found (mkdate 2020 1 5) false []
         = (Raise (mkexn Exception_ (exn_msg e)), [apod_url (mkdate 2020 1 5)]))
  /\ (exists iframe src,
         Soup.find Examples.video_page "img" = None
         /\ Soup.find Examples.video_page "iframe" = Some iframe
         /\ Soup.attr iframe "src" = Some src
         /\ src = "https://www.youtube.com/embed/x").
Proof.
  split.
  - apply (proj1 (no_media_no_record Examples.not_found (mkdate 2020 1 5) []
                    Examples.bare_page eq_refl));
      reflexivity.
  - edestruct (proj2 (no_media_no_record Examples.videos (mkdate 2020 1 6) []
                        Examples.video_page eq_refl))
      as (iframe & src & Hi & Hf & Ha & Hu).
    + lazy. reflexivity.
    + reflexivity.
    + exists iframe, src. repeat split; try assumption.
      lazy in Hu. congruence.
Defined.

(** ** The unit of work *)

Lemma day_before_ordinal dt :
  1 < toordinal dt <= _MAXORDINAL ->
  day_before dt = Ok (_ord2ymd (toordinal dt - 1)).
Proof.
  intros [Hlo Hhi]. unfold day_before, sub_days.
  replace (0 <? toordinal dt - 1) with true by (symmetry; apply Z.ltb_lt; lia).
  replace (toordinal dt - 1 <=? _MAXORDINAL) with true
    by (symmetry; apply Z.leb_le; lia).
  reflexivity.
Qed.

(** C2.  The unit requests the page of its date once.  When that attempt
    gives a record, the record is the result.  When it fails and the
    fallback is allowed, the page of the previous calendar day is
    requested, once, and the outcome of that attempt is the outcome of the
    unit: no further day is tried, as for a unit of the previous day with
    the fallback disabled.  When it fails and the fallback is not allowed,
    the failure goes to the caller after the single request. *)
Theorem parse_apod_fallback env dt st :
  valid dt = true ->
  date_lt (mkdate 1 1 1) dt ->
  let attempt := _get_apod_chars env dt st in
  let yesterday := _ord2ymd (toordinal dt - 1) in
  (valid yesterday = true /\ toordinal yesterday = toordinal dt - 1)
  /\ snd attempt = (st ++ [apod_url dt])%list
  /\ (forall props, fst attempt = Ok props ->
      forall allow_fallback, parse_apod env dt allow_fallback st = attempt)
  /\ (forall ex, fst attempt = Raise ex ->
      parse_apod env dt true st = _get_apod_chars env yesterday (snd attempt)
      /\ snd (parse_apod env dt true st)
         = (st ++ [apod_url dt; apod_url yesterday])%list
      /\ snd (parse_apod env yesterday false (snd attempt))
         = snd (parse_apod env dt true st)
      /\ (forall props,
             fst (parse_apod env yesterday false (snd attempt)) = Ok props
             <-> fst (parse_apod env dt true st) = Ok props)
      /\ parse_apod env dt false st
         = (Raise (mkexn Exception_ (exn_msg ex)), (st ++ [apod_url dt])%list)).
Proof.
  intros Hvalid Hfirst attempt yesterday.
  assert (Hdt : 1 < toordinal dt <= _MAXORDINAL).
  { pose proof (toordinal_bounds dt Hvalid).
    pose proof (toordinal_lt (mkdate 1 1 1) dt eq_refl Hvalid Hfirst) as H1.
    change (toordinal (mkdate 1 1 1)) with 1 in H1. lia. }
  split.
  { destruct (ord2ymd_spec (toordinal dt - 1) ltac:(lia)) as [Ho Hv].
    split; assumption. }
  assert (Hsnd : snd attempt = (st ++ [apod_url dt])%list).
  { unfold attempt. rewrite _get_apod_chars_run. reflexivity. }
  split; [exact Hsnd |]. split.
  - intros props Hok allow_fallback.
    unfold parse_apod, try_except. fold attempt.
    destruct attempt as [[p | e] st1]; simpl in Hok; [reflexivity | discriminate].
  - intros ex Hex.
    assert (Hretry : parse_apod env dt true st
                     = _get_apod_chars env yesterday (snd attempt)).
    { unfold parse_apod, try_except. fold attempt.
      destruct attempt as [[p | e] st1]; simpl in Hex; [discriminate |].
      unfold bind, lift. rewrite (day_before_ordinal dt Hdt). reflexivity. }
    assert (Hplain : parse_apod env yesterday false (snd attempt)
                     = match _get_apod_chars env yesterday (snd attempt) with
                       | (Ok p, st2) => (Ok p, st2)
                       | (Raise e, st2) => (Raise (mkexn Exception_ (exn_msg e)), st2)
                       end).
    { unfold parse_apod, try_except.
      destruct (_get_apod_chars env yesterday (snd attempt)) as [[p | e] st2];
        reflexivity. }
    split; [exact Hretry |]. split; [| split; [| split]].
    + rewrite Hretry, _get_apod_chars_run, Hsnd. simpl.
      rewrite <- app_assoc. reflexivity.
    + rewrite Hplain, Hretry.
      destruct (_get_apod_chars env yesterday (snd attempt)) as [[p | e] st2];
        reflexivity.
    + intros props. rewrite Hplain, Hretry.
      destruct (_get_apod_chars env yesterday (snd attempt)) as [[p | e] st2];
        simpl; split; intros H; (exact H || discriminate).
    + unfold parse_apod, try_except. fold attempt. rewrite <- Hsnd.
      destruct attempt as [[p | e] st1]; simpl in Hex; [discriminate |].
      inversion Hex. reflexivity.
Qed.

Lemma parse_apod_fallback_witness :
  parse_apod Examples.before_publication (mkdate 2020 1 7) true []
  = _get_apod_chars Examples.before_publication (mkdate 2020 1 6)
      [apod_url (mkdate 2020 1 7)]
  /\ snd (parse_apod Examples.before_publication (mkdate 2020 1 7) true [])
     = [apod_url (mkdate 2020 1 7); apod_url (mkdate 2020 1 6)]
  /\ parse_apod Examples.before_publication (mkdate 2020 1 7) false []
     = (Raise (mkexn Exception_ "Connection refused"), [apod_url (mkdate 2020 1 7)]).
Proof.
  assert (Hfirst : date_lt (mkdate 1 1 1) (mkdate 2020 1 7))
    by (left; simpl; lia).
  destruct (parse_apod_fallback Examples.before_publication (mkdate 2020 1 7) []
              eq_refl Hfirst)
    as (_ & _ & _ & Hfail).
  destruct (Hfail Examples.unreachable eq_refl) as (H1 & H2 & _ & _ & H5).
  split; [exact H1 | split; [exact H2 | exact H5]].
Defined.

(** C7.  With no credential configured, a unit that is asked for concept
    tags and whose page was extracted returns the record with the
    placeholder in its [concepts] field, and raises nothing. *)
Theorem concepts_placeholder env dt allow_fallback st props st' :
  ALCHEMY_API_KEY env = None ->
  parse_apod env dt allow_fallback st = (Ok props, st') ->
  _apod_handler env dt true allow_fallback st
  = (Ok (VDict (dict_set props "concepts" concepts_off)), st')
  /\ dict_get (dict_set props "concepts" concepts_off) "concepts"
     = Some "concept_tags functionality turned off in current service".
Proof.
  intros Hkey Hrun. split; [| apply dict_get_set_same].
  unfold _apod_handler, try_except, bind. rewrite Hrun, Hkey. reflexivity.
Qed.

Lemma concepts_placeholder_witness :
  exists props,
    _apod_handler Examples.all_pages (mkdate 2020 1 5) true false []
    = (Ok (VDict props), [apod_url (mkdate 2020 1 5)])
    /\ dict_get props "concepts"
       = Some "concept_tags functionality turned off in current service".
Proof.
  eexists.
  eapply (concepts_placeholder Examples.all_pages (mkdate 2020 1 5) false []).
  - reflexivity.
  - lazy. reflexivity.
Defined.

(** ** The [hd] parameter *)

Lemma query_get_hd args1 args2 v key :
  key <> "hd" ->
  query_get (args1 ++ ("hd", v) :: args2) key = query_get (args1 ++ args2) key.
Proof.
  intros Hkey. induction args1 as [| [k w] args1 IH]; cbn [query_get app].
  - destruct (String.eqb_spec "hd" key) as [E | _]; [congruence |].
    destruct (query_get args2 key); reflexivity.
  - rewrite IH. reflexivity.
Qed.

Lemma _validate_hd args1 args2 v :
  _validate (args1 ++ ("hd", v) :: args2) = _validate (args1 ++ args2).
Proof. unfold _validate. rewrite !forallb_app. reflexivity. Qed.

(** A request without a query string has no parameters to validate: the
    handler fails on it, whatever the service could have answered. *)
Lemma apod_without_query_string env st :
  apod env None st = (Raise dumps_without_obj, st).
Proof. reflexivity. Qed.

(** C10, at a failing input.  [hd] is an allowed name, and the request
    whose only parameter is [hd] is answered with the record of today;
    the same request without [hd] has no query string, and the handler
    raises on it instead of answering the same. *)
Theorem hd_alone_is_answered :
  (forall v, _validate [("hd", v)] = true)
  /\ apod Examples.all_pages (Some [("hd", "True")]) []
     = (Ok (Json.encode (Examples.nice_sky_record "2020-01-07")),
        [apod_url (mkdate 2020 1 7)])
  /\ apod Examples.all_pages None [] = (Raise dumps_without_obj, []).
Proof.
  split; [reflexivity |]. split; [vm_compute; reflexivity | reflexivity].
Qed.

(** ** Batches *)

(** The date a record of the unit carries: that of the day, or that of
    the day before when the fallback was allowed. *)
Lemma parse_apod_date env dt allow_fallback st props st' :
  parse_apod env dt allow_fallback st = (Ok props, st') ->
  dict_get props "date" = Some (isoformat dt)
  \/ (allow_fallback = true
      /\ exists dt', day_before dt = Ok dt'
                     /\ dict_get props "date" = Some (isoformat dt')).
Proof.
  unfold parse_apod, try_except. rewrite _get_apod_chars_run.
  destruct (get_page env st (apod_url dt)) as [soup | e].
  - destruct (apod_chars env dt soup) as [p | e] eqn:E.
    + intros H. inversion H; subst. left. apply (apod_chars_fields _ _ _ _ E).
    + destruct allow_fallback; [| discriminate].
      unfold bind, lift. destruct (day_before dt) as [dt' | e']; [| discriminate].
      rewrite _get_apod_chars_run.
      destruct (get_page env _ (apod_url dt')) as [soup' | e'']; [| discriminate].
      destruct (apod_chars env dt' soup') as [p' | e''] eqn:E'; [| discriminate].
      intros H. inversion H; subst. right. split; [reflexivity |].
      exists dt'. split; [reflexivity | apply (apod_chars_fields _ _ _ _ E')].
  - destruct allow_fallback; [| discriminate].
    unfold bind, lift. destruct (day_before dt) as [dt' | e']; [| discriminate].
    rewrite _get_apod_chars_run.
    destruct (get_page env _ (apod_url dt')) as [soup' | e'']; [| discriminate].
    destruct (apod_chars env dt' soup') as [p' | e''] eqn:E'; [| discriminate].
    intros H. inversion H; subst. right. split; [reflexivity |].
    exists dt'. split; [reflexivity | apply (apod_chars_fields _ _ _ _ E')].
Qed.

(** What the handler returns is a record, with the date of the unit. *)
Lemma _apod_handler_Ok env dt tags allow_fallback st v st' :
  _apod_handler env dt tags allow_fallback st = (Ok v, st') ->
  exists props,
    v = VDict props
    /\ (dict_get props "date" = Some (isoformat dt)
        \/ (allow_fallback = true
            /\ exists dt', day_before dt = Ok dt'
                           /\ dict_get props "date" = Some (isoformat dt'))).
Proof.
  unfold _apod_handler, try_except, bind.
  destruct (parse_apod env dt allow_fallback st) as [[props | e] st1] eqn:E.
  - pose proof (parse_apod_date _ _ _ _ _ _ E) as Hd.
    destruct tags; [destruct (ALCHEMY_API_KEY env) |]; unfold ret, raise.
    + rewrite _abort_raises. discriminate.
    + intros H. inversion H; subst. eexists. split; [reflexivity |].
      rewrite dict_get_set_other by discriminate. exact Hd.
    + intros H. inversion H; subst. eexists. split; [reflexivity | exact Hd].
  - rewrite _abort_raises. discriminate.
Qed.

Lemma unit_of_work_Ok env tags o st v st' :
  unit_of_work env tags o st = (Ok v, st') ->
  exists props s,
    v = VDict props /\ dict_get props "date" = Some s
    /\ dict_get props "service_version" = Some SERVICE_VERSION
    /\ (s = isoformat (_ord2ymd o)
        \/ (o = toordinal (today env)
            /\ exists dt', day_before (_ord2ymd o) = Ok dt' /\ s = isoformat dt')).
Proof.
  unfold unit_of_work, bind, lift, date_fromordinal, fromordinal.
  destruct ((1 <=? o) && (o <=? _MAXORDINAL)); cbn [or_raise]; [| discriminate].
  destruct (_apod_handler env (_ord2ymd o) tags (o =? toordinal (today env)) st)
    as [[data | e] st1] eqn:E; [| discriminate].
  apply _apod_handler_Ok in E. destruct E as (props & -> & Hd).
  cbn [setitem]. intros H. inversion H; subst.
  destruct Hd as [Hd | (Hf & dt' & Hb & Hd)].
  - exists (dict_set props "service_version" SERVICE_VERSION), (isoformat (_ord2ymd o)).
    repeat split.
    + rewrite dict_get_set_other by discriminate. exact Hd.
    + apply dict_get_set_same.
    + left. reflexivity.
  - exists (dict_set props "service_version" SERVICE_VERSION), (isoformat dt').
    repeat split.
    + rewrite dict_get_set_other by discriminate. exact Hd.
    + apply dict_get_set_same.
    + right. apply Z.eqb_eq in Hf. split; [exact Hf |].
      exists dt'. split; [exact Hb | reflexivity].
Qed.

Lemma range_nil lo hi : hi <= lo -> range lo hi = [].
Proof.
  intros H. unfold range. replace (Z.to_nat (hi - lo)) with O by lia. reflexivity.
Qed.

Lemma range_cons lo hi : lo < hi -> range lo hi = lo :: range (lo + 1) hi.
Proof.
  intros H. unfold range.
  replace (Z.to_nat (hi - lo)) with (S (Z.to_nat (hi - (lo + 1)))) by lia.
  cbn [seq map]. f_equal; [lia |].
  rewrite <- seq_shift, map_map. apply map_ext. intros i. lia.
Qed.

Lemma range_length lo hi : List.length (range lo hi) = Z.to_nat (hi - lo).
Proof. unfold range. rewrite length_map, length_seq. reflexivity. Qed.

Lemma range_nth lo hi i :
  (i < Z.to_nat (hi - lo))%nat -> nth i (range lo hi) 0 = lo + Z.of_nat i.
Proof.
  intros H. unfold range.
  rewrite (nth_indep _ 0 (lo + Z.of_nat 0)) by (rewrite length_map, length_seq; exact H).
  rewrite (map_nth (fun j => lo + Z.of_nat j)), seq_nth by exact H. reflexivity.
Qed.

Lemma range_In lo hi o : In o (range lo hi) <-> lo <= o < hi.
Proof.
  unfold range. rewrite in_map_iff. split.
  - intros (i & <- & Hi). apply in_seq in Hi. lia.
  - intros H. exists (Z.to_nat (o - lo)). split; [lia |]. apply in_seq. lia.
Qed.

(** The loop of the random mode runs the units of the drawn days in the
    order of the draw and keeps every record. *)
Lemma random_loop_units env tags ords : forall all_data st,
  random_loop env tags (toordinal (today env)) ords all_data st
  = (records <- for_each (unit_of_work env tags) ords ;;
     ret (all_data ++ records)%list) st.
Proof.
  induction ords as [| o ords IH]; intros all_data st.
  - cbn [random_loop for_each]. unfold bind, ret. rewrite app_nil_r. reflexivity.
  - cbn [random_loop for_each].
    set (others := for_each (unit_of_work env tags) ords) in *.
    unfold unit_of_work, bind, lift.
    destruct (date_fromordinal o) as [dt | e]; [| reflexivity].
    destruct (_apod_handler env dt tags (o =? toordinal (today env)) st)
      as [[data | e] st1]; [| reflexivity].
    destruct (setitem data "service_version" SERVICE_VERSION) as [data' | e];
      [| reflexivity].
    rewrite IH. unfold bind, ret.
    destruct (others st1) as [[records | e] st2]; [| reflexivity].
    rewrite <- app_assoc. reflexivity.
Qed.

(** The loop of the range mode runs the units of the days from
    [start_ordinal] to [end_ordinal] in ascending order and keeps the
    records that are on their day; the fuel given is enough. *)
Lemma range_loop_units env tags fuel : forall start_ordinal end_ordinal all_data st,
  end_ordinal + 1 - start_ordinal <= Z.of_nat fuel ->
  range_loop fuel env tags (toordinal (today env)) start_ordinal end_ordinal all_data st
  = (records <- for_each (unit_of_work env tags) (range start_ordinal (end_ordinal + 1)) ;;
     ret (all_data ++ kept (range start_ordinal (end_ordinal + 1)) records)%list) st.
Proof.
  induction fuel as [| fuel IH]; intros start_ordinal end_ordinal all_data st Hfuel.
  - rewrite range_nil by lia. cbn [range_loop for_each]. unfold kept. cbn [combine filter map].
    unfold bind, ret. rewrite app_nil_r. reflexivity.
  - cbn [range_loop]. destruct (Z.leb_spec start_ordinal end_ordinal) as [Hle | Hgt].
    + rewrite range_cons by lia. cbn [for_each].
      set (others := for_each (unit_of_work env tags)
                       (range (start_ordinal + 1) (end_ordinal + 1))).
      unfold bind.
      destruct (unit_of_work env tags start_ordinal st) as [[data' | e] st1] eqn:Eu.
      * pose proof (unit_of_work_Ok _ _ _ _ _ _ Eu) as (props & s & -> & Hs & _ & _).
        revert Eu. unfold unit_of_work, bind, lift.
        destruct (date_fromordinal start_ordinal) as [dt | e] eqn:Ed; [| discriminate].
        assert (Hdt : dt = _ord2ymd start_ordinal).
        { revert Ed. unfold date_fromordinal, fromordinal.
          destruct (_ && _); cbn [or_raise]; congruence. }
        destruct (_apod_handler env dt tags (start_ordinal =? toordinal (today env)) st)
          as [[data | e] st1'] ; [| discriminate].
        destruct (setitem data "service_version" SERVICE_VERSION) as [data'' | e];
          [| discriminate].
        intros Eu. inversion Eu; subst data'' st1'.
        cbn [item or_raise]. rewrite Hs. cbn [or_raise].
        rewrite IH by lia. fold others. unfold bind, ret.
        destruct (others st1) as [[records | e] st2]; [| reflexivity].
        unfold kept. cbn [combine filter map fst snd].
        change (on_its_day start_ordinal (VDict props))
          with (match dict_get props "date" with
                | Some s0 => String.eqb s0 (isoformat (_ord2ymd start_ordinal))
                | None => false
                end).
        rewrite Hs, <- Hdt.
        destruct (String.eqb s (isoformat dt)); cbn [map snd].
        -- rewrite <- app_assoc. reflexivity.
        -- reflexivity.
      * revert Eu. unfold unit_of_work, bind, lift.
        destruct (date_fromordinal start_ordinal) as [dt | e']; [| congruence].
        destruct (_apod_handler env dt tags (start_ordinal =? toordinal (today env)) st)
          as [[data | e'] st1']; [| congruence].
        destruct (setitem data "service_version" SERVICE_VERSION) as [data'' | e'];
          [discriminate | congruence].
    + rewrite range_nil by lia. cbn [for_each]. unfold kept. cbn [combine filter map].
      unfold bind, ret. rewrite app_nil_r. reflexivity.
Qed.

Lemma date_le_trans a b c : date_le a b -> date_le b c -> date_le a c.
Proof.
  unfold date_le, date_lt. intros [H1 | ->] [H2 | ->]; auto. left. lia.
Qed.

Lemma ord2ymd_lt n n' :
  1 <= n -> n < n' -> n' <= _MAXORDINAL -> date_lt (_ord2ymd n) (_ord2ymd n').
Proof.
  intros H1 H2 H3.
  destruct (ord2ymd_spec n ltac:(lia)) as [Hn Hv].
  destruct (ord2ymd_spec n' ltac:(lia)) as [Hn' Hv'].
  destruct (date_lt_trichotomy (_ord2ymd n) (_ord2ymd n')) as [H | [H | H]].
  - exact H.
  - rewrite H in Hn. lia.
  - pose proof (toordinal_lt _ _ Hv' Hv H). lia.
Qed.

Lemma for_each_length {A B} (f : A -> M B) l : forall st records st',
  for_each f l st = (Ok records, st') -> List.length records = List.length l.
Proof.
  induction l as [| x l IH]; intros st records st'.
  - cbn [for_each]. unfold ret. intros H. inversion H. reflexivity.
  - cbn [for_each]. unfold bind.
    destruct (f x st) as [[y | e] st1]; [| discriminate].
    destruct (for_each f l st1) as [[ys | e] st2] eqn:E; [| discriminate].
    unfold ret. intros H. inversion H. cbn [List.length]. f_equal.
    apply (IH _ _ _ E).
Qed.

Lemma kept_all days : forall records,
  Forall2 (fun o data => on_its_day o data = true) days records ->
  kept days records = records.
Proof.
  induction days as [| o days IH]; intros records H; inversion H; subst.
  - reflexivity.
  - unfold kept. cbn [combine filter map fst snd]. rewrite H2. cbn [map snd].
    f_equal. apply IH. assumption.
Qed.

Lemma on_its_day_date o data :
  on_its_day o data = true <-> date_of data = Some (isoformat (_ord2ymd o)).
Proof.
  unfold on_its_day. destruct (date_of data) as [s |].
  - rewrite String.eqb_eq. split; congruence.
  - split; discriminate.
Qed.

Lemma on_their_days days : forall records,
  Forall2 (fun o data => on_its_day o data = true) days records ->
  map date_of records = map (fun o => Some (isoformat (_ord2ymd o))) days.
Proof.
  induction days as [| o days IH]; intros records H; inversion H; subst.
  - reflexivity.
  - cbn [map]. f_equal; [apply on_its_day_date; assumption | apply IH; assumption].
Qed.

Lemma end_or_today_unfold env end_date :
  match end_date with
  | Some d => if String.eqb d "" then strftime_Y_m_d (today env) else d
  | None => strftime_Y_m_d (today env)
  end = end_or_today env end_date.
Proof.
  unfold end_or_today, is_true.
  destruct end_date as [d |]; [destruct (String.eqb d "") |]; reflexivity.
Qed.

(** An absent end of a range is today. *)
Lemma default_end_is_today env :
  valid (today env) = true -> 1000 <= year (today env) ->
  strptime (end_or_today env None) = Ok (today env).
Proof. intros Hv Hy. apply strptime_strftime; assumption. Qed.

(** The range mode, for dates that pass the validation: the units of the
    days, then the records that are on their day. *)
Lemma _get_json_for_date_range_run env start_date end_date tags st start_dt end_dt :
  strptime start_date = Ok start_dt ->
  strptime (end_or_today env end_date) = Ok end_dt ->
  date_le begin start_dt -> date_le start_dt end_dt -> date_le end_dt (today env) ->
  let days := range (toordinal start_dt) (toordinal end_dt + 1) in
  _get_json_for_date_range env start_date end_date tags st
  = (records <- for_each (unit_of_work env tags) days ;;
     lift (Json.dumps (Some (Many (kept days records))) [])) st.
Proof.
  intros Hs He Hb Hle Ht days.
  pose proof (strptime_valid _ _ Hs) as Vs. pose proof (strptime_valid _ _ He) as Ve.
  unfold _get_json_for_date_range.
  rewrite end_or_today_unfold.
  rewrite Hs. rewrite bind_lift_Ok.
  rewrite (_validate_date_Ok env start_dt Hb (date_le_trans _ _ _ Hle Ht)).
  rewrite bind_lift_Ok, He, bind_lift_Ok.
  rewrite (_validate_date_Ok env end_dt (date_le_trans _ _ _ Hb Hle) Ht).
  rewrite bind_lift_Ok.
  apply (toordinal_le _ _ Vs Ve) in Hle.
  destruct (Z.gtb_spec (toordinal start_dt) (toordinal end_dt)) as [Hgt | _]; [lia |].
  unfold bind at 1. rewrite range_loop_units by lia. fold days.
  unfold bind.
  destruct (for_each (unit_of_work env tags) days st) as [[records | e] st1];
    reflexivity.
Qed.

Lemma last_is_nth (l : list Z) d : last l d = nth (List.length l - 1) l d.
Proof.
  induction l as [| x [| y l] IH]; try reflexivity.
  change (last (x :: y :: l) d) with (last (y :: l) d). rewrite IH.
  cbn [List.length]. rewrite !Nat.sub_succ, !Nat.sub_0_r. reflexivity.
Qed.

(** C3.  For dates that pass the validation, with the start not after the
    end, the range mode runs the unit of every day from the start to the
    end, in ascending order, and answers with the records that carry the
    date of their day; the others are left out.  When every record is on
    its day, the answer holds them all, one per day, in ascending order of
    date. *)
Theorem range_mode_days env start_date end_date tags st start_dt end_dt :
  strptime start_date = Ok start_dt ->
  strptime (end_or_today env end_date) = Ok end_dt ->
  date_le begin start_dt -> date_le start_dt end_dt -> date_le end_dt (today env) ->
  let days := range (toordinal start_dt) (toordinal end_dt + 1) in
  (* the days are those of the calendar from the start to the end *)
  (forall d, valid d = true ->
     (In (toordinal d) days <-> date_le start_dt d /\ date_le d end_dt))
  /\ (forall i j, (i < j < List.length days)%nat ->
        date_lt (_ord2ymd (nth i days 0)) (_ord2ymd (nth j days 0)))
  /\ _ord2ymd (hd 0 days) = start_dt /\ _ord2ymd (last days 0) = end_dt
  (* the run *)
  /\ _get_json_for_date_range env start_date end_date tags st
     = (records <- for_each (unit_of_work env tags) days ;;
        lift (Json.dumps (Some (Many (kept days records))) [])) st
  /\ (forall records st',
        for_each (unit_of_work env tags) days st = (Ok records, st') ->
        _get_json_for_date_range env start_date end_date tags st
        = (Ok (Json.array (kept days records)), st')
        /\ List.length records = List.length days
        /\ (Forall2 (fun o data => on_its_day o data = true) days records ->
            kept days records = records
            /\ map date_of records
               = map (fun o => Some (isoformat (_ord2ymd o))) days)).
Proof.
  intros Hs He Hb Hle Ht days.
  pose proof (strptime_valid _ _ Hs) as Vs. pose proof (strptime_valid _ _ He) as Ve.
  pose proof (toordinal_bounds _ Vs) as Bs. pose proof (toordinal_bounds _ Ve) as Be.
  pose proof (proj1 (toordinal_le _ _ Vs Ve) Hle) as Hord.
  pose proof (_get_json_for_date_range_run env start_date end_date tags st
                start_dt end_dt Hs He Hb Hle Ht) as Hrun.
  fold days in Hrun.
  assert (Hlen : List.length days = Z.to_nat (toordinal end_dt + 1 - toordinal start_dt))
    by apply range_length.
  split; [| split; [| split; [| split; [| split]]]].
  - intros d Vd. unfold days. rewrite range_In.
    rewrite (toordinal_le _ _ Vs Vd), (toordinal_le _ _ Vd Ve). lia.
  - intros i j Hij. unfold days.
    rewrite !range_nth by lia. apply ord2ymd_lt; lia.
  - unfold days. rewrite range_cons by lia. cbn [hd].
    apply ord2ymd_toordinal. exact Vs.
  - rewrite last_is_nth. unfold days at 2. rewrite range_nth by lia.
    replace (toordinal start_dt + Z.of_nat (List.length days - 1))
      with (toordinal end_dt) by lia.
    apply ord2ymd_toordinal. exact Ve.
  - exact Hrun.
  - intros records st' Hunits. rewrite Hrun. unfold bind at 1. rewrite Hunits.
    split; [reflexivity |]. split; [apply (for_each_length _ _ _ _ _ Hunits) |].
    intros Hall. split; [apply kept_all | apply on_their_days]; exact Hall.
Qed.

Lemma range_mode_days_witness :
  _get_json_for_date_range Examples.all_pages "2020-01-05" (Some "2020-01-07") false []
  = (Ok (Json.array [Examples.nice_sky_record "2020-01-05";
                     Examples.nice_sky_record "2020-01-06";
                     Examples.nice_sky_record "2020-01-07"]),
     [apod_url (mkdate 2020 1 5); apod_url (mkdate 2020 1 6); apod_url (mkdate 2020 1 7)]).
Proof.
  assert (Hb : date_le begin (mkdate 2020 1 5)) by (left; unfold date_lt; simpl; lia).
  assert (Hle : date_le (mkdate 2020 1 5) (mkdate 2020 1 7))
    by (left; unfold date_lt; simpl; lia).
  assert (Ht : date_le (mkdate 2020 1 7) (today Examples.all_pages))
    by (right; reflexivity).
  destruct (range_mode_days Examples.all_pages "2020-01-05" (Some "2020-01-07") false []
              (mkdate 2020 1 5) (mkdate 2020 1 7) eq_refl eq_refl Hb Hle Ht)
    as (_ & _ & _ & _ & _ & H).
  destruct (H [Examples.nice_sky_record "2020-01-05";
               Examples.nice_sky_record "2020-01-06";
               Examples.nice_sky_record "2020-01-07"]
              [apod_url (mkdate 2020 1 5); apod_url (mkdate 2020 1 6);
               apod_url (mkdate 2020 1 7)])
    as (Hrun & _ & Hall).
  - vm_compute. reflexivity.
  - destruct Hall as [Hk _].
    + repeat constructor.
    + rewrite Hk in Hrun. exact Hrun.
Defined.

(** ** The random sample *)

Lemma NoDup_map_in {A B} (f : A -> B) (l : list A) :
  (forall x y, In x l -> In y l -> f x = f y -> x = y) ->
  NoDup l -> NoDup (map f l).
Proof.
  induction l as [| a l IH]; intros Hinj Hnd; [constructor |].
  inversion Hnd; subst. cbn [map]. constructor.
  - intros Hin. apply in_map_iff in Hin. destruct Hin as (x & Hfx & Hx).
    assert (x = a) by (apply Hinj; [right; exact Hx | left; reflexivity | exact Hfx]).
    subst. contradiction.
  - apply IH; [| assumption].
    intros x y Hx Hy. apply Hinj; right; assumption.
Qed.

Lemma for_each_Forall2 {A B} (f : A -> M B) (P : A -> B -> Prop) :
  (forall x st y st', f x st = (Ok y, st') -> P x y) ->
  forall l st records st',
    for_each f l st = (Ok records, st') -> Forall2 P l records.
Proof.
  intros Hf. induction l as [| x l IH]; intros st records st'.
  - cbn [for_each]. unfold ret. intros H. inversion H. constructor.
  - cbn [for_each]. unfold bind.
    destruct (f x st) as [[y | e] st1] eqn:Ex; [| discriminate].
    destruct (for_each f l st1) as [[ys | e] st2] eqn:E; [| discriminate].
    unfold ret. intros H. inversion H; subst. constructor.
    + apply (Hf _ _ _ _ Ex).
    + apply (IH _ _ _ E).
Qed.

Lemma day_before_is dt dt' :
  day_before dt = Ok dt' -> dt' = _ord2ymd (toordinal dt - 1).
Proof.
  unfold day_before, sub_days. destruct (_ && _); cbn [or_raise]; congruence.
Qed.

(** A record of the unit of a day is dated as [dated] says. *)
Lemma unit_of_work_dated env tags o st data st' :
  unit_of_work env tags o st = (Ok data, st') ->
  dated env o data /\ 1 <= o <= _MAXORDINAL.
Proof.
  intros Hu.
  assert (Ho : 1 <= o <= _MAXORDINAL).
  { revert Hu. unfold unit_of_work, bind, lift, date_fromordinal, fromordinal.
    destruct (Z.leb_spec 1 o); destruct (Z.leb_spec o _MAXORDINAL);
      cbn [andb or_raise]; try discriminate. lia. }
  split; [| exact Ho].
  apply unit_of_work_Ok in Hu.
  destruct Hu as (props & s & -> & Hs & _ & [-> | (Htoday & dt' & Hb & ->)]).
  - left. exact Hs.
  - right. split; [exact Htoday |]. cbn [date_of]. rewrite Hs.
    apply day_before_is in Hb. rewrite (proj1 (ord2ymd_spec o Ho)) in Hb.
    rewrite Hb. reflexivity.
Qed.

(** When the page of the day cannot be used, a record of the unit comes
    from the fallback and carries the date of the day before. *)
Lemma unit_of_work_fallback env tags o st ex data st' :
  fst (_get_apod_chars env (_ord2ymd o) st) = Raise ex ->
  unit_of_work env tags o st = (Ok data, st') ->
  o = toordinal (today env)
  /\ date_of data = Some (isoformat (_ord2ymd (o - 1))).
Proof.
  intros Hfail Hu.
  destruct (unit_of_work_dated _ _ _ _ _ _ Hu) as [_ Ho].
  revert Hu. unfold unit_of_work, bind, lift.
  rewrite (date_fromordinal_Ok o Ho).
  unfold _apod_handler, try_except, bind, parse_apod, try_except.
  destruct (_get_apod_chars env (_ord2ymd o) st) as [[p | e] st1]; [discriminate |].
  destruct (Z.eqb_spec o (toordinal (today env))) as [Ht | Ht].
  - unfold bind, lift.
    destruct (day_before (_ord2ymd o)) as [dt' | e'] eqn:Eb.
    + apply day_before_is in Eb. rewrite (proj1 (ord2ymd_spec o Ho)) in Eb. subst dt'.
      rewrite _get_apod_chars_run.
      destruct (get_page env st1 _) as [soup | e'].
      * destruct (apod_chars env (_ord2ymd (o - 1)) soup) as [props | e'] eqn:Ec.
        -- apply apod_chars_fields in Ec. destruct Ec as [Hd _].
           destruct tags; [destruct (ALCHEMY_API_KEY env) |]; unfold ret, raise;
             try (rewrite _abort_raises; discriminate);
             cbn [setitem]; intros H; inversion H; subst;
             (split;
              [reflexivity
              | cbn [date_of]; rewrite !dict_get_set_other by discriminate; exact Hd]).
        -- rewrite _abort_raises. discriminate.
      * rewrite _abort_raises. discriminate.
    + rewrite _abort_raises. discriminate.
  - unfold raise. rewrite _abort_raises. discriminate.
Qed.

Lemma drawn_spec env count :
  sample_ok env ->
  0 <= count <= toordinal (today env) + 1 - toordinal begin ->
  sample env (range (toordinal begin) (toordinal (today env) + 1)) count
  = Ok (drawn env count)
  /\ List.length (drawn env count) = Z.to_nat count
  /\ NoDup (drawn env count)
  /\ (forall o, In o (drawn env count) ->
        toordinal begin <= o <= toordinal (today env)).
Proof.
  intros Hsample Hcount.
  set (lo := toordinal begin) in *. set (hi := toordinal (today env) + 1) in *.
  assert (Hn : List.length (range lo hi) = Z.to_nat (hi - lo)) by apply range_length.
  destruct (Hsample (List.length (range lo hi)) (Z.to_nat count) ltac:(lia))
    as (Hlen & Hnd & Hlt).
  assert (Hdrawn : drawn env count
                   = map (fun i => lo + Z.of_nat i)
                       (sample_positions env (List.length (range lo hi)) (Z.to_nat count))).
  { unfold drawn. fold lo hi. apply map_ext_in. intros i Hi.
    rewrite Forall_forall in Hlt. specialize (Hlt i Hi).
    apply range_nth. lia. }
  split; [| split; [| split]].
  - unfold sample.
    destruct (Z.ltb_spec count 0); [lia |].
    destruct (Z.ltb_spec (Z.of_nat (List.length (range lo hi))) count); [lia |].
    reflexivity.
  - rewrite Hdrawn, length_map. exact Hlen.
  - rewrite Hdrawn. apply Injective_map_NoDup; [| exact Hnd].
    intros i j H. lia.
  - intros o Ho. rewrite Hdrawn in Ho. apply in_map_iff in Ho.
    destruct Ho as (i & <- & Hi).
    rewrite Forall_forall in Hlt. specialize (Hlt i Hi). lia.
Qed.

(** The random mode, for a count the window can serve: the units of the
    drawn days in the order of the draw, then all their records. *)
Lemma _get_json_for_random_dates_run env count tags st :
  sample_ok env ->
  1 <= count <= 100 ->
  count <= toordinal (today env) + 1 - toordinal begin ->
  _get_json_for_random_dates env count tags st
  = (records <- for_each (unit_of_work env tags) (drawn env count) ;;
     lift (Json.dumps (Some (Many records)) [])) st.
Proof.
  intros Hsample Hcount Hwindow.
  destruct (drawn_spec env count Hsample ltac:(lia)) as (Hdraw & _).
  unfold _get_json_for_random_dates.
  destruct (Z.gtb_spec count 100); [lia |].
  destruct (Z.leb_spec count 0); [lia |]. cbn [orb].
  rewrite Hdraw, bind_lift_Ok.
  unfold bind at 1. rewrite random_loop_units. unfold bind, ret.
  destruct (for_each (unit_of_work env tags) (drawn env count) st)
    as [[records | e] st1]; reflexivity.
Qed.

Lemma first_positions_ok n k :
  (k <= n)%nat ->
  List.length (seq 0 k) = k /\ NoDup (seq 0 k)
  /\ Forall (fun i => (i < n)%nat) (seq 0 k).
Proof.
  intros H. split; [apply length_seq |]. split; [apply seq_NoDup |].
  apply Forall_forall. intros i Hi. apply in_seq in Hi. lia.
Qed.

Lemma last_positions_ok n k :
  (k <= n)%nat ->
  let positions := map (fun i => (n - 1 - i)%nat) (seq 0 k) in
  List.length positions = k /\ NoDup positions
  /\ Forall (fun i => (i < n)%nat) positions.
Proof.
  intros H positions. unfold positions. split; [| split].
  - rewrite length_map. apply length_seq.
  - apply NoDup_map_in; [| apply seq_NoDup].
    intros i j Hi Hj. apply in_seq in Hi, Hj. lia.
  - apply Forall_forall. intros p Hp. apply in_map_iff in Hp.
    destruct Hp as (i & <- & Hi). apply in_seq in Hi. lia.
Qed.

Lemma all_pages_sample_ok : sample_ok Examples.all_pages.
Proof. intros n k H. apply first_positions_ok. exact H. Qed.

Lemma before_publication_sample_ok : sample_ok Examples.before_publication.
Proof. intros n k H. apply (last_positions_ok n k H). Qed.

(** C9.  The random mode puts one record in its answer for every drawn
    day, in the order of the draw, and compares no date with the drawn
    day.  The record of a unit whose own page could not be used, which
    can only be that of today, carries the date of the day before; so
    when today and the day before are both drawn, the answer can hold
    two records of the same date. *)
Theorem random_mode_no_recheck :
  (forall env count tags st,
      sample_ok env ->
      1 <= count <= 100 ->
      count <= toordinal (today env) + 1 - toordinal begin ->
      let draws := drawn env count in
      _get_json_for_random_dates env count tags st
      = (records <- for_each (unit_of_work env tags) draws ;;
         lift (Json.dumps (Some (Many records)) [])) st
      /\ (forall records st',
             for_each (unit_of_work env tags) draws st = (Ok records, st') ->
             _get_json_for_random_dates env count tags st
             = (Ok (Json.array records), st')
             /\ List.length records = List.length draws
             /\ Forall2 (dated env) draws records))
  /\ (forall env tags o st ex data st',
         fst (_get_apod_chars env (_ord2ymd o) st) = Raise ex ->
         unit_of_work env tags o st = (Ok data, st') ->
         o = toordinal (today env)
         /\ date_of data = Some (isoformat (_ord2ymd (o - 1))))
  /\ _get_json_for_random_dates Examples.before_publication 2 false []
     = (Ok (Json.array [Examples.nice_sky_record "2020-01-06";
                        Examples.nice_sky_record "2020-01-06"]),
        [apod_url (mkdate 2020 1 7); apod_url (mkdate 2020 1 6);
         apod_url (mkdate 2020 1 6)]).
Proof.
  split; [| split].
  - intros env count tags st Hsample Hcount Hwindow draws.
    pose proof (_get_json_for_random_dates_run env count tags st
                  Hsample Hcount Hwindow) as Hrun.
    fold draws in Hrun. split; [exact Hrun |].
    intros records st' Hunits. rewrite Hrun. unfold bind. rewrite Hunits.
    split; [reflexivity |]. split.
    + apply (for_each_length _ _ _ _ _ Hunits).
    + apply (for_each_Forall2 (unit_of_work env tags) (dated env)) with (1 := fun o s d s' H => proj1 (unit_of_work_dated env tags o s d s' H)) (2 := Hunits).
  - intros env tags o st ex data st'. apply unit_of_work_fallback.
  - vm_compute. reflexivity.
Qed.

Lemma random_mode_no_recheck_witness :
  (exists records st',
      _get_json_for_random_dates Examples.before_publication 2 false []
      = (Ok (Json.array records), st')
      /\ List.length records = 2%nat
      /\ Forall2 (dated Examples.before_publication)
           (drawn Examples.before_publication 2) records)
  /\ date_of (Examples.nice_sky_record "2020-01-06") = Some "2020-01-06".
Proof.
  split.
  - exists [Examples.nice_sky_record "2020-01-06"; Examples.nice_sky_record "2020-01-06"],
           [apod_url (mkdate 2020 1 7); apod_url (mkdate 2020 1 6);
            apod_url (mkdate 2020 1 6)].
    assert (Hcount : 1 <= 2 <= 100) by lia.
    assert (Hwindow : 2 <= toordinal (today Examples.before_publication) + 1
                            - toordinal begin) by (vm_compute; discriminate).
    destruct (proj1 random_mode_no_recheck Examples.before_publication 2 false []
                before_publication_sample_ok Hcount Hwindow) as [_ H].
    destruct (H [Examples.nice_sky_record "2020-01-06";
                 Examples.nice_sky_record "2020-01-06"]
                [apod_url (mkdate 2020 1 7); apod_url (mkdate 2020 1 6);
                 apod_url (mkdate 2020 1 6)]) as (H1 & H2 & H3).
    + vm_compute. reflexivity.
    + split; [exact H1 |]. split; [reflexivity | exact H3].
  - destruct (proj1 (proj2 random_mode_no_recheck) Examples.before_publication false
                (toordinal (mkdate 2020 1 7)) [] Examples.unreachable
                (Examples.nice_sky_record "2020-01-06")
                [apod_url (mkdate 2020 1 7); apod_url (mkdate 2020 1 6)])
      as [_ H].
    + vm_compute. reflexivity.
    + vm_compute. reflexivity.
    + rewrite H. vm_compute. reflexivity.
Defined.

(** C4 does not hold as stated: with the page of today not published yet
    and today and the day before drawn, a sample of two answers with two
    records of the same date. *)
Lemma random_sample_repeats_a_date :
  _get_json_for_random_dates Examples.before_publication 2 false []
  = (Ok (Json.array [Examples.nice_sky_record "2020-01-06";
                     Examples.nice_sky_record "2020-01-06"]),
     [apod_url (mkdate 2020 1 7); apod_url (mkdate 2020 1 6);
      apod_url (mkdate 2020 1 6)])
  /\ ~ NoDup (map date_of [Examples.nice_sky_record "2020-01-06";
                           Examples.nice_sky_record "2020-01-06"]).
Proof.
  split; [vm_compute; reflexivity |].
  intros H. inversion H as [| x l Hin _]; subst. apply Hin. left. reflexivity.
Qed.

Lemma ord2ymd_inj n n' :
  1 <= n <= _MAXORDINAL -> 1 <= n' <= _MAXORDINAL -> _ord2ymd n = _ord2ymd n' -> n = n'.
Proof.
  intros Hn Hn' E.
  rewrite <- (proj1 (ord2ymd_spec n Hn)), <- (proj1 (ord2ymd_spec n' Hn')), E.
  reflexivity.
Qed.

(** C4, amended.  For a count from 1 to 100 that the window can serve, the
    random mode draws that many distinct days of the window; when all
    their units give a record, the answer holds exactly one record per
    drawn day, in the order of the draw.  A record carries the date of
    its day, or, for today, the date of the day before; the dates are
    pairwise distinct when every record carries the date of its day. *)
Theorem random_mode_sample env count tags st :
  sample_ok env ->
  valid (today env) = true ->
  1 <= count <= 100 ->
  count <= toordinal (today env) + 1 - toordinal begin ->
  let draws := drawn env count in
  List.length draws = Z.to_nat count
  /\ NoDup (map _ord2ymd draws)
  /\ (forall o, In o draws ->
        valid (_ord2ymd o) = true
        /\ date_le begin (_ord2ymd o) /\ date_le (_ord2ymd o) (today env))
  /\ (forall records st',
        for_each (unit_of_work env tags) draws st = (Ok records, st') ->
        _get_json_for_random_dates env count tags st = (Ok (Json.array records), st')
        /\ List.length records = Z.to_nat count
        /\ Forall2 (dated env) draws records
        /\ (Forall2 (fun o data => on_its_day o data = true) draws records ->
            NoDup (map date_of records))).
Proof.
  intros Hsample Htoday Hcount Hwindow draws.
  destruct (drawn_spec env count Hsample ltac:(lia)) as (_ & Hlen & Hnd & Hin).
  fold draws in Hlen, Hnd, Hin.
  pose proof (toordinal_bounds _ Htoday) as Bt.
  assert (Bb : toordinal begin = 728460) by reflexivity.
  assert (Vb : valid begin = true) by reflexivity.
  assert (Hord : forall o, In o draws -> 1 <= o <= _MAXORDINAL)
    by (intros o Ho; specialize (Hin o Ho); lia).
  assert (Hinj : forall x y, In x draws -> In y draws ->
                             _ord2ymd x = _ord2ymd y -> x = y)
    by (intros x y Hx Hy; apply ord2ymd_inj; auto).
  split; [exact Hlen |]. split; [apply NoDup_map_in; assumption |]. split.
  - intros o Ho. destruct (ord2ymd_spec o (Hord o Ho)) as [Eo Vo].
    split; [exact Vo |]. specialize (Hin o Ho).
    split; [apply (toordinal_le _ _ Vb Vo) | apply (toordinal_le _ _ Vo Htoday)];
      rewrite Eo; lia.
  - intros records st' Hunits.
    rewrite (_get_json_for_random_dates_run env count tags st Hsample Hcount Hwindow).
    fold draws. unfold bind. rewrite Hunits.
    split; [reflexivity |]. split.
    { rewrite <- Hlen. apply (for_each_length _ _ _ _ _ Hunits). }
    split.
    { apply (for_each_Forall2 (unit_of_work env tags) (dated env))
        with (1 := fun o s d s' H => proj1 (unit_of_work_dated env tags o s d s' H))
             (2 := Hunits). }
    intros Hall. rewrite (on_their_days _ _ Hall).
    apply NoDup_map_in; [| exact Hnd].
    intros x y Hx Hy E.
    assert (E' : isoformat (_ord2ymd x) = isoformat (_ord2ymd y)) by congruence.
    apply Hinj; try assumption.
    apply isoformat_inj; [apply (ord2ymd_spec x (Hord x Hx))
                         | apply (ord2ymd_spec y (Hord y Hy)) | exact E'].
Qed.

Lemma random_mode_sample_witness :
  _get_json_for_random_dates Examples.all_pages 2 false []
  = (Ok (Json.array [Examples.nice_sky_record "1995-06-16";
                     Examples.nice_sky_record "1995-06-17"]),
     [apod_url (mkdate 1995 6 16); apod_url (mkdate 1995 6 17)])
  /\ NoDup (map date_of [Examples.nice_sky_record "1995-06-16";
                         Examples.nice_sky_record "1995-06-17"]).
Proof.
  assert (Hcount : 1 <= 2 <= 100) by lia.
  assert (Hwindow : 2 <= toordinal (today Examples.all_pages) + 1 - toordinal begin)
    by (vm_compute; discriminate).
  destruct (random_mode_sample Examples.all_pages 2 false []
              all_pages_sample_ok eq_refl Hcount Hwindow) as (_ & _ & _ & H).
  destruct (H [Examples.nice_sky_record "1995-06-16";
               Examples.nice_sky_record "1995-06-17"]
              [apod_url (mkdate 1995 6 16); apod_url (mkdate 1995 6 17)])
    as (H1 & _ & _ & H4).
  - vm_compute. reflexivity.
  - split; [exact H1 |]. apply H4.
    constructor; [vm_compute; reflexivity |].
    constructor; [vm_compute; reflexivity | constructor].
Defined.



(** ** The parameters of a request *)

Lemma query_get_app args1 args2 key :
  query_get (args1 ++ args2) key
  = match query_get args2 key with
    | Some v => Some v
    | None => query_get args1 key
    end.
Proof.
  induction args1 as [| [k w] args1 IH]; cbn [query_get app].
  - destruct (query_get args2 key); reflexivity.
  - rewrite IH. destruct (query_get args2 key); reflexivity.
Qed.

Lemma query_get_skip args1 args2 k v key :
  key <> k ->
  query_get (args1 ++ (k, v) :: args2) key = query_get (args1 ++ args2) key.
Proof.
  intros Hkey. rewrite !query_get_app. cbn [query_get].
  destruct (query_get args2 key); [reflexivity |].
  destruct (String.eqb_spec k key); [congruence | reflexivity].
Qed.

Lemma query_get_here args1 args2 k v :
  query_get (args1 ++ (k, v) :: args2) k
  = match query_get args2 k with
    | Some later => Some later
    | None => Some v
    end.
Proof.
  rewrite query_get_app. cbn [query_get]. rewrite String.eqb_refl.
  destruct (query_get args2 k); reflexivity.
Qed.

Lemma _validate_allowed data :
  _validate data = true
  <-> forall k v, In (k, v) data -> In k ALLOWED_APOD_FIELDS.
Proof.
  unfold _validate. rewrite forallb_forall. split.
  - intros H k v Hin. specialize (H (k, v) Hin). cbn [fst] in H.
    apply existsb_exists in H. destruct H as (a & Ha & E).
    apply String.eqb_eq in E. subst. exact Ha.
  - intros H [k v] Hin. cbn [fst]. apply existsb_exists.
    exists k. split; [apply (H k v Hin) | apply String.eqb_refl].
Qed.

(** The handler is the dispatch on what it reads of the request, under
    its [except] clauses. *)
Lemma apod_dispatch env args st :
  apod env (Some args) st
  = guarded (dispatch env (_validate args)
               (query_get args "date") (query_get args "count")
               (query_get args "start_date") (query_get args "end_date")
               (is_true (query_get args "concept_tags")) st).
Proof.
  unfold apod, guarded, dispatch.
  match goal with
  | |- match ?run with _ => _ end = _ => destruct run as [[body | ex] st1]
  end; [reflexivity |].
  destruct (is_ValueError ex); cbn [orb];
    [| destruct (PyStr.contains "BadRequest" (str_of_type (exn_type ex)))];
    rewrite _abort_raises; reflexivity.
Qed.

Lemma is_true_given x : is_true (given x) = is_true x.
Proof. unfold given. destruct (is_true x) eqn:E; [exact E | reflexivity]. Qed.

(** The dispatch reads an empty value as no value. *)
Lemma dispatch_given env names_ok d c s e tags :
  dispatch env names_ok d c s e tags
  = dispatch env names_ok (given d) (given c) (given s) (given e) tags.
Proof.
  unfold given, is_true.
  destruct d as [d |]; [destruct (String.eqb_spec d "") as [-> |] |];
    (destruct c as [c |]; [destruct (String.eqb_spec c "") as [-> |] |]);
    (destruct s as [s |]; [destruct (String.eqb_spec s "") as [-> |] |]);
    (destruct e as [e |]; [destruct (String.eqb_spec e "") as [-> |] |]);
    cbn [negb]; try reflexivity.
Qed.

(** X1.  The names of the parameters pass [_validate] exactly when each is
    one of the six allowed names; a request with any other name is
    refused, whatever else it holds, before any page is requested. *)
Theorem unknown_parameter_refused env args st :
  (_validate args = true
   <-> forall k v, In (k, v) args -> In k ALLOWED_APOD_FIELDS)
  /\ (forall k v, In (k, v) args -> ~ In k ALLOWED_APOD_FIELDS ->
      apod env (Some args) st = (Raise dumps_without_obj, st)).
Proof.
  split; [apply _validate_allowed |].
  intros k v Hin Hk.
  assert (Hv : _validate args = false).
  { destruct (_validate args) eqn:E; [| reflexivity].
    exfalso. apply Hk. apply (proj1 (_validate_allowed args) E k v Hin). }
  rewrite apod_dispatch, Hv. reflexivity.
Qed.

Lemma unknown_parameter_refused_witness :
  apod Examples.all_pages (Some [("date", "2020-01-05"); ("thumbs", "True")]) []
  = (Raise dumps_without_obj, []).
Proof.
  apply (proj2 (unknown_parameter_refused Examples.all_pages
                  [("date", "2020-01-05"); ("thumbs", "True")] []) "thumbs" "True").
  - right. left. reflexivity.
  - intros H. repeat (destruct H as [H | H]; [discriminate |]). exact H.
Defined.

(** X2.  The combinations of parameters that select no mode: a count
    together with a date or an end of a range or a start; an end of a
    range without a start; a start of a range together with a date.  Such
    a request is refused before any page is requested. *)
Theorem invalid_combination_refused env args st :
  let has key := is_true (query_get args key) in
  (has "count" = true
   /\ (has "date" = true \/ has "start_date" = true \/ has "end_date" = true))
  \/ (has "count" = false /\ has "start_date" = false /\ has "end_date" = true)
  \/ (has "count" = false /\ has "start_date" = true /\ has "date" = true) ->
  apod env (Some args) st = (Raise dumps_without_obj, st).
Proof.
  intros has H. rewrite apod_dispatch. unfold dispatch, absent.
  fold (has "date") (has "count") (has "start_date") (has "end_date").
  destruct (_validate args); [| reflexivity]. cbn [negb].
  destruct H as [[Hc H] | [(Hc & Hs & He) | (Hc & Hs & Hd)]].
  - rewrite Hc. cbn [negb andb].
    destruct H as [Hd | [Hs | He]].
    + rewrite Hd. cbn [negb andb]. reflexivity.
    + rewrite Hs. destruct (has "date"); reflexivity.
    + rewrite He. destruct (has "date"), (has "start_date"); reflexivity.
  - rewrite Hc, Hs, He. destruct (has "date"); reflexivity.
  - rewrite Hc, Hs, Hd. reflexivity.
Qed.

Lemma invalid_combination_refused_witness :
  apod Examples.all_pages (Some [("date", "2020-01-05"); ("count", "3")]) []
  = (Raise dumps_without_obj, [])
  /\ apod Examples.all_pages (Some [("end_date", "2020-01-05")]) []
     = (Raise dumps_without_obj, [])
  /\ apod Examples.all_pages
       (Some [("start_date", "2020-01-01"); ("date", "2020-01-05")]) []
     = (Raise dumps_without_obj, []).
Proof.
  split; [| split].
  - apply invalid_combination_refused. left. split; [reflexivity | left; reflexivity].
  - apply invalid_combination_refused. right. left. repeat split.
  - apply invalid_combination_refused. right. right. repeat split.
Defined.

Lemma _validate_skip args1 args2 k v :
  In k ALLOWED_APOD_FIELDS ->
  _validate (args1 ++ (k, v) :: args2) = _validate (args1 ++ args2).
Proof.
  intros Hk. unfold _validate. rewrite !forallb_app. cbn [forallb fst].
  replace (existsb (String.eqb k) ALLOWED_APOD_FIELDS) with true; [reflexivity |].
  symmetry. apply existsb_exists. exists k. split; [exact Hk | apply String.eqb_refl].
Qed.

Lemma given_here args1 args2 k :
  query_get args1 k = None ->
  given (query_get (args1 ++ (k, "") :: args2) k) = given (query_get (args1 ++ args2) k).
Proof.
  intros H. rewrite query_get_here, query_get_app, H.
  destruct (query_get args2 k); reflexivity.
Qed.

(** X3.  A parameter with an empty value is a parameter left out: a
    request with other parameters answers the same with and without it,
    when the name is allowed and has no earlier value in the request. *)
Theorem empty_value_is_absent env args1 args2 k st :
  In k ALLOWED_APOD_FIELDS ->
  query_get args1 k = None ->
  (args1 ++ args2)%list <> [] ->
  apod env (Some (args1 ++ (k, "") :: args2)%list) st
  = apod env (Some (args1 ++ args2)%list) st.
Proof.
  intros Hk Hnone _.
  rewrite !apod_dispatch, _validate_skip by exact Hk.
  rewrite dispatch_given. rewrite (dispatch_given _ _ (query_get (args1 ++ args2) "date")).
  assert (Hg : forall key,
             given (query_get (args1 ++ (k, "") :: args2) key)
             = given (query_get (args1 ++ args2) key)).
  { intros key. destruct (String.eqb_spec key k) as [-> | Hne].
    - apply given_here. exact Hnone.
    - rewrite query_get_skip by exact Hne. reflexivity. }
  rewrite !Hg.
  rewrite <- (is_true_given (query_get (args1 ++ (k, "") :: args2) "concept_tags")).
  rewrite Hg, is_true_given. reflexivity.
Qed.

Lemma empty_value_is_absent_witness :
  apod Examples.all_pages (Some [("date", ""); ("hd", "True")]) []
  = apod Examples.all_pages (Some [("hd", "True")]) []
  /\ apod Examples.all_pages (Some [("start_date", "2020-01-05"); ("end_date", "")]) []
     = apod Examples.all_pages (Some [("start_date", "2020-01-05")]) [].
Proof.
  split.
  - apply (empty_value_is_absent Examples.all_pages [] [("hd", "True")] "date" []).
    + right. left. reflexivity.
    + reflexivity.
    + discriminate.
  - apply (empty_value_is_absent Examples.all_pages [("start_date", "2020-01-05")] []
             "end_date" []).
    + do 5 right. left. reflexivity.
    + reflexivity.
    + discriminate.
Defined.

(** X4.  Any value that is not empty asks for concept tags, [False]
    included: the request answers the same whatever that value is. *)
Theorem concept_tags_any_value env args1 args2 v v' st :
  v <> "" -> v' <> "" ->
  apod env (Some (args1 ++ ("concept_tags", v) :: args2)%list) st
  = apod env (Some (args1 ++ ("concept_tags", v') :: args2)%list) st.
Proof.
  intros Hv Hv'.
  rewrite !apod_dispatch.
  rewrite !_validate_skip by (left; reflexivity).
  rewrite !(query_get_skip args1 args2 "concept_tags" _ "date") by discriminate.
  rewrite !(query_get_skip args1 args2 "concept_tags" _ "count") by discriminate.
  rewrite !(query_get_skip args1 args2 "concept_tags" _ "start_date") by discriminate.
  rewrite !(query_get_skip args1 args2 "concept_tags" _ "end_date") by discriminate.
  rewrite !query_get_here.
  destruct (query_get args2 "concept_tags"); [reflexivity |].
  unfold is_true.
  destruct (String.eqb_spec v ""); [contradiction |].
  destruct (String.eqb_spec v' ""); [contradiction |].
  reflexivity.
Qed.

Lemma concept_tags_any_value_witness :
  apod Examples.all_pages (Some [("date", "2020-01-05"); ("concept_tags", "False")]) []
  = apod Examples.all_pages (Some [("date", "2020-01-05"); ("concept_tags", "True")]) [].
Proof.
  apply (concept_tags_any_value Examples.all_pages [("date", "2020-01-05")] []
           "False" "True" []); discriminate.
Defined.

(** ** The pages a unit requests *)

(** The four ways a unit of work ends. *)
Lemma parse_apod_cases env dt allow_fallback st :
  let first := (st ++ [apod_url dt])%list in
  match _get_apod_chars env dt st with
  | (Ok props, _) => parse_apod env dt allow_fallback st = (Ok props, first)
  | (Raise ex, _) =>
      if allow_fallback then
        match day_before dt with
        | Ok dt' =>
            parse_apod env dt true st = _get_apod_chars env dt' first
            /\ snd (parse_apod env dt true st) = (first ++ [apod_url dt'])%list
        | Raise e => parse_apod env dt true st = (Raise e, first)
        end
      else parse_apod env dt false st
           = (Raise (mkexn Exception_ (exn_msg ex)), first)
  end.
Proof.
  intros first. unfold parse_apod, try_except.
  rewrite _get_apod_chars_run. fold first.
  destruct (match get_page env st (apod_url dt) with
            | Ok soup => apod_chars env dt soup
            | Raise e => Raise e
            end) as [props | ex]; [reflexivity |].
  destruct allow_fallback; [| reflexivity].
  unfold bind, lift. destruct (day_before dt) as [dt' | e]; [| reflexivity].
  split; [reflexivity |]. rewrite _get_apod_chars_run. reflexivity.
Qed.

(** The handler returns the record of the unit, with the placeholder for
    the concepts when they are asked for and no credential is configured;
    in every other case it ends in [_abort]. *)
Lemma _apod_handler_cases env dt tags allow_fallback st :
  _apod_handler env dt tags allow_fallback st
  = match parse_apod env dt allow_fallback st with
    | (Ok props, st') =>
        if tags then
          match ALCHEMY_API_KEY env with
          | None => (Ok (VDict (dict_set props "concepts" concepts_off)), st')
          | Some _ => (Raise dumps_without_obj, st')
          end
        else (Ok (VDict props), st')
    | (Raise _, st') => (Raise dumps_without_obj, st')
    end.
Proof.
  unfold _apod_handler, try_except, bind.
  destruct (parse_apod env dt allow_fallback st) as [[props | e] st1].
  - destruct tags; [destruct (ALCHEMY_API_KEY env) |]; reflexivity.
  - reflexivity.
Qed.

Lemma _apod_handler_log env dt tags allow_fallback st :
  snd (_apod_handler env dt tags allow_fallback st)
  = snd (parse_apod env dt allow_fallback st).
Proof.
  rewrite _apod_handler_cases.
  destruct (parse_apod env dt allow_fallback st) as [[props | e] st1];
    [destruct tags; [destruct (ALCHEMY_API_KEY env) |] |]; reflexivity.
Qed.

Lemma parse_apod_log_explicit env dt st :
  snd (parse_apod env dt false st) = (st ++ [apod_url dt])%list.
Proof.
  pose proof (parse_apod_cases env dt false st) as H. cbv zeta in H.
  destruct (_get_apod_chars env dt st) as [[props | ex] st1]; rewrite H; reflexivity.
Qed.

Lemma strptime_raises_ValueError s e : strptime s = Raise e -> is_ValueError e = true.
Proof.
  unfold strptime.
  destruct (match_format s) as [[[[y m] d] rest] |].
  - destruct (negb _); [intros H; inversion H; reflexivity |].
    destruct (y <? MINYEAR); [intros H; inversion H; reflexivity |].
    destruct (_days_in_month y m <? d); [intros H; inversion H; reflexivity |].
    discriminate.
  - intros H. inversion H. reflexivity.
Qed.

Lemma _validate_date_cases env dt :
  (_validate_date env dt = Ok tt /\ date_le begin dt /\ date_le dt (today env))
  \/ (_validate_date env dt = Raise (out_of_range env)
      /\ (date_lt dt begin \/ date_lt (today env) dt)).
Proof.
  destruct (date_lt_trichotomy dt begin) as [H | H].
  - right. split; [apply _validate_date_Raise; auto | auto].
  - destruct (date_lt_trichotomy (today env) dt) as [H' | H'].
    + right. split; [apply _validate_date_Raise; auto | auto].
    + left. assert (Hb : date_le begin dt) by (destruct H as [-> | H]; [right | left]; auto).
      assert (Ht : date_le dt (today env))
        by (destruct H' as [<- | H']; [right | left]; auto).
      split; [apply _validate_date_Ok; assumption | split; assumption].
Qed.

Lemma _get_apod_chars_Ok env dt st props st' :
  _get_apod_chars env dt st = (Ok props, st') ->
  dict_get props "date" = Some (isoformat dt) /\ st' = (st ++ [apod_url dt])%list.
Proof.
  rewrite _get_apod_chars_run.
  destruct (get_page env st (apod_url dt)) as [soup | e]; [| discriminate].
  destruct (apod_chars env dt soup) as [p | e] eqn:E; [| discriminate].
  intros H. inversion H; subst. split; [| reflexivity].
  apply (apod_chars_fields _ _ _ _ E).
Qed.

Lemma begin_le_year d : date_le begin d -> 1995 <= year d.
Proof.
  unfold date_le, date_lt. intros [H | <-]; simpl in *; lia.
Qed.

(** ** A single date *)

(** X5.  For a date given in the request that parses and lies in the
    window, the single-date mode requests the page of that date and no
    other, whatever comes of it; an answer is the record of that very
    date, with the version of the service. *)
Theorem single_date_explicit env s tags st dt :
  s <> "" ->
  strptime s = Ok dt ->
  date_le begin dt -> date_le dt (today env) ->
  snd (_get_json_for_date env (Some s) tags st) = (st ++ [apod_url dt])%list
  /\ (forall body st',
        _get_json_for_date env (Some s) tags st = (Ok body, st') ->
        exists props,
          body = Json.object props
          /\ dict_get props "date" = Some (isoformat dt)
          /\ dict_get props "service_version" = Some SERVICE_VERSION).
Proof.
  intros Hs Hparse Hb Ht.
  assert (Hrun : _get_json_for_date env (Some s) tags st
                 = (data <- _apod_handler env dt tags false ;;
                    data <- lift (setitem data "service_version" SERVICE_VERSION) ;;
                    lift (Json.dumps (Some (One data)) [])) st).
  { unfold _get_json_for_date.
    destruct (String.eqb_spec s ""); [contradiction |].
    rewrite Hparse, bind_lift_Ok, (_validate_date_Ok env dt Hb Ht), bind_lift_Ok.
    reflexivity. }
  rewrite Hrun. unfold bind.
  pose proof (_apod_handler_log env dt tags false st) as Hlog.
  rewrite parse_apod_log_explicit in Hlog.
  destruct (_apod_handler env dt tags false st) as [[data | e] st1] eqn:E;
    cbn [snd] in Hlog; subst st1.
  - apply _apod_handler_Ok in E.
    destruct E as (props & -> & [Hd | [Hf _]]); [| discriminate].
    cbn [setitem lift]. split; [reflexivity |].
    intros body st' H. inversion H; subst.
    exists (dict_set props "service_version" SERVICE_VERSION).
    split; [reflexivity |]. split.
    + rewrite dict_get_set_other by discriminate. exact Hd.
    + apply dict_get_set_same.
  - split; [reflexivity | discriminate].
Qed.

Lemma single_date_explicit_witness :
  snd (_get_json_for_date Examples.all_pages (Some "2020-01-05") false [])
  = [apod_url (mkdate 2020 1 5)]
  /\ exists props,
       Json.text (One (Examples.nice_sky_record "2020-01-05")) = Json.object props
       /\ dict_get props "date" = Some "2020-01-05".
Proof.
  assert (Hs : "2020-01-05" <> "") by discriminate.
  assert (Hb : date_le begin (mkdate 2020 1 5)) by (left; unfold date_lt; simpl; lia).
  assert (Ht : date_le (mkdate 2020 1 5) (today Examples.all_pages))
    by (left; unfold date_lt; simpl; lia).
  destruct (single_date_explicit Examples.all_pages "2020-01-05" false []
              (mkdate 2020 1 5) Hs eq_refl Hb Ht) as [Hlog Hok].
  split; [exact Hlog |].
  destruct (Hok (Json.text (One (Examples.nice_sky_record "2020-01-05")))
              [apod_url (mkdate 2020 1 5)]) as (props & Hbody & Hd & _).
  - vm_compute. reflexivity.
  - exists props. split; [exact Hbody | exact Hd].
Defined.

(** X6.  A date given in the request that does not parse, or that lies
    outside the window, ends the single-date mode with a [ValueError]
    before any page is requested. *)
Theorem single_date_checked_first env s tags st :
  s <> "" ->
  (forall dt, strptime s = Ok dt -> date_lt dt begin \/ date_lt (today env) dt) ->
  exists e,
    is_ValueError e = true
    /\ _get_json_for_date env (Some s) tags st = (Raise e, st).
Proof.
  intros Hs Hout. unfold _get_json_for_date.
  destruct (String.eqb_spec s ""); [contradiction |].
  destruct (strptime s) as [dt | e] eqn:E.
  - exists (out_of_range env). split; [reflexivity |].
    rewrite bind_lift_Ok, (_validate_date_Raise env dt (Hout dt eq_refl)).
    reflexivity.
  - exists e. split; [apply (strptime_raises_ValueError _ _ E) | reflexivity].
Qed.

Lemma single_date_checked_first_witness :
  (exists e, is_ValueError e = true
             /\ _get_json_for_date Examples.all_pages (Some "2020-02-30") false []
                = (Raise e, []))
  /\ (exists e, is_ValueError e = true
                /\ _get_json_for_date Examples.all_pages (Some "2020-01-08") false []
                   = (Raise e, [])).
Proof.
  split.
  - apply single_date_checked_first; [discriminate |].
    intros dt H. vm_compute in H. discriminate.
  - apply single_date_checked_first; [discriminate |].
    intros dt H. vm_compute in H. inversion H. right. unfold date_lt. simpl. lia.
Defined.

(** X7.  Without a date in the request, the single-date mode asks for
    today, and for the day before when today's page cannot be used: an
    answer is the record of today after one request, or the record of
    the day before after two. *)
Theorem single_date_default env tags st body st' :
  valid (today env) = true ->
  date_le begin (today env) ->
  _get_json_for_date env None tags st = (Ok body, st') ->
  let yesterday := _ord2ymd (toordinal (today env) - 1) in
  exists props,
    body = Json.object props
    /\ dict_get props "service_version" = Some SERVICE_VERSION
    /\ ((dict_get props "date" = Some (isoformat (today env))
         /\ st' = (st ++ [apod_url (today env)])%list)
        \/ (dict_get props "date" = Some (isoformat yesterday)
            /\ st' = (st ++ [apod_url (today env); apod_url yesterday])%list
            /\ exists ex, fst (_get_apod_chars env (today env) st) = Raise ex)).
Proof.
  intros Hv Hb Hrun yesterday.
  pose proof (begin_le_year _ Hb) as Hy.
  assert (Hord : 1 < toordinal (today env) <= _MAXORDINAL).
  { pose proof (toordinal_bounds _ Hv).
    pose proof (proj1 (toordinal_le begin (today env) eq_refl Hv) Hb) as H1.
    change (toordinal begin) with 728460 in H1. lia. }
  revert Hrun. unfold _get_json_for_date.
  rewrite (strptime_strftime _ Hv ltac:(lia)), bind_lift_Ok.
  rewrite (_validate_date_Ok env _ Hb (or_intror eq_refl)), bind_lift_Ok.
  unfold bind at 1. rewrite _apod_handler_cases.
  pose proof (parse_apod_cases env (today env) true st) as Hcases. cbv zeta in Hcases.
  rewrite (day_before_ordinal _ Hord) in Hcases. fold yesterday in Hcases.
  destruct (_get_apod_chars env (today env) st) as [[p | ex] st1] eqn:E1.
  - rewrite Hcases. apply _get_apod_chars_Ok in E1. destruct E1 as [Hd _].
    destruct tags; [destruct (ALCHEMY_API_KEY env) |]; try discriminate;
      unfold bind, lift; cbn [setitem]; intros H; inversion H; subst;
      eexists; (split; [reflexivity |]);
      (split; [apply dict_get_set_same |]); left;
      (split; [rewrite !dict_get_set_other by discriminate; exact Hd | reflexivity]).
  - destruct Hcases as [Hretry _]. rewrite Hretry.
    destruct (_get_apod_chars env yesterday (st ++ [apod_url (today env)])%list)
      as [[p | ex'] st2] eqn:E2; [| discriminate].
    apply _get_apod_chars_Ok in E2. destruct E2 as [Hd ->].
    destruct tags; [destruct (ALCHEMY_API_KEY env) |]; try discriminate;
      unfold bind, lift; cbn [setitem]; intros H; inversion H; subst;
      eexists; (split; [reflexivity |]);
      (split; [apply dict_get_set_same |]); right;
      (split; [rewrite !dict_get_set_other by discriminate; exact Hd |]);
      (split; [rewrite <- app_assoc; reflexivity | exists ex; reflexivity]).
Qed.

Lemma single_date_default_witness :
  exists props,
    Json.text (One (Examples.nice_sky_record "2020-01-06")) = Json.object props
    /\ dict_get props "date" = Some "2020-01-06".
Proof.
  assert (Hb : date_le begin (today Examples.before_publication))
    by (left; unfold date_lt; simpl; lia).
  destruct (single_date_default Examples.before_publication false []
              (Json.text (One (Examples.nice_sky_record "2020-01-06")))
              [apod_url (mkdate 2020 1 7); apod_url (mkdate 2020 1 6)]
              eq_refl Hb)
    as (props & Hbody & _ & [[Hd Hst] | (Hd & _ & _)]).
  - vm_compute. reflexivity.
  - exfalso. vm_compute in Hst. discriminate.
  - exists props. split; [exact Hbody | exact Hd].
Defined.

(** ** Refusals of the batch modes *)

(** X8.  The random mode refuses, with a [ValueError] and before any page
    is requested, a count that is not from 1 to 100, and a count that the
    window cannot serve. *)
Theorem random_mode_refusals env count tags st :
  (count <= 0 \/ 100 < count ->
   _get_json_for_random_dates env count tags st
   = (Raise (mkexn ValueError "Count must be positive and cannot exceed 100"), st))
  /\ (1 <= count <= 100 ->
      toordinal (today env) + 1 - toordinal begin < count ->
      _get_json_for_random_dates env count tags st
      = (Raise (mkexn ValueError "Sample larger than population or is negative"), st)).
Proof.
  unfold _get_json_for_random_dates. split.
  - intros Hout.
    destruct (Z.gtb_spec count 100); [reflexivity |].
    destruct (Z.leb_spec count 0); [reflexivity | lia].
  - intros Hc Hw.
    destruct (Z.gtb_spec count 100); [lia |].
    destruct (Z.leb_spec count 0); [lia |]. cbn [orb].
    unfold sample. rewrite range_length.
    destruct (Z.ltb_spec count 0); [lia |].
    destruct (Z.ltb_spec
                (Z.of_nat (Z.to_nat (toordinal (today env) + 1 - toordinal begin)))
                count) as [_ | Hge]; [reflexivity | lia].
Qed.

Lemma random_mode_refusals_witness :
  (forall count, In count [0; 101; -1] ->
     _get_json_for_random_dates Examples.all_pages count false []
     = (Raise (mkexn ValueError "Count must be positive and cannot exceed 100"), []))
  /\ _get_json_for_random_dates
       (mkEnv (mkdate 1995 6 18) None (fun _ _ => Ok Examples.bare_page)
              (fun _ k => seq 0 k) false) 5 false []
     = (Raise (mkexn ValueError "Sample larger than population or is negative"), []).
Proof.
  split.
  - intros count Hin.
    apply (proj1 (random_mode_refusals Examples.all_pages count false [])).
    simpl in Hin. lia.
  - apply (proj2 (random_mode_refusals _ 5 false [])); [lia |].
    vm_compute. reflexivity.
Defined.

(** X9.  The range mode refuses, with a [ValueError] and before any page
    is requested, a start or an end that does not parse or lies outside
    the window, and an end that comes before the start. *)
Theorem range_mode_refusals env start_date end_date tags st :
  (forall dt, strptime start_date = Ok dt ->
              date_lt dt begin \/ date_lt (today env) dt)
  \/ (forall dt, strptime (end_or_today env end_date) = Ok dt ->
                 date_lt dt begin \/ date_lt (today env) dt)
  \/ (exists start_dt end_dt,
         strptime start_date = Ok start_dt
         /\ strptime (end_or_today env end_date) = Ok end_dt
         /\ date_lt end_dt start_dt) ->
  exists e,
    is_ValueError e = true
    /\ _get_json_for_date_range env start_date end_date tags st = (Raise e, st).
Proof.
  intros H. unfold _get_json_for_date_range. rewrite end_or_today_unfold.
  destruct (strptime start_date) as [sd | e] eqn:Es;
    [| exists e; split; [apply (strptime_raises_ValueError _ _ Es) | reflexivity]].
  rewrite bind_lift_Ok.
  destruct (_validate_date_cases env sd) as [(Vs & Hbs & Hts) | (Vs & Hs)];
    rewrite Vs; [| exists (out_of_range env); split; reflexivity].
  rewrite bind_lift_Ok.
  destruct (strptime (end_or_today env end_date)) as [ed | e] eqn:Ee;
    [| exists e; split; [apply (strptime_raises_ValueError _ _ Ee) | reflexivity]].
  rewrite bind_lift_Ok.
  destruct (_validate_date_cases env ed) as [(Ve & Hbe & Hte) | (Ve & He)];
    rewrite Ve; [| exists (out_of_range env); split; reflexivity].
  rewrite bind_lift_Ok.
  assert (Hlt : date_lt ed sd).
  { destruct H as [H | [H | (sd' & ed' & E1 & E2 & H)]].
    - exfalso. destruct (H sd eq_refl) as [L | L].
      + apply ltb_date_lt in L. apply ltb_false_date_le in Hbs. congruence.
      + apply ltb_date_lt in L. apply ltb_false_date_le in Hts. congruence.
    - exfalso. destruct (H ed eq_refl) as [L | L].
      + apply ltb_date_lt in L. apply ltb_false_date_le in Hbe. congruence.
      + apply ltb_date_lt in L. apply ltb_false_date_le in Hte. congruence.
    - congruence. }
  pose proof (toordinal_lt ed sd (strptime_valid _ _ Ee) (strptime_valid _ _ Es) Hlt).
  destruct (Z.gtb_spec (toordinal sd) (toordinal ed)); [| lia].
  exists (mkexn ValueError "start_date cannot be after end_date").
  split; reflexivity.
Qed.

Lemma range_mode_refusals_witness :
  exists e,
    is_ValueError e = true
    /\ _get_json_for_date_range Examples.all_pages "2020-01-05" (Some "2020-01-03")
         false []
       = (Raise e, []).
Proof.
  apply range_mode_refusals. right. right.
  exists (mkdate 2020 1 5), (mkdate 2020 1 3).
  split; [reflexivity |]. split; [reflexivity |].
  unfold date_lt. simpl. lia.
Defined.

(** ** The answers of the range mode *)

Lemma range_sorted lo hi : StronglySorted Z.lt (range lo hi).
Proof.
  remember (Z.to_nat (hi - lo)) as n eqn:En. revert lo En.
  induction n as [| n IH]; intros lo En.
  - rewrite range_nil by lia. constructor.
  - rewrite range_cons by lia. constructor.
    + apply IH. lia.
    + apply Forall_forall. intros o Ho. apply range_In in Ho. lia.
Qed.

Lemma sorted_pairs {B} (P : Z * B -> bool) l : forall l',
  StronglySorted Z.lt l ->
  StronglySorted Z.lt (map fst (filter P (combine l l'))).
Proof.
  induction l as [| x l IH]; intros l' Hs; [constructor |].
  destruct l' as [| y l']; [constructor |].
  inversion Hs as [| ? ? Hrest Hall]; subst.
  cbn [combine filter]. destruct (P (x, y)); [| apply IH; exact Hrest].
  cbn [map fst]. constructor; [apply IH; exact Hrest |].
  apply Forall_forall. intros o Ho. apply in_map_iff in Ho.
  destruct Ho as ([o' b] & <- & Hin). apply filter_In in Hin. destruct Hin as [Hin _].
  apply in_combine_l in Hin. rewrite Forall_forall in Hall. apply Hall. exact Hin.
Qed.

Lemma ord2ymd_sorted l :
  Forall (fun o => 1 <= o <= _MAXORDINAL) l ->
  StronglySorted Z.lt l -> StronglySorted date_lt (map _ord2ymd l).
Proof.
  induction l as [| x l IH]; intros Hb Hs; [constructor |].
  inversion Hb as [| ? ? Hx Hl]; subst. inversion Hs as [| ? ? Hrest Hall]; subst.
  cbn [map]. constructor; [apply IH; assumption |].
  apply Forall_forall. intros d Hd. apply in_map_iff in Hd.
  destruct Hd as (o & <- & Ho).
  rewrite Forall_forall in Hall, Hl. specialize (Hall o Ho). specialize (Hl o Ho).
  apply ord2ymd_lt; lia.
Qed.

(** X10.  The dates of the records of an answer of the range mode are
    strictly ascending days from the start to the end: no date comes
    twice, whether or not the fallback took place. *)
Theorem range_dates_ascending env start_date end_date tags st start_dt end_dt body st' :
  strptime start_date = Ok start_dt ->
  strptime (end_or_today env end_date) = Ok end_dt ->
  date_le begin start_dt -> date_le start_dt end_dt -> date_le end_dt (today env) ->
  _get_json_for_date_range env start_date end_date tags st = (Ok body, st') ->
  exists records dates,
    body = Json.array records
    /\ map date_of records = map (fun d => Some (isoformat d)) dates
    /\ StronglySorted date_lt dates
    /\ Forall (fun d => date_le start_dt d /\ date_le d end_dt) dates.
Proof.
  intros Hs He Hb Hle Ht.
  pose proof (strptime_valid _ _ Hs) as Vs. pose proof (strptime_valid _ _ He) as Ve.
  pose proof (toordinal_bounds _ Vs) as Bs. pose proof (toordinal_bounds _ Ve) as Be.
  rewrite (_get_json_for_date_range_run env start_date end_date tags st
             start_dt end_dt Hs He Hb Hle Ht).
  set (days := range (toordinal start_dt) (toordinal end_dt + 1)).
  unfold bind.
  destruct (for_each (unit_of_work env tags) days st) as [[all | e] st1];
    [| discriminate].
  cbn [lift Json.dumps Json.text]. intros H. inversion H; subst. clear H.
  set (pairs := filter (fun p => on_its_day (fst p) (snd p)) (combine days all)).
  assert (Hdays : forall p, In p pairs ->
                            toordinal start_dt <= fst p <= toordinal end_dt
                            /\ on_its_day (fst p) (snd p) = true).
  { intros [o r] Hp. apply filter_In in Hp. destruct Hp as [Hin Hon].
    apply in_combine_l in Hin. apply range_In in Hin. cbn [fst snd] in *.
    split; [lia | exact Hon]. }
  exists (kept days all), (map (fun p => _ord2ymd (fst p)) pairs).
  split; [reflexivity |]. split; [| split].
  - unfold kept. fold pairs. rewrite !map_map. apply map_ext_in.
    intros p Hp. apply on_its_day_date. apply (Hdays p Hp).
  - rewrite <- (map_map fst _ord2ymd). apply ord2ymd_sorted.
    + apply Forall_forall. intros o Ho. apply in_map_iff in Ho.
      destruct Ho as (p & <- & Hp). destruct (Hdays p Hp). lia.
    + apply sorted_pairs. apply range_sorted.
  - apply Forall_forall. intros d Hd. apply in_map_iff in Hd.
    destruct Hd as (p & <- & Hp). destruct (Hdays p Hp) as [Ho _].
    destruct (ord2ymd_spec (fst p) ltac:(lia)) as [Eo Vo].
    split; [apply (toordinal_le _ _ Vs Vo) | apply (toordinal_le _ _ Vo Ve)];
      rewrite Eo; lia.
Qed.

Lemma range_dates_ascending_witness :
  exists records dates,
    Json.array [Examples.nice_sky_record "2020-01-05";
                Examples.nice_sky_record "2020-01-06"] = Json.array records
    /\ map date_of records = map (fun d => Some (isoformat d)) dates
    /\ StronglySorted date_lt dates.
Proof.
  assert (Hb : date_le begin (mkdate 2020 1 5)) by (left; unfold date_lt; simpl; lia).
  assert (Hle : date_le (mkdate 2020 1 5) (mkdate 2020 1 7))
    by (left; unfold date_lt; simpl; lia).
  assert (Ht : date_le (mkdate 2020 1 7) (today Examples.before_publication))
    by (right; reflexivity).
  destruct (range_dates_ascending Examples.before_publication
              "2020-01-05" (Some "2020-01-07") false [] (mkdate 2020 1 5)
              (mkdate 2020 1 7)
              (Json.array [Examples.nice_sky_record "2020-01-05";
                           Examples.nice_sky_record "2020-01-06"])
              [apod_url (mkdate 2020 1 5); apod_url (mkdate 2020 1 6);
               apod_url (mkdate 2020 1 7); apod_url (mkdate 2020 1 6)]
              eq_refl eq_refl Hb Hle Ht)
    as (records & dates & H1 & H2 & H3 & _).
  - vm_compute. reflexivity.
  - exists records, dates. split; [exact H1 | split; [exact H2 | exact H3]].
Defined.

(** ** The pages a batch requests *)

Lemma unit_of_work_log env tags o st :
  exists extra,
    snd (unit_of_work env tags o st) = (st ++ extra)%list
    /\ (List.length extra <= 1 + (if Z.eq_dec o (toordinal (today env)) then 1 else 0))%nat
    /\ Forall (page_of_unit env o) extra.
Proof.
  unfold unit_of_work, date_fromordinal, fromordinal.
  destruct ((1 <=? o) && (o <=? _MAXORDINAL)) eqn:B; cbn [or_raise].
  2:{ exists []. rewrite app_nil_r. repeat split; [simpl; lia | constructor]. }
  apply andb_prop in B. destruct B as [B1 B2].
  apply Z.leb_le in B1. apply Z.leb_le in B2.
  destruct (ord2ymd_spec o ltac:(lia)) as [Eo Vo].
  rewrite bind_lift_Ok. unfold bind at 1.
  pose proof (_apod_handler_log env (_ord2ymd o) tags (o =? toordinal (today env)) st) as L.
  assert (P : exists extra,
             snd (parse_apod env (_ord2ymd o) (o =? toordinal (today env)) st)
             = (st ++ extra)%list
             /\ (List.length extra
                 <= 1 + (if Z.eq_dec o (toordinal (today env)) then 1 else 0))%nat
             /\ Forall (page_of_unit env o) extra).
  { pose proof (parse_apod_cases env (_ord2ymd o) (o =? toordinal (today env)) st) as C.
    cbv zeta in C.
    assert (One : (List.length [apod_url (_ord2ymd o)]
                   <= 1 + (if Z.eq_dec o (toordinal (today env)) then 1 else 0))%nat
                  /\ Forall (page_of_unit env o) [apod_url (_ord2ymd o)]).
    { split; [simpl; lia | constructor; [left; reflexivity | constructor]]. }
    destruct (_get_apod_chars env (_ord2ymd o) st) as [[props | ex] st1].
    - rewrite C. exists [apod_url (_ord2ymd o)]. split; [reflexivity | exact One].
    - destruct (Z.eqb_spec o (toordinal (today env))) as [Et | Et].
      + destruct (day_before (_ord2ymd o)) as [dt' | e] eqn:D.
        * destruct C as [_ C]. rewrite C.
          exists [apod_url (_ord2ymd o); apod_url dt']. rewrite <- app_assoc.
          split; [reflexivity |]. split.
          -- destruct (Z.eq_dec o (toordinal (today env))); [simpl; lia | contradiction].
          -- constructor; [left; reflexivity |].
             constructor; [| constructor]. right. split; [exact Et |].
             apply day_before_is in D. rewrite Eo in D. rewrite D. reflexivity.
        * rewrite C. exists [apod_url (_ord2ymd o)]. split; [reflexivity | exact One].
      + rewrite C. exists [apod_url (_ord2ymd o)]. split; [reflexivity | exact One]. }
  destruct P as (extra & P1 & P2 & P3). exists extra. split; [| split; assumption].
  rewrite <- P1, <- L.
  destruct (_apod_handler env (_ord2ymd o) tags (o =? toordinal (today env)) st)
    as [[data | e] st1]; [| reflexivity].
  unfold lift. destruct (setitem data "service_version" SERVICE_VERSION); reflexivity.
Qed.

Lemma for_each_log {B} env (f : Z -> M B) :
  (forall o st, exists extra,
      snd (f o st) = (st ++ extra)%list
      /\ (List.length extra <= 1 + (if Z.eq_dec o (toordinal (today env)) then 1 else 0))%nat
      /\ Forall (page_of_unit env o) extra) ->
  forall l st, exists extra,
    snd (for_each f l st) = (st ++ extra)%list
    /\ (List.length extra
        <= List.length l + count_occ Z.eq_dec l (toordinal (today env)))%nat
    /\ Forall (fun url => exists o, In o l /\ page_of_unit env o url) extra.
Proof.
  intros Hf. induction l as [| o l IH]; intros st.
  - exists []. rewrite app_nil_r. repeat split; [simpl; lia | constructor].
  - cbn [for_each]. unfold bind at 1.
    destruct (Hf o st) as (e1 & H1 & L1 & F1).
    assert (Hin : Forall (fun url => exists o', In o' (o :: l) /\ page_of_unit env o' url) e1).
    { eapply Forall_impl; [| exact F1]. intros url Hu. exists o. split; [left; reflexivity | exact Hu]. }
    assert (Hlen : (List.length e1 <= 1 + count_occ Z.eq_dec [o] (toordinal (today env)))%nat).
    { cbn [count_occ]. destruct (Z.eq_dec o (toordinal (today env))); lia. }
    destruct (f o st) as [[y | e] st1]; cbn [snd] in H1; subst st1.
    + destruct (IH (st ++ e1)%list) as (e2 & H2 & L2 & F2).
      unfold bind. destruct (for_each f l (st ++ e1)%list) as [[ys | e] st2];
        cbn [snd] in H2; subst st2; unfold ret; cbn [snd];
        exists (e1 ++ e2)%list; rewrite app_assoc;
        (split; [reflexivity |]); (split;
        [ rewrite length_app; change (o :: l) with ([o] ++ l)%list;
          rewrite count_occ_app; cbn [List.length app]; cbn [List.length] in Hlen; lia
        | apply Forall_app; split; [exact Hin |];
          eapply Forall_impl; [| exact F2]; intros url (o' & Ho' & Hu);
          exists o'; split; [right; exact Ho' | exact Hu] ]).
    + cbn [snd]. exists e1. split; [reflexivity |]. split; [| exact Hin].
      change (o :: l) with ([o] ++ l)%list. rewrite count_occ_app.
      cbn [List.length app]. lia.
Qed.

Lemma count_today_NoDup l t : NoDup l -> (count_occ Z.eq_dec l t <= 1)%nat.
Proof. intros H. apply (proj1 (NoDup_count_occ Z.eq_dec l) H). Qed.

(** X11.  The random mode requests at most one page more than the number
    of days asked for, and only pages of days from the first picture to
    today or of the day before today; a refused request costs no page. *)
Theorem random_mode_requests env count tags st :
  sample_ok env ->
  exists extra,
    snd (_get_json_for_random_dates env count tags st) = (st ++ extra)%list
    /\ (List.length extra <= Z.to_nat count + 1)%nat
    /\ Forall (fun url => exists o,
                 toordinal begin <= o <= toordinal (today env)
                 /\ page_of_unit env o url) extra.
Proof.
  intros Hsample.
  assert (Nothing : exists extra : log,
             st = (st ++ extra)%list
             /\ (List.length extra <= Z.to_nat count + 1)%nat
             /\ Forall (fun url => exists o,
                          toordinal begin <= o <= toordinal (today env)
                          /\ page_of_unit env o url) extra).
  { exists []. rewrite app_nil_r. repeat split; [simpl; lia | constructor]. }
  destruct (Z.le_gt_cases count 0) as [Hc | Hc].
  { unfold _get_json_for_random_dates.
    replace (count <=? 0) with true by (symmetry; apply Z.leb_le; lia).
    rewrite orb_true_r. exact Nothing. }
  destruct (Z.lt_ge_cases 100 count) as [Hc' | Hc'].
  { unfold _get_json_for_random_dates.
    replace (count >? 100) with true by (symmetry; apply Z.gtb_lt; lia).
    exact Nothing. }
  destruct (Z.le_gt_cases count (toordinal (today env) + 1 - toordinal begin))
    as [Hw | Hw].
  - rewrite (_get_json_for_random_dates_run env count tags st Hsample) by lia.
    destruct (drawn_spec env count Hsample ltac:(lia)) as (_ & Hlen & Hnd & Hin).
    destruct (for_each_log env (unit_of_work env tags) (unit_of_work_log env tags)
                (drawn env count) st) as (extra & E & L & F).
    exists extra. split; [| split].
    + rewrite <- E. unfold bind.
      destruct (for_each (unit_of_work env tags) (drawn env count) st)
        as [[records | e] st1]; reflexivity.
    + pose proof (count_today_NoDup _ (toordinal (today env)) Hnd). lia.
    + eapply Forall_impl; [| exact F]. intros url (o & Ho & Hu).
      exists o. split; [apply Hin; exact Ho | exact Hu].
  - unfold _get_json_for_random_dates.
    destruct (Z.gtb_spec count 100); [lia |].
    destruct (Z.leb_spec count 0); [lia |].
    cbn [orb]. cbv zeta. unfold sample.
    rewrite range_length.
    replace (Z.of_nat (Z.to_nat (toordinal (today env) + 1 - toordinal begin)) <? count)
      with true by (symmetry; apply Z.ltb_lt; lia).
    rewrite orb_true_r. exact Nothing.
Qed.

Lemma random_mode_requests_witness :
  exists extra,
    snd (_get_json_for_random_dates Examples.all_pages 2 false []) = extra
    /\ (List.length extra <= 3)%nat.
Proof.
  destruct (random_mode_requests Examples.all_pages 2 false []
              all_pages_sample_ok) as (extra & E & L & _).
  exists extra. split; [exact E | exact L].
Defined.

Lemma range_NoDup lo hi : NoDup (range lo hi).
Proof.
  pose proof (range_sorted lo hi) as H.
  induction H as [| o l Hs IH Hall]; constructor; [| exact IH].
  intros Hin. rewrite Forall_forall in Hall. specialize (Hall o Hin). lia.
Qed.

(** X12.  The range mode requests at most one page more than the number
    of days from the start to the end, and only pages of those days or of
    the day before today. *)
Theorem range_mode_requests env start_date end_date tags st start_dt end_dt :
  strptime start_date = Ok start_dt ->
  strptime (end_or_today env end_date) = Ok end_dt ->
  date_le begin start_dt -> date_le start_dt end_dt -> date_le end_dt (today env) ->
  exists extra,
    snd (_get_json_for_date_range env start_date end_date tags st) = (st ++ extra)%list
    /\ Z.of_nat (List.length extra) <= toordinal end_dt - toordinal start_dt + 2
    /\ Forall (fun url => exists o,
                 toordinal start_dt <= o <= toordinal end_dt
                 /\ page_of_unit env o url) extra.
Proof.
  intros Hs He Hb Hle Ht.
  rewrite (_get_json_for_date_range_run env start_date end_date tags st
             start_dt end_dt Hs He Hb Hle Ht).
  set (days := range (toordinal start_dt) (toordinal end_dt + 1)).
  destruct (for_each_log env (unit_of_work env tags) (unit_of_work_log env tags) days st)
    as (extra & E & L & F).
  exists extra. split; [| split].
  - rewrite <- E. unfold bind.
    destruct (for_each (unit_of_work env tags) days st) as [[records | e] st1];
      reflexivity.
  - pose proof (count_today_NoDup days (toordinal (today env)) (range_NoDup _ _)) as C.
    assert (Hlen : List.length days
                   = Z.to_nat (toordinal end_dt + 1 - toordinal start_dt))
      by apply range_length.
    pose proof (strptime_valid _ _ Hs) as Vs. pose proof (strptime_valid _ _ He) as Ve.
    pose proof (proj1 (toordinal_le _ _ Vs Ve) Hle). lia.
  - eapply Forall_impl; [| exact F]. intros url (o & Ho & Hu).
    exists o. split; [| exact Hu]. apply range_In in Ho. lia.
Qed.

Lemma range_mode_requests_witness :
  exists extra,
    snd (_get_json_for_date_range Examples.before_publication
           "2020-01-05" (Some "2020-01-07") false []) = extra
    /\ Z.of_nat (List.length extra) <= 4.
Proof.
  assert (Hb : date_le begin (mkdate 2020 1 5)) by (left; unfold date_lt; simpl; lia).
  assert (Hle : date_le (mkdate 2020 1 5) (mkdate 2020 1 7))
    by (left; unfold date_lt; simpl; lia).
  assert (Ht : date_le (mkdate 2020 1 7) (today Examples.before_publication))
    by (right; reflexivity).
  destruct (range_mode_requests Examples.before_publication
              "2020-01-05" (Some "2020-01-07") false [] (mkdate 2020 1 5)
              (mkdate 2020 1 7) eq_refl eq_refl Hb Hle Ht) as (extra & E & L & _).
  exists extra. split; [exact E | exact L].
Defined.

(** ** Concept tags with a credential *)

Lemma unit_of_work_credential env key o st :
  ALCHEMY_API_KEY env = Some key ->
  exists e st', unit_of_work env true o st = (Raise e, st').
Proof.
  intros K. unfold unit_of_work.
  destruct (date_fromordinal o) as [dt | e]; [| exists e, st; reflexivity].
  rewrite bind_lift_Ok. unfold bind at 1. rewrite _apod_handler_cases, K.
  destruct (parse_apod env dt (o =? toordinal (today env)) st) as [[props | e] st1];
    exists dumps_without_obj, st1; reflexivity.
Qed.

Lemma for_each_first_fails {A B} (f : A -> M B) x l st :
  (exists e st', f x st = (Raise e, st')) ->
  exists e st', for_each f (x :: l) st = (Raise e, st').
Proof.
  intros (e & st' & E). exists e, st'. cbn [for_each]. unfold bind. rewrite E. reflexivity.
Qed.

(** The range mode either refuses the request at once or runs the units
    of the days from the start to the end. *)
Lemma range_mode_cases env start_date end_date tags st :
  (exists e, _get_json_for_date_range env start_date end_date tags st = (Raise e, st))
  \/ (exists start_dt end_dt,
         strptime start_date = Ok start_dt
         /\ strptime (end_or_today env end_date) = Ok end_dt
         /\ date_le begin start_dt /\ date_le start_dt end_dt
         /\ date_le end_dt (today env)).
Proof.
  destruct (strptime start_date) as [sd | e] eqn:Es.
  2:{ left. exists e. unfold _get_json_for_date_range. rewrite Es. reflexivity. }
  destruct (_validate_date_cases env sd) as [(Vs & Hbs & Hts) | (Vs & Hs)].
  2:{ left. exists (out_of_range env). unfold _get_json_for_date_range.
      rewrite Es, bind_lift_Ok, Vs. reflexivity. }
  destruct (strptime (end_or_today env end_date)) as [ed | e] eqn:Ee.
  2:{ left. exists e. unfold _get_json_for_date_range. rewrite end_or_today_unfold.
      rewrite Es, bind_lift_Ok, Vs, bind_lift_Ok, Ee. reflexivity. }
  destruct (_validate_date_cases env ed) as [(Ve & Hbe & Hte) | (Ve & He)].
  2:{ left. exists (out_of_range env). unfold _get_json_for_date_range.
      rewrite end_or_today_unfold.
      rewrite Es, bind_lift_Ok, Vs, bind_lift_Ok, Ee, bind_lift_Ok, Ve. reflexivity. }
  destruct (date_lt_trichotomy ed sd) as [Hlt | Hge].
  - left. exists (mkexn ValueError "start_date cannot be after end_date").
    unfold _get_json_for_date_range. rewrite end_or_today_unfold.
    rewrite Es, bind_lift_Ok, Vs, bind_lift_Ok, Ee, bind_lift_Ok, Ve, bind_lift_Ok.
    pose proof (toordinal_lt ed sd (strptime_valid _ _ Ee) (strptime_valid _ _ Es) Hlt).
    destruct (Z.gtb_spec (toordinal sd) (toordinal ed)); [reflexivity | lia].
  - right. exists sd, ed. repeat split; try assumption.
    destruct Hge as [-> | Hge]; [right; reflexivity | left; exact Hge].
Qed.

(** X13.  When a credential for the concept service is configured, a
    request that asks for concept tags is never answered: the handler
    names [request], which is not a name of the module, so every unit of
    work ends in [_abort]. *)
Theorem concept_tags_with_credential env key args v st :
  sample_ok env ->
  ALCHEMY_API_KEY env = Some key ->
  query_get args "concept_tags" = Some v -> v <> "" ->
  fst (apod env (Some args) st) = Raise dumps_without_obj.
Proof.
  intros Hsample K Hv Hne.
  assert (Hfails : forall run : result string * log,
             (exists e st', run = (Raise e, st')) ->
             fst (guarded run) = Raise dumps_without_obj).
  { intros run (e & st' & ->). reflexivity. }
  rewrite apod_dispatch. apply Hfails.
  assert (Htags : is_true (query_get args "concept_tags") = true).
  { rewrite Hv. cbn [is_true]. destruct (String.eqb_spec v ""); [contradiction | reflexivity]. }
  rewrite Htags. unfold dispatch.
  assert (Habort : forall code msg usage st0,
             exists e st', _abort code msg usage st0 = (Raise e, st')).
  { intros. eexists _, _. apply _abort_raises. }
  destruct (negb (_validate args)); [apply Habort |].
  destruct (absent (query_get args "count") && absent (query_get args "start_date")
            && absent (query_get args "end_date")).
  { (* a single date *)
    unfold _get_json_for_date.
    destruct (match query_get args "date" with
              | Some d => if String.eqb d "" then (strftime_Y_m_d (today env), true)
                          else (d, false)
              | None => (strftime_Y_m_d (today env), true)
              end) as [input_date fb].
    destruct (strptime input_date) as [dt | e]; [| exists e, st; reflexivity].
    rewrite bind_lift_Ok.
    destruct (_validate_date env dt) as [[] | e]; [| exists e, st; reflexivity].
    rewrite bind_lift_Ok. unfold bind at 1. rewrite _apod_handler_cases, K.
    destruct (parse_apod env dt fb st) as [[props | e] st1];
      exists dumps_without_obj, st1; reflexivity. }
  destruct (absent (query_get args "date") && absent (query_get args "start_date")
            && absent (query_get args "end_date") && is_true (query_get args "count")).
  { (* random days *)
    destruct (PyStr.int _) as [count | e]; [| exists e, st; reflexivity].
    rewrite bind_lift_Ok.
    destruct (Z.le_gt_cases count 0) as [Hc | Hc].
    { unfold _get_json_for_random_dates.
      destruct (Z.leb_spec count 0); [| lia]. rewrite orb_true_r.
      eexists _, _. reflexivity. }
    destruct (Z.lt_ge_cases 100 count) as [Hc' | Hc'].
    { unfold _get_json_for_random_dates.
      destruct (Z.gtb_spec count 100); [| lia]. eexists _, _. reflexivity. }
    destruct (Z.le_gt_cases count (toordinal (today env) + 1 - toordinal begin))
      as [Hw | Hw].
    - rewrite (_get_json_for_random_dates_run env count true st Hsample) by lia.
      destruct (drawn_spec env count Hsample ltac:(lia)) as (_ & Hlen & _).
      destruct (drawn env count) as [| o rest]; [cbn [List.length] in Hlen; lia |].
      destruct (for_each_first_fails (unit_of_work env true) o rest st
                  (unit_of_work_credential env key o st K)) as (e & st' & E).
      exists e, st'. unfold bind at 1. rewrite E. reflexivity.
    - unfold _get_json_for_random_dates.
      destruct (Z.gtb_spec count 100); [lia |].
      destruct (Z.leb_spec count 0); [lia |].
      cbn [orb]. cbv zeta. unfold sample. rewrite range_length.
      destruct (Z.ltb_spec (Z.of_nat (Z.to_nat (toordinal (today env) + 1
                                                 - toordinal begin))) count); [| lia].
      rewrite orb_true_r. eexists _, _. reflexivity. }
  destruct (absent (query_get args "count") && absent (query_get args "date")
            && is_true (query_get args "start_date")); [| apply Habort].
  (* a range of days *)
  set (start_date := match query_get args "start_date" with
                     | Some s => s | None => "" end).
  destruct (range_mode_cases env start_date (query_get args "end_date") true st)
    as [(e & E) | (sd & ed & Es & Ee & Hb & Hle & Ht)].
  - exists e, st. exact E.
  - rewrite (_get_json_for_date_range_run env start_date _ true st sd ed Es Ee Hb Hle Ht).
    pose proof (strptime_valid _ _ Es) as Vs. pose proof (strptime_valid _ _ Ee) as Ve.
    pose proof (proj1 (toordinal_le _ _ Vs Ve) Hle) as Hord.
    rewrite range_cons by lia.
    destruct (for_each_first_fails (unit_of_work env true) (toordinal sd)
                (range (toordinal sd + 1) (toordinal ed + 1)) st
                (unit_of_work_credential env key _ st K)) as (e & st' & E).
    exists e, st'. unfold bind at 1. rewrite E. reflexivity.
Qed.

Lemma concept_tags_with_credential_witness :
  fst (apod (with_credential Examples.all_pages "0123abcd")
         (Some [("date", "2020-01-05"); ("concept_tags", "True")]) [])
  = Raise dumps_without_obj.
Proof.
  apply (concept_tags_with_credential (with_credential Examples.all_pages "0123abcd")
           "0123abcd" _ "True").
  - exact all_pages_sample_ok.
  - reflexivity.
  - reflexivity.
  - discriminate.
Defined.

(** ** The high-resolution address *)

Lemma BASE_app_not_empty s : String.eqb (BASE ++ s) "" = false.
Proof. reflexivity. Qed.

Lemma hd_link_cases links data :
  (exists before link after href,
      links = (before ++ link :: after)%list
      /\ Forall (fun l => ~ image_link l) before
      /\ Soup.attr link "href" = Some href
      /\ PyStr.startswith href "image" = true
      /\ hd_link links data = BASE ++ href)
  \/ (Forall (fun l => ~ image_link l) links /\ hd_link links data = data).
Proof.
  induction links as [| link links IH].
  - right. split; [constructor | reflexivity].
  - cbn [hd_link].
    assert (Hskip : ~ image_link link ->
              (exists before link0 after href,
                  (link :: links = before ++ link0 :: after)%list
                  /\ Forall (fun l => ~ image_link l) before
                  /\ Soup.attr link0 "href" = Some href
                  /\ PyStr.startswith href "image" = true
                  /\ hd_link links data = BASE ++ href)
              \/ (Forall (fun l => ~ image_link l) (link :: links)
                  /\ hd_link links data = data)).
    { intros Hno. destruct IH as [(before & l0 & after & href & E & Hb & Ha & Hs & Hh) | [Hall Hh]].
      - left. exists (link :: before), l0, after, href.
        split; [rewrite E; reflexivity |]. split; [constructor; assumption |].
        split; [assumption |]. split; assumption.
      - right. split; [constructor; assumption | assumption]. }
    destruct (Soup.attr link "href") as [href |] eqn:Ha.
    + destruct (PyStr.startswith href "image") eqn:Hs.
      * assert (Hne : String.eqb href "" = false).
        { destruct href; [discriminate Hs | reflexivity]. }
        rewrite Hne. cbn [negb andb].
        left. exists [], link, links, href. repeat split; try assumption. constructor.
      * rewrite andb_false_r. apply Hskip.
        intros (h & Eh & Hh). congruence.
    + apply Hskip. intros (h & Eh & Hh). congruence.
Qed.

(** X14.  The record of a picture always has a high-resolution address:
    that of the first anchor of the page whose [href] starts with
    [image], and the address of the picture itself when there is no such
    anchor.  The record of a video has none. *)
Theorem hdurl_of_record env dt soup props :
  apod_chars env dt soup = Ok props ->
  match Soup.find soup "img" with
  | Some img =>
      exists src, Soup.attr img "src" = Some src
      /\ let links := Soup.find_all_with_attr soup "a" "href" in
         (exists before link after href,
             links = (before ++ link :: after)%list
             /\ Forall (fun l => ~ image_link l) before
             /\ Soup.attr link "href" = Some href
             /\ PyStr.startswith href "image" = true
             /\ dict_get props "hdurl" = Some (BASE ++ href))
         \/ (Forall (fun l => ~ image_link l) links
             /\ dict_get props "hdurl" = Some (BASE ++ src))
  | None => dict_get props "hdurl" = None
  end.
Proof.
  unfold apod_chars, getitem.
  destruct (Soup.find soup "img") as [img |].
  - destruct (Soup.attr img "src") as [src |] eqn:Hsrc; cbn [rbind or_raise]; [| discriminate].
    destruct (_explanation soup); cbn [rbind]; [| discriminate].
    destruct (_title soup); cbn [rbind]; [| discriminate].
    destruct (_copyright env soup) as [c |]; cbn [rbind]; [| discriminate].
    set (links := Soup.find_all_with_attr soup "a" "href").
    assert (Hhd : is_true (Some (hd_link links (BASE ++ src))) = true).
    { cbn [is_true].
      destruct (hd_link_cases links (BASE ++ src))
        as [(before & l0 & after & href & _ & _ & _ & _ & ->) | [_ ->]];
        rewrite BASE_app_not_empty; reflexivity. }
    rewrite Hhd. intros H. inversion H; subst. clear H.
    exists src. split; [reflexivity |]. cbv zeta. fold links.
    rewrite dict_get_set_same. cbv beta iota.
    destruct (hd_link_cases links (BASE ++ src))
      as [(before & l0 & after & href & E & Hb & Ha & Hs & Hh) | [Hall Hh]].
    + left. exists before, l0, after, href.
      repeat split; solve [assumption | exact (f_equal Some Hh)].
    + right. split; [assumption | exact (f_equal Some Hh)].
  - destruct (Soup.find soup "iframe") as [iframe |]; cbn [rbind]; [| discriminate].
    destruct (Soup.attr iframe "src") as [src |]; cbn [rbind or_raise]; [| discriminate].
    destruct (_explanation soup); cbn [rbind]; [| discriminate].
    destruct (_title soup); cbn [rbind]; [| discriminate].
    destruct (_copyright env soup) as [c |]; cbn [rbind]; [| discriminate].
    cbn [is_true]. intros H. inversion H; subst. clear H.
    destruct (is_true c);
      repeat (rewrite dict_get_set_other by discriminate); reflexivity.
Qed.

Lemma hdurl_of_record_witness :
  exists props,
    apod_chars Examples.all_pages (mkdate 2020 1 5)
      (Examples.picture_page Examples.nice_sky) = Ok props
    /\ match Soup.find (Examples.picture_page Examples.nice_sky) "img" with
       | Some img =>
           exists src, Soup.attr img "src" = Some src
           /\ let links := Soup.find_all_with_attr
                             (Examples.picture_page Examples.nice_sky) "a" "href" in
              (exists before link after href,
                  links = (before ++ link :: after)%list
                  /\ Forall (fun l => ~ image_link l) before
                  /\ Soup.attr link "href" = Some href
                  /\ PyStr.startswith href "image" = true
                  /\ dict_get props "hdurl" = Some (BASE ++ href))
              \/ (Forall (fun l => ~ image_link l) links
                  /\ dict_get props "hdurl" = Some (BASE ++ src))
       | None => dict_get props "hdurl" = None
       end.
Proof.
  eexists. split; [vm_compute; reflexivity |].
  apply (hdurl_of_record Examples.all_pages (mkdate 2020 1 5)).
  vm_compute. reflexivity.
Defined.

(** ** Stripped strings *)

Lemma rstrip_idem s chars : PyStr.rstrip (PyStr.rstrip s chars) chars = PyStr.rstrip s chars.
Proof.
  induction s as [| c rest IH]; [reflexivity |].
  cbn [PyStr.rstrip].
  destruct (PyStr.rstrip rest chars) as [| k kept] eqn:E.
  - destruct (PyStr.mem c chars) eqn:M; [reflexivity |].
    cbn [PyStr.rstrip]. rewrite M. reflexivity.
  - change (PyStr.rstrip (String c (String k kept)) chars)
      with (match PyStr.rstrip (String k kept) chars with
            | EmptyString => if PyStr.mem c chars then EmptyString else String c EmptyString
            | kept' => String c kept'
            end).
    rewrite IH. reflexivity.
Qed.

Lemma lstrip_head s chars :
  match PyStr.lstrip s chars with
  | EmptyString => True
  | String c _ => PyStr.mem c chars = false
  end.
Proof.
  induction s as [| c rest IH]; [exact I |].
  cbn [PyStr.lstrip]. destruct (PyStr.mem c chars) eqn:M; [exact IH | exact M].
Qed.

Lemma rstrip_head s chars :
  match s with
  | EmptyString => True
  | String c _ => PyStr.mem c chars = false
  end ->
  match PyStr.rstrip s chars with
  | EmptyString => True
  | String c _ => PyStr.mem c chars = false
  end.
Proof.
  destruct s as [| c rest]; [intros _; exact I |].
  intros M. cbn [PyStr.rstrip].
  destruct (PyStr.rstrip rest chars); [rewrite M; exact M | exact M].
Qed.

Lemma lstrip_fixed s chars :
  match s with
  | EmptyString => True
  | String c _ => PyStr.mem c chars = false
  end ->
  PyStr.lstrip s chars = s.
Proof.
  destruct s as [| c rest]; [reflexivity |].
  intros M. cbn [PyStr.lstrip]. rewrite M. reflexivity.
Qed.

(** Stripping twice is stripping once. *)
Lemma strip_idem s chars : PyStr.strip (PyStr.strip s chars) chars = PyStr.strip s chars.
Proof.
  unfold PyStr.strip.
  rewrite (lstrip_fixed (PyStr.rstrip (PyStr.lstrip s chars) chars)).
  - apply rstrip_idem.
  - apply rstrip_head. apply lstrip_head.
Qed.

Lemma space_is_space c : PyStr.mem c " " = true -> PyStr.is_space c = true.
Proof.
  cbn [PyStr.mem]. rewrite orb_false_r. intros E. apply Ascii.eqb_eq in E. subst c.
  reflexivity.
Qed.

Lemma lstrip_ws_head s :
  match PyStr.lstrip_ws s with
  | EmptyString => True
  | String c _ => PyStr.is_space c = false
  end.
Proof.
  induction s as [| c rest IH]; [exact I |].
  cbn [PyStr.lstrip_ws]. destruct (PyStr.is_space c) eqn:M; [exact IH | exact M].
Qed.

Lemma rstrip_ws_head s :
  match s with
  | EmptyString => True
  | String c _ => PyStr.is_space c = false
  end ->
  match PyStr.rstrip_ws s with
  | EmptyString => True
  | String c _ => PyStr.is_space c = false
  end.
Proof.
  destruct s as [| c rest]; [intros _; exact I |].
  intros M. cbn [PyStr.rstrip_ws].
  destruct (PyStr.rstrip_ws rest); [rewrite M; exact M | exact M].
Qed.

Lemma rstrip_of_rstrip_ws s :
  PyStr.rstrip (PyStr.rstrip_ws s) " " = PyStr.rstrip_ws s.
Proof.
  induction s as [| c rest IH]; [reflexivity |].
  cbn [PyStr.rstrip_ws].
  destruct (PyStr.rstrip_ws rest) as [| k kept] eqn:E.
  - destruct (PyStr.is_space c) eqn:M; [reflexivity |].
    cbn [PyStr.rstrip]. destruct (PyStr.mem c " ") eqn:M'; [| reflexivity].
    apply space_is_space in M'. congruence.
  - change (PyStr.rstrip (String c (String k kept)) " ")
      with (match PyStr.rstrip (String k kept) " " with
            | EmptyString => if PyStr.mem c " " then EmptyString else String c EmptyString
            | kept' => String c kept'
            end).
    rewrite IH. reflexivity.
Qed.

(** What [strip()] leaves has no space to strip. *)
Lemma strip_of_strip_ws s : PyStr.strip (PyStr.strip_ws s) " " = PyStr.strip_ws s.
Proof.
  unfold PyStr.strip, PyStr.strip_ws.
  rewrite (lstrip_fixed (PyStr.rstrip_ws (PyStr.lstrip_ws s))).
  - apply rstrip_of_rstrip_ws.
  - pose proof (rstrip_ws_head _ (lstrip_ws_head s)) as H.
    destruct (PyStr.rstrip_ws (PyStr.lstrip_ws s)) as [| c r]; [exact I |].
    destruct (PyStr.mem c " ") eqn:M; [| reflexivity].
    apply space_is_space in M. congruence.
Qed.

(** ** The title *)

(** X15.  A title has no space at either end, by whichever of the two
    handlers it was found; the extraction of the title fails only on a
    page without a [title] element, and then with an [AttributeError]. *)
Theorem title_of_page soup :
  match _title soup with
  | Ok title => PyStr.strip title " " = title
  | Raise e => exn_type e = AttributeError /\ Soup.find soup "title" = None
  end.
Proof.
  unfold _title.
  assert (Hfallback :
            match
              (title <~ or_raise (Soup.find soup "title")
                          (mkexn AttributeError "'NoneType' object has no attribute 'text'") ;;
               Ok (PyStr.strip_ws (last (PyStr.split (Soup.get_text title) " - ") "")))
            with
            | Ok title => PyStr.strip title " " = title
            | Raise e => exn_type e = AttributeError /\ Soup.find soup "title" = None
            end).
  { destruct (Soup.find soup "title") as [title |]; cbn [or_raise rbind].
    - apply strip_of_strip_ws.
    - split; reflexivity. }
  destruct (nth_error (Soup.find_all soup "center") 1) as [center |];
    cbn [or_raise rbind rtry]; [| exact Hfallback].
  destruct (nth_error (Soup.find_all center "b") 0) as [bold |];
    cbn [or_raise rbind rtry]; [| exact Hfallback].
  apply strip_idem.
Qed.

(** ** The copyright *)

Lemma Ok_inj {A} (a b : A) : Ok a = Ok b -> a = b.
Proof. intros H. congruence. Qed.

Lemma copyright_next_skip before : forall rest,
  Forall (fun a => PyStr.contains "Copyright" (Soup.get_text a) = false) before ->
  copyright_next false (before ++ rest) = copyright_next false rest.
Proof.
  induction before as [| a before IH]; intros rest H; [reflexivity |].
  inversion H as [| ? ? Ha Hrest]; subst.
  cbn [app copyright_next]. rewrite Ha. apply IH. exact Hrest.
Qed.

(** X16.  The copyright of a page is the text, without the spaces around
    it, of the anchor that follows the first anchor mentioning
    [Copyright], whenever that text is not empty. *)
Theorem copyright_is_next_anchor env soup before marked next after :
  map fst (Soup.find_all_text soup ["a"]) = (before ++ marked :: next :: after)%list ->
  Forall (fun a => PyStr.contains "Copyright" (Soup.get_text a) = false) before ->
  PyStr.contains "Copyright" (Soup.get_text marked) = true ->
  PyStr.strip (Soup.get_text next) " " <> "" ->
  _copyright env soup = Ok (Some (PyStr.strip (Soup.get_text next) " ")).
Proof.
  intros Hanchors Hbefore Hmarked Hnext. unfold _copyright.
  rewrite Hanchors, (copyright_next_skip before _ Hbefore).
  cbn [copyright_next]. rewrite Hmarked.
  cbn [is_true].
  destruct (String.eqb_spec (PyStr.strip (Soup.get_text next) " ") "");
    [contradiction | reflexivity].
Qed.

Lemma copyright_is_next_anchor_witness :
  _copyright Examples.all_pages (Examples.picture_page Examples.nice_sky)
  = Ok (Some "Jane Doe").
Proof.
  apply (copyright_is_next_anchor Examples.all_pages
           (Examples.picture_page Examples.nice_sky) []
           (Soup.Tag "a" [("href", "lic.html")] [Soup.NavigableString "Copyright"])
           (Soup.Tag "a" [("href", "http://example.org")]
              [Soup.NavigableString " Jane Doe "])
           []).
  - vm_compute. reflexivity.
  - constructor.
  - vm_compute. reflexivity.
  - vm_compute. discriminate.
Defined.

Lemma copyright_siblings_stripped has_text elements : forall c,
  (forall t, c = Some t -> PyStr.strip t " " = t) ->
  forall t, copyright_siblings has_text elements c = Some t -> PyStr.strip t " " = t.
Proof.
  induction elements as [| [element siblings] rest IH]; intros c Hc; [exact Hc |].
  cbn [copyright_siblings].
  destruct (PyStr.contains "Copyright" (Soup.get_text element)); [| apply IH; exact Hc].
  destruct (negb (String.eqb (sibling_text has_text siblings "") ""));
    [| apply IH; exact Hc].
  apply IH. intros t E. inversion E. apply strip_idem.
Qed.

Lemma copyright_next_stripped elements : forall use_next t,
  copyright_next use_next elements = Some t -> PyStr.strip t " " = t.
Proof.
  induction elements as [| a rest IH]; intros use_next t; [discriminate |].
  cbn [copyright_next]. destruct use_next.
  - intros E. inversion E. apply strip_idem.
  - destruct (PyStr.contains "Copyright" (Soup.get_text a)); apply IH.
Qed.

(** X17.  The [copyright] of a record is what [_copyright] found on the
    page; it is never empty and has no space at either end.  A record has
    no [copyright] when nothing, or only spaces, was found. *)
Theorem copyright_of_record env dt soup props :
  apod_chars env dt soup = Ok props ->
  match dict_get props "copyright" with
  | Some c =>
      _copyright env soup = Ok (Some c) /\ c <> "" /\ PyStr.strip c " " = c
  | None =>
      _copyright env soup = Ok None \/ _copyright env soup = Ok (Some "")
  end.
Proof.
  assert (Hstripped : forall c, _copyright env soup = Ok (Some c) -> PyStr.strip c " " = c).
  { unfold _copyright. cbn [rtry]. intros c H.
    assert (H' : (if negb (is_true (copyright_next false
                                      (map fst (Soup.find_all_text soup ["a"]))))
                  then copyright_siblings (string_has_text env)
                         (Soup.find_all_text soup ["b"; "a"])
                         (copyright_next false (map fst (Soup.find_all_text soup ["a"])))
                  else copyright_next false (map fst (Soup.find_all_text soup ["a"])))
                 = Some c) by congruence.
    clear H. revert H'.
    destruct (negb _).
    - apply copyright_siblings_stripped. apply copyright_next_stripped.
    - apply copyright_next_stripped. }
  unfold apod_chars, getitem.
  assert (Hrecord : forall media url (hd_data : option string) explanation title c,
            _copyright env soup = Ok c ->
            let props0 := dict_set (dict_set [] "explanation" explanation) "title" title in
            let props1 :=
              if is_true c
              then dict_set props0 "copyright" (match c with Some t => t | None => "" end)
              else props0 in
            let props2 :=
              dict_set (dict_set (dict_set props1 "media_type" media) "url" url)
                "date" (isoformat dt) in
            let props3 :=
              if is_true hd_data
              then dict_set props2 "hdurl" (match hd_data with Some h => h | None => "" end)
              else props2 in
            match dict_get props3 "copyright" with
            | Some t => Ok c = Ok (Some t) /\ t <> "" /\ PyStr.strip t " " = t
            | None => Ok c = Ok None \/ Ok c = @Ok (option string) (Some "")
            end).
  { intros media url hd_data explanation title c Hc. cbv zeta.
    assert (Hget : forall d : dict,
               dict_get (if is_true hd_data
                         then dict_set (dict_set (dict_set (dict_set d "media_type" media)
                                                    "url" url) "date" (isoformat dt))
                                "hdurl" (match hd_data with Some h => h | None => "" end)
                         else dict_set (dict_set (dict_set d "media_type" media)
                                          "url" url) "date" (isoformat dt)) "copyright"
               = dict_get d "copyright").
    { intros d. destruct (is_true hd_data);
        repeat (rewrite dict_get_set_other by discriminate); reflexivity. }
    rewrite Hget. destruct c as [t |]; cbn [is_true].
    - destruct (String.eqb_spec t "") as [-> | Hne]; cbn [negb].
      + right. reflexivity.
      + rewrite dict_get_set_same. split; [reflexivity |]. split; [exact Hne |].
        apply Hstripped. exact Hc.
    - left. reflexivity. }
  destruct (Soup.find soup "img") as [img |].
  - destruct (Soup.attr img "src") as [src |]; cbn [rbind or_raise]; [| discriminate].
    destruct (_explanation soup) as [explanation |]; cbn [rbind]; [| discriminate].
    destruct (_title soup) as [title |]; cbn [rbind]; [| discriminate].
    destruct (_copyright env soup) as [c |] eqn:Hc; cbn [rbind]; [| discriminate].
    intros H. apply Ok_inj in H. subst props.
    apply Hrecord. reflexivity.
  - destruct (Soup.find soup "iframe") as [iframe |]; cbn [rbind]; [| discriminate].
    destruct (Soup.attr iframe "src") as [src |]; cbn [rbind or_raise]; [| discriminate].
    destruct (_explanation soup) as [explanation |]; cbn [rbind]; [| discriminate].
    destruct (_title soup) as [title |]; cbn [rbind]; [| discriminate].
    destruct (_copyright env soup) as [c |] eqn:Hc; cbn [rbind]; [| discriminate].
    intros H. apply Ok_inj in H. subst props.
    apply (Hrecord "video" src None explanation title c). reflexivity.
Qed.

Lemma copyright_of_record_witness :
  exists props,
    apod_chars Examples.all_pages (mkdate 2020 1 5)
      (Examples.picture_page Examples.nice_sky) = Ok props
    /\ match dict_get props "copyright" with
       | Some c =>
           _copyright Examples.all_pages (Examples.picture_page Examples.nice_sky)
           = Ok (Some c) /\ c <> "" /\ PyStr.strip c " " = c
       | None =>
           _copyright Examples.all_pages (Examples.picture_page Examples.nice_sky)
           = Ok None
           \/ _copyright Examples.all_pages (Examples.picture_page Examples.nice_sky)
              = Ok (Some "")
       end.
Proof.
  eexists. split; [vm_compute; reflexivity |].
  apply (copyright_of_record Examples.all_pages (mkdate 2020 1 5)).
  vm_compute. reflexivity.
Defined.

(** ** Strings of one line *)

Lemma mem_app c a b : PyStr.mem c (a ++ b) = PyStr.mem c a || PyStr.mem c b.
Proof.
  induction a as [| d a IH]; [reflexivity |].
  cbn [append PyStr.mem]. rewrite IH, orb_assoc. reflexivity.
Qed.

Lemma one_line_cons c s : one_line (String c s) <-> c <> PyStr.LF /\ one_line s.
Proof.
  unfold one_line. cbn [PyStr.mem]. rewrite orb_false_iff. split.
  - intros [Hc Hs]. split; [| exact Hs]. intros ->.
    rewrite Ascii.eqb_refl in Hc. discriminate.
  - intros [Hc Hs]. split; [| exact Hs].
    apply Ascii.eqb_neq. congruence.
Qed.

Lemma one_line_app a b : one_line a -> one_line b -> one_line (a ++ b).
Proof. unfold one_line. intros Ha Hb. rewrite mem_app, Ha, Hb. reflexivity. Qed.

Lemma prefix_NL c rest :
  String.prefix PyStr.NL (String c rest) = false -> c <> PyStr.LF.
Proof.
  unfold PyStr.NL. cbn [String.prefix].
  destruct (Ascii.ascii_dec PyStr.LF c) as [E | N]; [| congruence].
  destruct rest; discriminate.
Qed.

(** Replacing the line feeds leaves none. *)
Lemma replace_NL_one_line s : one_line (PyStr.replace s PyStr.NL " ").
Proof.
  unfold PyStr.replace. induction s as [| c rest IH]; [reflexivity |].
  cbn [PyStr.replace_from].
  destruct (String.prefix PyStr.NL (String c rest)) eqn:P.
  - apply one_line_app; [reflexivity | exact IH].
  - apply one_line_cons. split; [apply (prefix_NL _ _ P) | exact IH].
Qed.

Lemma replace_one_line old new s :
  one_line new -> one_line s -> forall skip, one_line (PyStr.replace_from old new skip s).
Proof.
  intros Hnew. induction s as [| c rest IH]; intros Hs skip; [reflexivity |].
  apply one_line_cons in Hs. destruct Hs as [Hc Hrest].
  cbn [PyStr.replace_from]. destruct skip as [| k]; [| apply IH; exact Hrest].
  destruct (String.prefix old (String c rest)).
  - apply one_line_app; [exact Hnew | apply IH; exact Hrest].
  - apply one_line_cons. split; [exact Hc | apply IH; exact Hrest].
Qed.

Lemma lstrip_one_line s chars : one_line s -> one_line (PyStr.lstrip s chars).
Proof.
  induction s as [| c rest IH]; intros Hs; [reflexivity |].
  cbn [PyStr.lstrip]. destruct (PyStr.mem c chars); [| exact Hs].
  apply IH. apply one_line_cons in Hs. apply Hs.
Qed.

Lemma rstrip_one_line s chars : one_line s -> one_line (PyStr.rstrip s chars).
Proof.
  induction s as [| c rest IH]; intros Hs; [reflexivity |].
  apply one_line_cons in Hs. destruct Hs as [Hc Hrest]. specialize (IH Hrest).
  cbn [PyStr.rstrip]. destruct (PyStr.rstrip rest chars) as [| k kept].
  - destruct (PyStr.mem c chars); [reflexivity |].
    apply one_line_cons. split; [exact Hc | reflexivity].
  - apply one_line_cons. split; [exact Hc | exact IH].
Qed.

Lemma strip_one_line s chars : one_line s -> one_line (PyStr.strip s chars).
Proof. intros H. apply rstrip_one_line, lstrip_one_line, H. Qed.

Lemma lstrip_ws_one_line s : one_line s -> one_line (PyStr.lstrip_ws s).
Proof.
  induction s as [| c rest IH]; intros Hs; [reflexivity |].
  cbn [PyStr.lstrip_ws]. destruct (PyStr.is_space c); [| exact Hs].
  apply IH. apply one_line_cons in Hs. apply Hs.
Qed.

Lemma rstrip_ws_one_line s : one_line s -> one_line (PyStr.rstrip_ws s).
Proof.
  induction s as [| c rest IH]; intros Hs; [reflexivity |].
  apply one_line_cons in Hs. destruct Hs as [Hc Hrest]. specialize (IH Hrest).
  cbn [PyStr.rstrip_ws]. destruct (PyStr.rstrip_ws rest) as [| k kept].
  - destruct (PyStr.is_space c); [reflexivity |].
    apply one_line_cons. split; [exact Hc | reflexivity].
  - apply one_line_cons. split; [exact Hc | exact IH].
Qed.

Lemma strip_ws_one_line s : one_line s -> one_line (PyStr.strip_ws s).
Proof. intros H. apply rstrip_ws_one_line, lstrip_ws_one_line, H. Qed.

Lemma drop_one_line n : forall s, one_line s -> one_line (PyStr.drop n s).
Proof.
  induction n as [| n IH]; intros s Hs; [destruct s; exact Hs |].
  destruct s as [| c rest]; [reflexivity |].
  cbn [PyStr.drop]. apply IH. apply one_line_cons in Hs. apply Hs.
Qed.

Lemma split_from_one_line sep s :
  one_line s -> forall skip,
  one_line (fst (PyStr.split_from sep skip s))
  /\ Forall one_line (snd (PyStr.split_from sep skip s)).
Proof.
  induction s as [| c rest IH]; intros Hs skip; [split; [reflexivity | constructor] |].
  apply one_line_cons in Hs. destruct Hs as [Hc Hrest].
  cbn [PyStr.split_from]. destruct skip as [| k]; [| apply IH; exact Hrest].
  destruct (String.prefix sep (String c rest)).
  - destruct (IH Hrest (String.length sep - 1)%nat) as [H1 H2].
    destruct (PyStr.split_from sep (String.length sep - 1) rest) as [p ps].
    cbn [fst snd] in *. split; [reflexivity | constructor; assumption].
  - destruct (IH Hrest O) as [H1 H2].
    destruct (PyStr.split_from sep 0 rest) as [p ps].
    cbn [fst snd] in *. split; [| exact H2].
    apply one_line_cons. split; assumption.
Qed.

Lemma split_one_line s sep : one_line s -> Forall one_line (PyStr.split s sep).
Proof.
  intros Hs. unfold PyStr.split.
  destruct (split_from_one_line sep s Hs O) as [H1 H2].
  destruct (PyStr.split_from sep 0 s) as [p ps]. constructor; assumption.
Qed.

(** The lines of a text have no line feed. *)
Lemma lines_one_line s : Forall one_line (PyStr.split s PyStr.NL).
Proof.
  unfold PyStr.split.
  assert (H : one_line (fst (PyStr.split_from PyStr.NL 0 s))
              /\ Forall one_line (snd (PyStr.split_from PyStr.NL 0 s))).
  { induction s as [| c rest IH]; [split; [reflexivity | constructor] |].
    cbn [PyStr.split_from].
    destruct (String.prefix PyStr.NL (String c rest)) eqn:P.
    - change (String.length PyStr.NL - 1)%nat with O.
      destruct IH as [H1 H2]. destruct (PyStr.split_from PyStr.NL 0 rest) as [p ps].
      cbn [fst snd] in *. split; [reflexivity | constructor; assumption].
    - destruct IH as [H1 H2]. destruct (PyStr.split_from PyStr.NL 0 rest) as [p ps].
      cbn [fst snd] in *. split; [| exact H2].
      apply one_line_cons. split; [apply (prefix_NL _ _ P) | exact H1]. }
  destruct H as [H1 H2]. destruct (PyStr.split_from PyStr.NL 0 s) as [p ps].
  constructor; assumption.
Qed.

Lemma join_one_line parts : Forall one_line parts -> one_line (PyStr.join " " parts).
Proof.
  induction 1 as [| p rest Hp Hrest IH]; [reflexivity |].
  cbn [PyStr.join]. destruct rest as [| q rest]; [exact Hp |].
  apply one_line_app; [exact Hp |]. apply one_line_app; [reflexivity | exact IH].
Qed.

Lemma Forall_firstn {A} (P : A -> Prop) n : forall l, Forall P l -> Forall P (firstn n l).
Proof.
  induction n as [| n IH]; intros l H; [constructor |].
  destruct H; cbn [firstn]; constructor; [assumption | apply IH; assumption].
Qed.

Lemma Forall_skipn {A} (P : A -> Prop) n : forall l, Forall P l -> Forall P (skipn n l).
Proof.
  induction n as [| n IH]; intros l H; [exact H |].
  destruct H; cbn [skipn]; [constructor | apply IH; assumption].
Qed.

Lemma Forall_list_set (P : string -> Prop) x : forall l i,
  P x -> Forall P l -> Forall P (list_set l i x).
Proof.
  induction l as [| y l IH]; intros i Hx H; [constructor |].
  inversion H; subst. destruct i; cbn [list_set]; constructor; auto.
Qed.

Lemma Forall_nth_default {A} (P : A -> Prop) d : forall l i,
  P d -> Forall P l -> P (nth i l d).
Proof.
  induction l as [| y l IH]; intros i Hd H; [destruct i; exact Hd |].
  inversion H; subst. destruct i; cbn [nth]; auto.
Qed.

(** ** The explanation *)

(** X18.  An explanation is a single line, by whichever of the handlers
    it was found.  A page with fewer than three paragraphs has no
    explanation: the extraction raises [IndexError]; on any other page a
    failure of the extraction is a [ValueError]. *)
Theorem explanation_of_page soup :
  match _explanation soup with
  | Ok s => one_line s /\ (3 <= List.length (Soup.find_all soup "p"))%nat
  | Raise e =>
      if (List.length (Soup.find_all soup "p") <? 3)%nat
      then e = mkexn IndexError "list index out of range"
      else is_ValueError e = true
  end.
Proof.
  unfold _explanation.
  destruct (nth_error (Soup.find_all soup "p") 2) as [p |] eqn:Hp; cbn [or_raise rbind].
  2:{ apply nth_error_None in Hp.
      destruct (Nat.ltb_spec (List.length (Soup.find_all soup "p")) 3); [reflexivity | lia]. }
  assert (Hlen : (3 <= List.length (Soup.find_all soup "p"))%nat).
  { assert (H : nth_error (Soup.find_all soup "p") 2 <> None) by congruence.
    apply nth_error_Some in H. lia. }
  destruct (Nat.ltb_spec (List.length (Soup.find_all soup "p")) 3) as [Hlt | _]; [lia |].
  set (s := PyStr.strip
              (hd "" (PyStr.split
                        (PyStr.strip
                           (PyStr.strip
                              (PyStr.replace (PyStr.replace (Soup.get_text p) PyStr.NL " ")
                                 "  " " ") " ") "Explanation: ")
                        " Tomorrow's picture")) " ").
  assert (Hs : one_line s).
  { apply strip_one_line.
    assert (Hpieces : Forall one_line
              (PyStr.split
                 (PyStr.strip
                    (PyStr.strip
                       (PyStr.replace (PyStr.replace (Soup.get_text p) PyStr.NL " ")
                          "  " " ") " ") "Explanation: ")
                 " Tomorrow's picture")).
    { apply split_one_line. apply strip_one_line, strip_one_line.
      apply replace_one_line; [reflexivity | apply replace_NL_one_line]. }
    destruct Hpieces; [reflexivity | assumption]. }
  destruct (String.eqb s ""); [| split; assumption].
  set (texts := map PyStr.strip_ws (PyStr.split (Soup.get_text soup) PyStr.NL)).
  assert (Htexts : Forall one_line texts).
  { apply Forall_map. eapply Forall_impl; [| apply lines_one_line].
    intros a Ha. apply strip_ws_one_line. exact Ha. }
  assert (Hrest : forall begin_idx texts',
             Forall one_line texts' ->
             match
               (idx <~ or_raise (PyStr.index "" (skipn begin_idx texts')) (not_in_list "") ;;
                Ok (PyStr.join " " (firstn idx (skipn begin_idx texts'))))
             with
             | Ok s0 => one_line s0 /\ (3 <= List.length (Soup.find_all soup "p"))%nat
             | Raise e => is_ValueError e = true
             end).
  { intros begin_idx texts' Ht.
    destruct (PyStr.index "" (skipn begin_idx texts')) as [idx |]; cbn [or_raise rbind].
    - split; [| exact Hlen]. apply join_one_line, Forall_firstn, Forall_skipn, Ht.
    - reflexivity. }
  destruct (PyStr.index "Explanation:" texts) as [i |]; cbn [or_raise rbind rtry].
  - apply Hrest. exact Htexts.
  - destruct (filter (PyStr.contains "Explanation:") texts) as [| line [| line' more]];
      cbn [rbind]; try reflexivity.
    destruct (PyStr.index line texts) as [begin_idx |]; cbn [or_raise rbind];
      [| reflexivity].
    apply Hrest. apply Forall_list_set; [| exact Htexts].
    apply strip_ws_one_line, drop_one_line.
    apply Forall_nth_default; [reflexivity | exact Htexts].
Qed.

(** ** The records of an answer *)

Lemma is_record_set props k v :
  k <> "explanation" -> k <> "title" -> k <> "media_type" -> k <> "url" -> k <> "date" ->
  is_record props -> is_record (dict_set props k v).
Proof.
  intros H1 H2 H3 H4 H5 H. unfold is_record in *.
  rewrite !(dict_get_set_other props k) by assumption. exact H.
Qed.

Lemma apod_chars_record env dt soup props :
  valid dt = true -> apod_chars env dt soup = Ok props -> is_record props.
Proof.
  intros Hv.
  assert (Hshape : forall explanation title (c : option string) media url
                          (hd_data : option string),
             media = "image" \/ media = "video" ->
             is_record
               (let props0 := dict_set (dict_set [] "explanation" explanation) "title" title in
                let props1 :=
                  if is_true c
                  then dict_set props0 "copyright" (match c with Some t => t | None => "" end)
                  else props0 in
                let props2 :=
                  dict_set (dict_set (dict_set props1 "media_type" media) "url" url)
                    "date" (isoformat dt) in
                if is_true hd_data
                then dict_set props2 "hdurl" (match hd_data with Some h => h | None => "" end)
                else props2)).
  { intros explanation title c media url hd_data Hmedia. cbv zeta.
    assert (Hbase : forall d : dict,
               dict_get d "explanation" = Some explanation ->
               dict_get d "title" = Some title ->
               is_record (dict_set (dict_set (dict_set d "media_type" media) "url" url)
                            "date" (isoformat dt))).
    { intros d He Ht. unfold is_record.
      repeat (rewrite ?dict_get_set_same; rewrite ?dict_get_set_other by discriminate).
      split; [exists explanation; exact He |]. split; [exists title; exact Ht |].
      split; [destruct Hmedia as [-> | ->]; [left | right]; reflexivity |].
      split; [exists url; reflexivity |]. exists dt. split; [exact Hv | reflexivity]. }
    assert (Hprops1 : is_record
              (dict_set (dict_set (dict_set
                 (if is_true c
                  then dict_set (dict_set (dict_set [] "explanation" explanation)
                                   "title" title)
                         "copyright" (match c with Some t => t | None => "" end)
                  else dict_set (dict_set [] "explanation" explanation) "title" title)
                 "media_type" media) "url" url) "date" (isoformat dt))).
    { apply Hbase; destruct (is_true c); reflexivity. }
    destruct (is_true hd_data); [apply is_record_set; try discriminate |]; exact Hprops1. }
  unfold apod_chars, getitem.
  destruct (Soup.find soup "img") as [img |].
  - destruct (Soup.attr img "src") as [src |]; cbn [rbind or_raise]; [| discriminate].
    destruct (_explanation soup) as [explanation |]; cbn [rbind]; [| discriminate].
    destruct (_title soup) as [title |]; cbn [rbind]; [| discriminate].
    destruct (_copyright env soup) as [c |]; cbn [rbind]; [| discriminate].
    intros H. apply Ok_inj in H. subst props.
    apply (Hshape explanation title c "image"). left. reflexivity.
  - destruct (Soup.find soup "iframe") as [iframe |]; cbn [rbind]; [| discriminate].
    destruct (Soup.attr iframe "src") as [src |]; cbn [rbind or_raise]; [| discriminate].
    destruct (_explanation soup) as [explanation |]; cbn [rbind]; [| discriminate].
    destruct (_title soup) as [title |]; cbn [rbind]; [| discriminate].
    destruct (_copyright env soup) as [c |]; cbn [rbind]; [| discriminate].
    intros H. apply Ok_inj in H. subst props.
    apply (Hshape explanation title c "video" src None). right. reflexivity.
Qed.

Lemma _get_apod_chars_record env dt st props st' :
  valid dt = true -> _get_apod_chars env dt st = (Ok props, st') -> is_record props.
Proof.
  intros Hv. rewrite _get_apod_chars_run.
  destruct (get_page env st (apod_url dt)) as [soup |]; [| discriminate].
  intros H. apply (apod_chars_record env dt soup props Hv). congruence.
Qed.

Lemma day_before_valid dt dt' : day_before dt = Ok dt' -> valid dt' = true.
Proof.
  unfold day_before, sub_days.
  destruct ((0 <? toordinal dt - 1) && (toordinal dt - 1 <=? _MAXORDINAL)) eqn:B;
    cbn [or_raise]; [| discriminate].
  apply andb_prop in B. destruct B as [B1 B2].
  apply Z.ltb_lt in B1. apply Z.leb_le in B2.
  intros H. apply Ok_inj in H. subst dt'. apply ord2ymd_spec. lia.
Qed.

Lemma parse_apod_record env dt allow_fallback st props st' :
  valid dt = true ->
  parse_apod env dt allow_fallback st = (Ok props, st') -> is_record props.
Proof.
  intros Hv. pose proof (parse_apod_cases env dt allow_fallback st) as C. cbv zeta in C.
  destruct (_get_apod_chars env dt st) as [[p | ex] st1] eqn:E.
  - rewrite C. intros H. assert (p = props) by congruence. subst p.
    apply (_get_apod_chars_record _ _ _ _ _ Hv E).
  - destruct allow_fallback; [| rewrite C; discriminate].
    destruct (day_before dt) as [dt' | e] eqn:D; [| rewrite C; discriminate].
    destruct C as [C _]. rewrite C.
    apply _get_apod_chars_record. apply (day_before_valid _ _ D).
Qed.

Lemma _apod_handler_record env dt tags allow_fallback st data st' :
  valid dt = true ->
  _apod_handler env dt tags allow_fallback st = (Ok data, st') ->
  exists props, data = VDict props /\ is_record props.
Proof.
  intros Hv. rewrite _apod_handler_cases.
  destruct (parse_apod env dt allow_fallback st) as [[props | e] st1] eqn:E;
    [| discriminate].
  pose proof (parse_apod_record _ _ _ _ _ _ Hv E) as R.
  destruct tags; [destruct (ALCHEMY_API_KEY env); [discriminate |] |];
    intros H; inversion H; subst; eexists; (split; [reflexivity |]);
    [apply is_record_set; try discriminate |]; exact R.
Qed.

Lemma setitem_served data data' :
  (exists props, data = VDict props /\ is_record props) ->
  setitem data "service_version" SERVICE_VERSION = Ok data' -> served data'.
Proof.
  intros (props & -> & R). cbn [setitem]. intros H. apply Ok_inj in H. subst data'.
  exists (dict_set props "service_version" SERVICE_VERSION).
  split; [reflexivity |]. split; [apply is_record_set; try discriminate; exact R |].
  apply dict_get_set_same.
Qed.

Lemma unit_of_work_served env tags o st data st' :
  unit_of_work env tags o st = (Ok data, st') -> served data.
Proof.
  unfold unit_of_work, date_fromordinal, fromordinal.
  destruct ((1 <=? o) && (o <=? _MAXORDINAL)) eqn:B; cbn [or_raise]; [| discriminate].
  apply andb_prop in B. destruct B as [B1 B2].
  apply Z.leb_le in B1. apply Z.leb_le in B2.
  destruct (ord2ymd_spec o ltac:(lia)) as [_ Vo].
  rewrite bind_lift_Ok. unfold bind at 1.
  destruct (_apod_handler env (_ord2ymd o) tags (o =? toordinal (today env)) st)
    as [[d | e] st1] eqn:E; [| discriminate].
  pose proof (_apod_handler_record _ _ _ _ _ _ _ Vo E) as R.
  unfold lift.
  destruct (setitem d "service_version" SERVICE_VERSION) as [d' | e] eqn:S; [| discriminate].
  intros H. assert (d' = data) by congruence. subst d'.
  apply (setitem_served d data R S).
Qed.

Lemma for_each_Forall {A B} (f : A -> M B) (P : B -> Prop) :
  (forall x st y st', f x st = (Ok y, st') -> P y) ->
  forall l st records st',
    for_each f l st = (Ok records, st') -> Forall P records.
Proof.
  intros Hf l st records st' H.
  pose proof (for_each_Forall2 f (fun _ y => P y) Hf l st records st' H) as F.
  clear H. induction F; [constructor | constructor; assumption].
Qed.

Lemma kept_In days records r : In r (kept days records) -> In r records.
Proof.
  unfold kept. intros H. apply in_map_iff in H. destruct H as ([o r'] & <- & H).
  apply filter_In in H. destruct H as [H _]. apply in_combine_r in H. exact H.
Qed.

(** X19.  Every answer of the service is the JSON text of one record or
    of a list of records, and each record it holds has an explanation, a
    title, a media type that is [image] or [video], an address, the date
    of a day of the calendar and the version of the service. *)
Theorem answers_hold_records env query_params st body st' :
  apod env query_params st = (Ok body, st') ->
  (exists data, served data /\ body = Json.encode data)
  \/ (exists records, Forall served records /\ body = Json.array records).
Proof.
  destruct query_params as [args |];
    [| rewrite apod_without_query_string; discriminate].
  rewrite apod_dispatch. unfold guarded.
  destruct (dispatch env (_validate args) (query_get args "date") (query_get args "count")
              (query_get args "start_date") (query_get args "end_date")
              (is_true (query_get args "concept_tags")) st) as [[b | e] st1] eqn:D;
    [| discriminate].
  intros H. assert (b = body) by congruence. subst b. clear H.
  revert D. unfold dispatch. set (tags := is_true (query_get args "concept_tags")).
  destruct (negb (_validate args)); [rewrite _abort_raises; discriminate |].
  destruct (absent (query_get args "count") && absent (query_get args "start_date")
            && absent (query_get args "end_date")).
  { (* a single date *)
    unfold _get_json_for_date.
    destruct (match query_get args "date" with
              | Some d => if String.eqb d "" then (strftime_Y_m_d (today env), true)
                          else (d, false)
              | None => (strftime_Y_m_d (today env), true)
              end) as [input_date fb].
    destruct (strptime input_date) as [dt | e] eqn:Es; [| discriminate].
    rewrite bind_lift_Ok.
    destruct (_validate_date env dt) as [[] | e]; [| discriminate].
    rewrite bind_lift_Ok. unfold bind at 1.
    destruct (_apod_handler env dt tags fb st) as [[d | e] st2] eqn:E; [| discriminate].
    pose proof (_apod_handler_record _ _ _ _ _ _ _ (strptime_valid _ _ Es) E) as R.
    unfold bind, lift.
    destruct (setitem d "service_version" SERVICE_VERSION) as [d' | e] eqn:S;
      [| discriminate].
    cbn [Json.dumps Json.text]. intros H. left. exists d'.
    split; [apply (setitem_served d d' R S) | congruence]. }
  destruct (absent (query_get args "date") && absent (query_get args "start_date")
            && absent (query_get args "end_date") && is_true (query_get args "count")).
  { (* random days *)
    destruct (PyStr.int _) as [count | e]; [| discriminate].
    rewrite bind_lift_Ok. unfold _get_json_for_random_dates.
    destruct ((count >? 100) || (count <=? 0)); [discriminate |]. cbv zeta.
    destruct (sample env _ count) as [draws | e]; [| discriminate].
    rewrite bind_lift_Ok. unfold bind at 1. rewrite random_loop_units. unfold bind at 1.
    destruct (for_each (unit_of_work env tags) draws st) as [[records | e] st2] eqn:F;
      [| discriminate].
    unfold ret, lift. cbn [app Json.dumps Json.text]. intros H.
    right. exists records. split; [| congruence].
    apply (for_each_Forall _ served (unit_of_work_served env tags) _ _ _ _ F). }
  destruct (absent (query_get args "count") && absent (query_get args "date")
            && is_true (query_get args "start_date"));
    [| rewrite _abort_raises; discriminate].
  (* a range of days *)
  set (start_date := match query_get args "start_date" with
                     | Some s => s | None => "" end).
  destruct (range_mode_cases env start_date (query_get args "end_date") tags st)
    as [(e & E) | (sd & ed & Es & Ee & Hb & Hle & Ht)]; [rewrite E; discriminate |].
  rewrite (_get_json_for_date_range_run env start_date _ tags st sd ed Es Ee Hb Hle Ht).
  set (days := range (toordinal sd) (toordinal ed + 1)).
  unfold bind.
  destruct (for_each (unit_of_work env tags) days st) as [[records | e] st2] eqn:F;
    [| discriminate].
  unfold lift. cbn [Json.dumps Json.text]. intros H.
  right. exists (kept days records). split; [| congruence].
  pose proof (for_each_Forall _ served (unit_of_work_served env tags) _ _ _ _ F) as R.
  rewrite Forall_forall in *. intros r Hr. apply R. apply (kept_In _ _ _ Hr).
Qed.

Lemma answers_hold_records_witness :
  (exists data, served data
                /\ Json.encode (Examples.nice_sky_record "2020-01-05") = Json.encode data)
  \/ (exists records,
         Forall served records
         /\ Json.encode (Examples.nice_sky_record "2020-01-05") = Json.array records).
Proof.
  apply (answers_hold_records Examples.all_pages (Some [("date", "2020-01-05")]) [] _
           [apod_url (mkdate 2020 1 5)]).
  vm_compute. reflexivity.
Defined.

(** ** The address of a page *)

Lemma append_inv_head p : forall a b : string, p ++ a = p ++ b -> a = b.
Proof.
  induction p as [| c p IH]; intros a b E; [exact E |].
  cbn [append] in E. apply IH. congruence.
Qed.

Lemma two_digits_inj a b :
  0 <= a <= 99 -> 0 <= b <= 99 ->
  PyStr.digit (a / 10) = PyStr.digit (b / 10) -> PyStr.digit a = PyStr.digit b -> a = b.
Proof.
  intros Ha Hb E1 E2.
  apply (f_equal PyStr.digit_val) in E1, E2. rewrite !digit_val_digit in E1, E2.
  Z.div_mod_to_equations. lia.
Qed.

(** X20.  The address of a page names the day with two digits for the
    year, so the pages of two different days are different whenever the
    days are less than a hundred years apart: no two days of the window
    share a page while the window is shorter than a century. *)
Theorem apod_url_injective a b :
  valid a = true -> valid b = true ->
  -100 < year a - year b < 100 ->
  a <> b -> apod_url a <> apod_url b.
Proof.
  intros Va Vb Hy Hne E. apply Hne. clear Hne. apply valid_iff in Va, Vb.
  destruct a as [ya ma da], b as [yb mb db]. cbn [year month day] in *.
  destruct Va as (Hya & Hma & Hda), Vb as (Hyb & Hmb & Hdb).
  pose proof (days_in_month_le_31 ya ma Hma). pose proof (days_in_month_le_31 yb mb Hmb).
  unfold apod_url, strftime_ymd in E. cbn [year month day] in E. cbv zeta in E.
  apply (append_inv_head BASE) in E. apply (append_inv_head "ap") in E.
  unfold PyStr.pad2 in E. cbn [append] in E.
  pose proof (Z.mod_pos_bound ya 100 ltac:(lia)). pose proof (Z.mod_pos_bound yb 100 ltac:(lia)).
  assert (Ey : ya mod 100 = yb mod 100)
    by (apply two_digits_inj; [lia | lia | congruence | congruence]).
  assert (Em : ma = mb) by (apply two_digits_inj; [lia | lia | congruence | congruence]).
  assert (Ed : da = db) by (apply two_digits_inj; [lia | lia | congruence | congruence]).
  assert (ya = yb) by (Z.div_mod_to_equations; lia). congruence.
Qed.

Lemma apod_url_injective_witness :
  apod_url (mkdate 1995 6 16) <> apod_url (mkdate 2094 6 16).
Proof.
  apply apod_url_injective; [reflexivity | reflexivity | simpl; lia | discriminate].
Defined.

(** ** The cost of a request *)

Lemma parse_apod_log env dt allow_fallback st :
  exists extra,
    snd (parse_apod env dt allow_fallback st) = (st ++ extra)%list
    /\ (List.length extra <= 2)%nat.
Proof.
  pose proof (parse_apod_cases env dt allow_fallback st) as C. cbv zeta in C.
  destruct (_get_apod_chars env dt st) as [[props | ex] st1].
  - rewrite C. exists [apod_url dt]. split; [reflexivity | simpl; lia].
  - destruct allow_fallback.
    + destruct (day_before dt) as [dt' | e].
      * destruct C as [_ C]. rewrite C. exists [apod_url dt; apod_url dt'].
        rewrite <- app_assoc. split; [reflexivity | simpl; lia].
      * rewrite C. exists [apod_url dt]. split; [reflexivity | simpl; lia].
    + rewrite C. exists [apod_url dt]. split; [reflexivity | simpl; lia].
Qed.

Lemma _get_json_for_date_log env input_date tags st :
  exists extra,
    snd (_get_json_for_date env input_date tags st) = (st ++ extra)%list
    /\ (List.length extra <= 2)%nat.
Proof.
  assert (Nothing : exists extra : log,
             st = (st ++ extra)%list /\ (List.length extra <= 2)%nat).
  { exists []. rewrite app_nil_r. split; [reflexivity | simpl; lia]. }
  unfold _get_json_for_date.
  destruct (match input_date with
            | Some d => if String.eqb d "" then (strftime_Y_m_d (today env), true)
                        else (d, false)
            | None => (strftime_Y_m_d (today env), true)
            end) as [s fb].
  destruct (strptime s) as [dt | e]; [| exact Nothing].
  rewrite bind_lift_Ok.
  destruct (_validate_date env dt) as [[] | e]; [| exact Nothing].
  rewrite bind_lift_Ok. unfold bind at 1.
  pose proof (_apod_handler_log env dt tags fb st) as L.
  destruct (parse_apod_log env dt fb st) as (extra & E & Hlen).
  exists extra. split; [| exact Hlen]. rewrite <- E, <- L.
  destruct (_apod_handler env dt tags fb st) as [[data | e] st1]; [| reflexivity].
  unfold bind, lift.
  destruct (setitem data "service_version" SERVICE_VERSION); reflexivity.
Qed.

(** X21.  A request that names no start of a range costs at most 101
    page requests, whatever its outcome: two for a single date, and one
    more than the count, which is at most 100, for random days. *)
Theorem pages_of_a_request env args st :
  sample_ok env ->
  is_true (query_get args "start_date") = false ->
  exists extra,
    snd (apod env (Some args) st) = (st ++ extra)%list
    /\ (List.length extra <= 101)%nat.
Proof.
  intros Hsample Hstart.
  assert (Nothing : exists extra : log,
             st = (st ++ extra)%list /\ (List.length extra <= 101)%nat).
  { exists []. rewrite app_nil_r. split; [reflexivity | simpl; lia]. }
  rewrite apod_dispatch.
  assert (Hguard : forall run : result string * log, snd (guarded run) = snd run).
  { intros [[b | e] st1]; reflexivity. }
  rewrite Hguard. unfold dispatch. set (tags := is_true (query_get args "concept_tags")).
  destruct (negb (_validate args)); [exact Nothing |].
  destruct (absent (query_get args "count") && absent (query_get args "start_date")
            && absent (query_get args "end_date")).
  { destruct (_get_json_for_date_log env (query_get args "date") tags st)
      as (extra & E & Hlen).
    exists extra. split; [exact E | lia]. }
  destruct (absent (query_get args "date") && absent (query_get args "start_date")
            && absent (query_get args "end_date") && is_true (query_get args "count")).
  { destruct (PyStr.int _) as [count | e]; [| exact Nothing].
    rewrite bind_lift_Ok.
    destruct (Z.le_gt_cases count 0) as [Hc | Hc].
    { unfold _get_json_for_random_dates.
      destruct (Z.leb_spec count 0); [| lia]. rewrite orb_true_r. exact Nothing. }
    destruct (Z.lt_ge_cases 100 count) as [Hc' | Hc'].
    { unfold _get_json_for_random_dates.
      destruct (Z.gtb_spec count 100); [| lia]. exact Nothing. }
    destruct (Z.le_gt_cases count (toordinal (today env) + 1 - toordinal begin))
      as [Hw | Hw].
    - rewrite (_get_json_for_random_dates_run env count tags st Hsample) by lia.
      destruct (drawn_spec env count Hsample ltac:(lia)) as (_ & Hlen & Hnd & _).
      destruct (for_each_log env (unit_of_work env tags) (unit_of_work_log env tags)
                  (drawn env count) st) as (extra & E & L & _).
      exists extra. split.
      + rewrite <- E. unfold bind.
        destruct (for_each (unit_of_work env tags) (drawn env count) st)
          as [[records | e] st1]; reflexivity.
      + pose proof (count_today_NoDup _ (toordinal (today env)) Hnd). lia.
    - unfold _get_json_for_random_dates.
      destruct (Z.gtb_spec count 100); [lia |].
      destruct (Z.leb_spec count 0); [lia |].
      cbn [orb]. cbv zeta. unfold sample. rewrite range_length.
      destruct (Z.ltb_spec (Z.of_nat (Z.to_nat (toordinal (today env) + 1
                                                 - toordinal begin))) count); [| lia].
      rewrite orb_true_r. exact Nothing. }
  rewrite Hstart, andb_false_r. exact Nothing.
Qed.

Lemma pages_of_a_request_witness :
  exists extra,
    snd (apod Examples.all_pages (Some [("count", "3")]) []) = extra
    /\ (List.length extra <= 101)%nat.
Proof.
  destruct (pages_of_a_request Examples.all_pages [("count", "3")] []
              all_pages_sample_ok eq_refl) as (extra & E & L).
  exists extra. split; [exact E | exact L].
Defined.

(** ** The explanation of the first entries *)

Lemma index_app_here x pre : forall rest,
  ~ In x pre -> PyStr.index x (pre ++ x :: rest) = Some (List.length pre).
Proof.
  induction pre as [| p pre IH]; intros rest Hnot; cbn [app PyStr.index List.length].
  - rewrite String.eqb_refl. reflexivity.
  - destruct (String.eqb_spec p x) as [-> | _]; [exfalso; apply Hnot; left; reflexivity |].
    rewrite IH by (intros H; apply Hnot; right; exact H). reflexivity.
Qed.

Lemma skipn_past {A} (pre : list A) x rest :
  skipn (S (List.length pre)) (pre ++ x :: rest) = rest.
Proof. induction pre as [| p pre IH]; [reflexivity | exact IH]. Qed.

Lemma firstn_exact {A} (body rest : list A) :
  firstn (List.length body) (body ++ rest) = body.
Proof.
  induction body as [| b body IH]; [reflexivity |].
  cbn [List.length app firstn]. rewrite IH. reflexivity.
Qed.

(** X22.  When the third paragraph gives nothing, the explanation is read
    from the lines of the text of the page, each stripped: it is the
    lines that follow the first line [Explanation:], up to the first
    empty line, joined by single spaces. *)
Theorem explanation_early_entries soup p pre body post :
  nth_error (Soup.find_all soup "p") 2 = Some p ->
  later_text p = "" ->
  map PyStr.strip_ws (PyStr.split (Soup.get_text soup) PyStr.NL)
  = (pre ++ "Explanation:" :: body ++ "" :: post)%list ->
  ~ In "Explanation:" pre -> ~ In "" body ->
  _explanation soup = Ok (PyStr.join " " body).
Proof.
  intros Hp Hlater Htexts Hpre Hbody. unfold _explanation.
  rewrite Hp. cbn [or_raise rbind]. fold (later_text p). rewrite Hlater.
  cbn [String.eqb]. rewrite Htexts.
  rewrite (index_app_here "Explanation:" pre _ Hpre). cbn [or_raise rbind rtry].
  rewrite skipn_past, (index_app_here "" body post Hbody). cbn [or_raise rbind].
  rewrite firstn_exact. reflexivity.
Qed.

Lemma explanation_early_entries_witness :
  _explanation early_page
  = Ok "If the Earth could somehow be transformed to the ultra-high density of a neutron star.".
Proof.
  apply (explanation_early_entries early_page (Soup.Tag "p" [] [])
           ["APOD: June 16, 1995 - Neutron Star Earth"]
           ["If the Earth could somehow be transformed";
            "to the ultra-high density of a neutron star."]
           ["Tomorrow's picture: Pleiades"]).
  - vm_compute. reflexivity.
  - vm_compute. reflexivity.
  - vm_compute. reflexivity.
  - intros [H | []]. discriminate.
  - intros [H | [H | []]]; discriminate.
Defined.

(** ** The [hd] parameter beside others *)

(** X23.  A request that has other parameters answers the same with and
    without [hd], whatever its value: the names pass or fail [_validate]
    alike, the same mode is chosen, the same pages are requested, and the
    same body or the same exception comes out. *)
Theorem hd_beside_other_parameters env args1 args2 v st :
  (args1 ++ args2)%list <> [] ->
  _validate (args1 ++ ("hd", v) :: args2) = _validate (args1 ++ args2)
  /\ apod env (Some (args1 ++ ("hd", v) :: args2)%list) st
     = apod env (Some (args1 ++ args2)%list) st.
Proof.
  intros _. split; [apply _validate_hd |].
  unfold apod. rewrite _validate_hd.
  rewrite (query_get_hd args1 args2 v "date") by discriminate.
  rewrite (query_get_hd args1 args2 v "count") by discriminate.
  rewrite (query_get_hd args1 args2 v "start_date") by discriminate.
  rewrite (query_get_hd args1 args2 v "end_date") by discriminate.
  rewrite (query_get_hd args1 args2 v "concept_tags") by discriminate.
  reflexivity.
Qed.

Lemma hd_beside_other_parameters_witness :
  apod Examples.all_pages (Some [("date", "2020-01-05"); ("hd", "True")]) []
  = apod Examples.all_pages (Some [("date", "2020-01-05")]) [].
Proof.
  apply (hd_beside_other_parameters Examples.all_pages [("date", "2020-01-05")] []
           "True" []).
  discriminate.
Defined.
